(** * stcc_backend: news-and-events media reconciliation, listing and
      datetime handling

    A shallow embedding of the parts of the service that decide how image
    references are normalised (config/upload.js), how the news-and-events
    model builds its listing query and converts datetimes
    (models/NewsAndEvents.js, both copies present in the repository), how
    the image model touches its table (models/NewsAndEventsImage.js), what
    the update validator accepts (middleware/validation.js) and how the
    controller (controllers/newsAndEventsController.js) orchestrates them.

    Conventions.
    - A JavaScript string is modelled by the [string] of the bytes of its
      UTF-8 encoding; white space and line terminators are the ones of the
      language (U+00A0, U+2028, U+FEFF and the like included), recognised
      by their encodings.
    - The numbers of this program are integers held in doubles.  A number
      is modelled by a [Z]: below 2^53 every integer is a double; where
      the platform rounds (reading digits, subtracting, multiplying,
      printing) the model rounds to the nearest double, ties to even, and
      the power 2^1024, which no double reaches, stands for [Infinity].
      [NaN] is no number of the model: [parseInt] answers [None] for it.
    - Builtins of the platform whose behaviour is not repository code (the
      WHATWG URL parser, [Date] parsing, [JSON.parse], the library
      validators, the storage engine's LIKE and DATETIME comparisons, the
      process environment, the outcome of [fs.unlink]) are fields of a
      [Runtime] record; theorems quantify over every runtime. *)

From Stdlib Require Import ZArith List String Ascii Bool Lia.
From Stdlib Require Import Numbers.DecimalString.
Import ListNotations.

Local Open Scope string_scope.
Local Open Scope Z_scope.

(* ===================================================================== *)
(** * JavaScript values and string builtins                               *)
(* ===================================================================== *)

Module JS.

(** The JavaScript values that reach the modelled functions.  [JNum n]
    is the number nearest to the integer [n]. *)
Inductive JsVal : Type :=
| JUndefined
| JNull
| JBool (b : bool)
| JNum (n : Z)
| JStr (s : string).

(** [typeof v]. *)
Definition typeof (v : JsVal) : string :=
  match v with
  | JUndefined => "undefined"
  | JNull => "object"
  | JBool _ => "boolean"
  | JNum _ => "number"
  | JStr _ => "string"
  end.

(** Decimal digits of an integer. *)
Definition Z_to_string (n : Z) : string :=
  NilZero.string_of_int (Z.to_int n).

(** The number that stands for [Infinity]: the least power of two that is
    no double. *)
Definition infinity : Z := 2 ^ 1024.

(** The double nearest to [z], ties to even: integers below 2^53 are
    doubles; above, a double has 53 significant bits; from 2^1024 - 2^970
    on the nearest double is an infinity. *)
Definition double (z : Z) : Z :=
  let a := Z.abs z in
  if a <? 2 ^ 53 then z
  else
    let shift := Z.log2 a - 52 in
    let q := Z.shiftr a shift in
    let r := a - Z.shiftl q shift in
    let half := Z.shiftl 1 (shift - 1) in
    let q' := if (half <? r) || ((r =? half) && Z.odd q) then q + 1 else q in
    let x := Z.shiftl q' shift in
    Z.sgn z * (if infinity <=? x then infinity else x).

(** Number of decimal digits of a positive integer. *)
Definition digits (a : Z) : Z := Z.of_nat (String.length (Z_to_string a)).

(** The decimal with the fewest significant digits that reads back as the
    double [x] (positive and finite); of two with as many digits the nearer
    one, and of two as near the one whose last digit is even.  [k] is the
    number of significant digits tried. *)
Fixpoint shortest_from (fuel : nat) (k : Z) (x : Z) : Z :=
  match fuel with
  | O => x
  | S fuel' =>
      if digits x <=? k then x
      else
        let p := 10 ^ (digits x - k) in
        let lo := (x / p) * p in
        let hi := lo + p in
        match double lo =? x, double hi =? x with
        | true, true =>
            if x - lo <? hi - x then lo
            else if hi - x <? x - lo then hi
            else if Z.even (x / p) then lo else hi
        | true, false => lo
        | false, true => hi
        | false, false => shortest_from fuel' (k + 1) x
        end
  end.

(** The decimal [String(n)] shows, as a number: [n] itself below 2^53,
    beyond that the shortest decimal that reads back as the double. *)
Definition printed (n : Z) : Z :=
  if Z.abs n <? 2 ^ 53 then n
  else
    let x := Z.abs (double n) in
    Z.sgn n * (if infinity <=? x then infinity else shortest_from 17 1 x).

(** [m] without its trailing zeros. *)
Fixpoint strip_zeros (fuel : nat) (m : Z) : Z :=
  match fuel with
  | O => m
  | S fuel' =>
      if (0 <? m) && (m mod 10 =? 0) then strip_zeros fuel' (m / 10) else m
  end.

(** [d.ddde+N]: the exponent form of the decimal [c] (positive). *)
Definition exponent_form (c : Z) : string :=
  match Z_to_string (strip_zeros (Z.to_nat (digits c)) c) with
  | String d rest =>
      String d (match rest with
                | EmptyString => EmptyString
                | _ => String "." rest
                end)
      ++ "e+" ++ Z_to_string (digits c - 1)
  | EmptyString => EmptyString
  end.

(** [String(n)] for a number: its digits when it is below 2^53; from there
    on the shortest decimal that reads back as it, written out in full
    below 10^21 and in exponent form from 10^21 on. *)
Definition number_to_string (n : Z) : string :=
  if Z.abs n <? 2 ^ 53 then Z_to_string n
  else
    let c := Z.abs (printed n) in
    (if n <? 0 then "-" else "")
    ++ (if infinity <=? c then "Infinity"
        else if digits c <=? 21 then Z_to_string c
        else exponent_form c).

(** [String(v)], the conversion a template literal applies. *)
Definition to_string (v : JsVal) : string :=
  match v with
  | JUndefined => "undefined"
  | JNull => "null"
  | JBool true => "true"
  | JBool false => "false"
  | JNum n => number_to_string n
  | JStr s => s
  end.

(** JavaScript truthiness ([!v] is its negation). *)
Definition truthy (v : JsVal) : bool :=
  match v with
  | JUndefined | JNull => false
  | JBool b => b
  | JNum n => negb (n =? 0)
  | JStr s => negb (String.eqb s "")
  end.

(** [s.startsWith(p)]. *)
Definition startsWith (s p : string) : bool := String.prefix p s.

(** [s.includes(sub)]. *)
Fixpoint includes (s sub : string) : bool :=
  String.prefix sub s
  || match s with
     | EmptyString => false
     | String _ s' => includes s' sub
     end.

(** Removes [p] from the front of [s] when it is there. *)
Fixpoint strip_prefix (p s : string) : option string :=
  match p with
  | EmptyString => Some s
  | String a p' =>
      match s with
      | EmptyString => None
      | String b s' => if Ascii.eqb a b then strip_prefix p' s' else None
      end
  end.

(** The string with the given bytes. *)
Definition bytes (l : list nat) : string :=
  string_of_list_ascii (map ascii_of_nat l).

(** The white space of the language (WhiteSpace and LineTerminator): TAB,
    LF, VT, FF, CR, SP, U+00A0, U+1680, U+2000 to U+200A, U+2028, U+2029,
    U+202F, U+205F, U+3000 and U+FEFF, each in its UTF-8 encoding. *)
Definition white_space : list string :=
  map bytes
    [[9]; [10]; [11]; [12]; [13]; [32];
     [194; 160]; [225; 154; 128];
     [226; 128; 128]; [226; 128; 129]; [226; 128; 130]; [226; 128; 131];
     [226; 128; 132]; [226; 128; 133]; [226; 128; 134]; [226; 128; 135];
     [226; 128; 136]; [226; 128; 137]; [226; 128; 138];
     [226; 128; 168]; [226; 128; 169]; [226; 128; 175]; [226; 129; 159];
     [227; 128; 128]; [239; 187; 191]]%nat.

(** The line terminators, which the regular-expression dot does not
    match: LF, CR, U+2028 and U+2029. *)
Definition line_terminators : list string :=
  map bytes [[10]; [13]; [226; 128; 168]; [226; 128; 169]]%nat.

(** [s] without the first of [ps] that it starts with. *)
Fixpoint strip_any (ps : list string) (s : string) : option string :=
  match ps with
  | [] => None
  | p :: ps' =>
      match strip_prefix p s with
      | Some r => Some r
      | None => strip_any ps' s
      end
  end.

(** [s] without every leading occurrence of one of [ps]. *)
Fixpoint strip_all (ps : list string) (fuel : nat) (s : string) : string :=
  match fuel with
  | O => s
  | S fuel' =>
      match strip_any ps s with
      | Some r => strip_all ps fuel' r
      | None => s
      end
  end.

Definition is_digit (c : ascii) : bool :=
  let n := nat_of_ascii c in ((48 <=? n) && (n <=? 57))%nat.

Definition starts_with_line_terminator (s : string) : bool :=
  match strip_any line_terminators s with
  | Some _ => true
  | None => false
  end.

Definition rev_string (s : string) : string :=
  string_of_list_ascii (rev (list_ascii_of_string s)).

(** [s.trimStart()]. *)
Definition trimStart (s : string) : string :=
  strip_all white_space (String.length s) s.

(** [s.trimEnd()]: the same from the other end. *)
Definition trimEnd (s : string) : string :=
  rev_string
    (strip_all (map rev_string white_space) (String.length s) (rev_string s)).

(** [s.trim()]. *)
Definition trim (s : string) : string := trimEnd (trimStart s).

(** [s.length], the number of UTF-16 code units: one for every character,
    two for a character outside the basic plane (four bytes in UTF-8). *)
Fixpoint utf16_length (s : string) : nat :=
  match s with
  | EmptyString => O
  | String c s' =>
      let n := nat_of_ascii c in
      ((if (128 <=? n) && (n <? 192) then 0
        else if 240 <=? n then 2 else 1) + utf16_length s')%nat
  end.

(** The number of characters (code points) of [s]. *)
Fixpoint code_points (s : string) : nat :=
  match s with
  | EmptyString => O
  | String c s' =>
      let n := nat_of_ascii c in
      ((if (128 <=? n) && (n <? 192) then 0 else 1) + code_points s')%nat
  end.

(** Value of a digit character in bases up to 36. *)
Definition digit_val (c : ascii) : option Z :=
  let n := Z.of_nat (nat_of_ascii c) in
  if (48 <=? n) && (n <=? 57) then Some (n - 48)
  else if (97 <=? n) && (n <=? 122) then Some (n - 87)
  else if (65 <=? n) && (n <=? 90) then Some (n - 55)
  else None.

(** Reads the longest run of base-[r] digits at the front of [s];
    [acc] is [None] as long as no digit was read. *)
Fixpoint read_digits (r : Z) (s : string) (acc : option Z) : option Z :=
  match s with
  | EmptyString => acc
  | String c s' =>
      match digit_val c with
      | Some d =>
          if d <? r
          then read_digits r s'
                 (Some (match acc with Some a => a * r + d | None => d end))
          else acc
      | None => acc
      end
  end.

(** [parseInt(s, radix)] on a string; [None] is NaN.  [radix = None] is
    the one-argument call, which also accepts a [0x] prefix; the only
    explicit radix in this program is 10.  The result is a number, that
    is, the double nearest to what the digits say. *)
Definition parseInt_string (s : string) (radix : option Z) : option Z :=
  let s0 := trimStart s in
  let '(sign, s1) :=
    match s0 with
    | String "-" r => (-1, r)
    | String "+" r => (1, r)
    | _ => (1, s0)
    end in
  let '(r, s2) :=
    match radix with
    | Some r => (r, s1)
    | None =>
        match s1 with
        | String "0" (String "x" t) => (16, t)
        | String "0" (String "X" t) => (16, t)
        | _ => (10, s1)
        end
    end in
  match read_digits r s2 None with
  | Some n => Some (double (sign * n))
  | None => None
  end.

(** [parseInt(v, radix)]: the argument is first converted to a string. *)
Definition parseInt (v : JsVal) (radix : option Z) : option Z :=
  parseInt_string (to_string v) radix.

(** [String(n).padStart(2, "0")]. *)
Definition padStart2 (s : string) : string :=
  match s with
  | EmptyString => "00"
  | String c EmptyString => String "0" s
  | _ => s
  end.

(** POSIX [path.basename(p)]: trailing slashes are ignored and the part
    after the last remaining slash is returned. *)
Fixpoint drop_slashes (l : list ascii) : list ascii :=
  match l with
  | "/"%char :: l' => drop_slashes l'
  | _ => l
  end.

Fixpoint take_segment (l : list ascii) : list ascii :=
  match l with
  | [] => []
  | c :: l' => if Ascii.eqb c "/" then [] else c :: take_segment l'
  end.

Definition basename (p : string) : string :=
  string_of_list_ascii
    (rev (take_segment (drop_slashes (rev (list_ascii_of_string p))))).

End JS.

Import JS.

(* ===================================================================== *)
(** * Platform, storage and file system                                   *)
(* ===================================================================== *)

(** The three upload directories of config/upload.js. *)
Inductive Dir : Type := uploadsDir | coverImagesDir | newsImagesDir.

Definition Dir_eqb (a b : Dir) : bool :=
  match a, b with
  | uploadsDir, uploadsDir
  | coverImagesDir, coverImagesDir
  | newsImagesDir, newsImagesDir => true
  | _, _ => false
  end.

(** Values bound to the placeholders of a prepared statement. *)
Inductive SqlValue : Type :=
| SqlNull
| SqlNaN
| SqlInt (n : Z)
| SqlStr (s : string).

(** An entry of an array of images: a string, or a value of another kind
    (a number, a boolean, [null], an object, an array), of which the
    handlers only see whether it is truthy. *)
Inductive ImageEntry : Type :=
| EntryString (s : string)
| EntryOther (is_truthy : bool).

(** Result of [JSON.parse] as the handlers use it. *)
Inductive JsonResult : Type :=
| JsonThrows
| JsonArray (l : list ImageEntry)
| JsonOther.

(** What the platform provides and the repository only calls. *)
Record Runtime : Type := {
  (** [new URL(s).pathname]; [None] when the constructor throws. *)
  URL_pathname : string -> option string;
  (** [new URL(s).host]; only used to say what an external URL is. *)
  URL_host : string -> option string;
  (** [process.env.BASE_URL] and [process.env.PORT]. *)
  env_BASE_URL : option string;
  env_PORT : option string;
  (** Time value of [new Date(s)] in milliseconds; [None] is Invalid Date. *)
  Date_parse : string -> option Z;
  (** Local time zone adjustment at a UTC time value, in milliseconds. *)
  LocalTZA : Z -> Z;
  (** [process.env.NODE_ENV]. *)
  env_NODE_ENV : option string;
  (** [JSON.parse(s)]: it throws, yields an array, or yields another
      value. *)
  JSON_parse : string -> JsonResult;
  (** The library validators [isInt] and [isISO8601], and the number of
      characters the library validator [isLength] counts in a string. *)
  validator_isInt : string -> bool;
  validator_isISO8601 : string -> bool;
  validator_length : string -> nat;
  (** Whether [fs.unlink] on an existing file reports an error. *)
  unlink_fails : Dir -> string -> bool;
  (** Storage engine: [sql_like column pattern] is [column LIKE pattern] on
      a possibly NULL column, [sql_datetime_le a b] is [a <= b] on
      DATETIME values. *)
  sql_like : option string -> string -> bool;
  sql_datetime_le : string -> string -> bool
}.

Record NewsRow : Type := {
  news_id : Z;
  news_category_id : Z;
  news_title : string;
  news_description : option string;
  news_location : option string;
  news_cover_image : option string;
  news_date_time : string;
  news_status : option string;
  news_created_by : option Z;
  news_created_at : Z
}.

Record ImageRow : Type := {
  img_id : Z;
  img_news_and_events_id : Z;
  image_url : string;
  image_order : Z;
  img_created_at : Z
}.

(** Observable effects, in the order the code issues them. *)
Inductive Event : Type :=
| DbExecute (sql : string) (params : list SqlValue)
| FsUnlink (dir : Dir) (filename : string).

(** Database tables, upload directories, clock and effect log.  A file is
    identified by the directory and the name that are handed to
    [path.join].  For a plain name (one path segment other than [.] and
    [..]) that is the file of that name directly inside the directory; a
    name with several segments or with dots is kept as it is spelt and not
    resolved, so the store says nothing about which file of another place
    it stands for. *)
Record World : Type := {
  w_news : list NewsRow;
  w_images : list ImageRow;
  w_categories : list Z;
  w_files : list (Dir * string);
  w_next_image_id : Z;
  w_now : Z;
  w_log : list Event
}.

Definition emit (e : Event) (w : World) : World :=
  {| w_news := w_news w; w_images := w_images w;
     w_categories := w_categories w; w_files := w_files w;
     w_next_image_id := w_next_image_id w; w_now := w_now w;
     w_log := w_log w ++ [e] |}.

Definition set_files (fs : list (Dir * string)) (w : World) : World :=
  {| w_news := w_news w; w_images := w_images w;
     w_categories := w_categories w; w_files := fs;
     w_next_image_id := w_next_image_id w; w_now := w_now w;
     w_log := w_log w |}.

Definition set_images (imgs : list ImageRow) (w : World) : World :=
  {| w_news := w_news w; w_images := imgs;
     w_categories := w_categories w; w_files := w_files w;
     w_next_image_id := w_next_image_id w; w_now := w_now w;
     w_log := w_log w |}.

Definition set_news (rows : list NewsRow) (w : World) : World :=
  {| w_news := rows; w_images := w_images w;
     w_categories := w_categories w; w_files := w_files w;
     w_next_image_id := w_next_image_id w; w_now := w_now w;
     w_log := w_log w |}.

Definition set_next_image_id (n : Z) (w : World) : World :=
  {| w_news := w_news w; w_images := w_images w;
     w_categories := w_categories w; w_files := w_files w;
     w_next_image_id := n; w_now := w_now w;
     w_log := w_log w |}.

(* ===================================================================== *)
(** * config/upload.js                                                    *)
(* ===================================================================== *)

Module Upload.

(** The tail [(.+)$] of the pattern: at least one character and no line
    terminator up to the end of the input. *)
Fixpoint no_line_terminator (s : string) : bool :=
  negb (starts_with_line_terminator s)
  && match s with
     | EmptyString => true
     | String _ s' => no_line_terminator s'
     end.

Definition dot_plus_end (s : string) : option string :=
  match s with
  | EmptyString => None
  | _ => if no_line_terminator s then Some s else None
  end.

Definition orelse {A} (a b : option A) : option A :=
  match a with Some _ => a | None => b end.

(** [uploads\/(cover-images|news-images)\/(.+)$] at the front of [s]. *)
Definition match_uploads_tail (s : string) : option (string * string) :=
  match strip_prefix "uploads/" s with
  | None => None
  | Some r =>
      let alt (d : string) :=
        match strip_prefix d r with
        | None => None
        | Some r1 =>
            match strip_prefix "/" r1 with
            | None => None
            | Some r2 =>
                match dot_plus_end r2 with
                | Some f => Some (d, f)
                | None => None
                end
            end
        end in
      orelse (alt "cover-images") (alt "news-images")
  end.

(** The whole pattern anchored at the front of [s]: the optional
    [public/] group is tried first, then skipped. *)
Definition match_uploads_here (s : string) : option (string * string) :=
  match strip_prefix "/" s with
  | None => None
  | Some r =>
      orelse
        (match strip_prefix "public/" r with
         | Some r' => match_uploads_tail r'
         | None => None
         end)
        (match_uploads_tail r)
  end.

(** [urlPath.match(/\/(?:public\/)?uploads\/(cover-images|news-images)\/(.+)$/)]:
    the leftmost position where the pattern matches; the result is the
    pair of capture groups. *)
Fixpoint match_uploads (s : string) : option (string * string) :=
  match match_uploads_here s with
  | Some m => Some m
  | None =>
      match s with
      | EmptyString => None
      | String _ s' => match_uploads s'
      end
  end.

Definition is_http (s : string) : bool :=
  startsWith s "http://" || startsWith s "https://".

Definition is_relative (s : string) : bool :=
  startsWith s "/cover-images/" || startsWith s "/news-images/".

Section WithRuntime.
Variable rt : Runtime.

(** [getRelativePath(filePath, fileType)]; [None] is [null]. *)
Definition getRelativePath (filePath : option string) (fileType : string)
  : option string :=
  match filePath with
  | None => None
  | Some "" => None
  | Some filePath =>
      if is_http filePath then
        match URL_pathname rt filePath with
        | Some urlPath =>
            match match_uploads urlPath with
            | Some (m1, m2) => Some ("/" ++ m1 ++ "/" ++ m2)
            | None => Some filePath
            end
        | None => Some filePath
        end
      else if is_relative filePath then Some filePath
      else
        let filename := basename filePath in
        if String.eqb fileType "cover" then Some ("/cover-images/" ++ filename)
        else if String.eqb fileType "news" then Some ("/news-images/" ++ filename)
        else Some filePath
  end.

(** [extractFilenameFromUrl(url)]. *)
Definition extractFilenameFromUrl (url : option string) : option string :=
  match url with
  | None => None
  | Some "" => None
  | Some url =>
      if is_relative url then Some (basename url)
      else if negb (startsWith url "http://") && negb (startsWith url "https://")
      then Some url
      else
        match URL_pathname rt url with
        | Some urlPath => Some (basename urlPath)
        | None => None
        end
  end.

(** [process.env.BASE_URL || `http://localhost:${process.env.PORT || 3000}`]. *)
Definition baseUrl : string :=
  match env_BASE_URL rt with
  | Some (String c b) => String c b
  | _ =>
      "http://localhost:" ++
      match env_PORT rt with
      | Some (String c p) => String c p
      | _ => "3000"
      end
  end.

(** How the promise returned by [deleteFile] settles. *)
Inductive Settled : Type := Resolved (b : bool) | Rejected.

Definition file_eqb (a b : Dir * string) : bool :=
  Dir_eqb (fst a) (fst b) && String.eqb (snd a) (snd b).

Definition existsSync (w : World) (f : Dir * string) : bool :=
  existsb (file_eqb f) (w_files w).

Definition remove_file (f : Dir * string) (w : World) : World :=
  set_files (filter (fun g => negb (file_eqb f g)) (w_files w)) w.

(** [deleteFile(fileUrl, fileType)].  The file it looks for is
    [path.join(fileDir, filename)], here the pair of the two: for a plain
    [filename] the file of that name in [fileDir], which is what the last
    segment of a stored reference gives unless it is [.] or [..]. *)
Definition deleteFile (fileUrl : option string) (fileType : string)
           (w : World) : World * Settled :=
  match fileUrl with
  | None => (w, Resolved false)
  | Some "" => (w, Resolved false)
  | Some url =>
      if is_http url
         && (negb (includes url baseUrl) && negb (includes url "localhost"))
      then (w, Resolved false)
      else
        match extractFilenameFromUrl fileUrl with
        | None => (w, Resolved false)
        | Some "" => (w, Resolved false)
        | Some filename =>
            let fileDir :=
              if String.eqb fileType "cover" then coverImagesDir
              else if String.eqb fileType "news" then newsImagesDir
              else uploadsDir in
            if existsSync w (fileDir, filename) then
              let w1 := emit (FsUnlink fileDir filename) w in
              if unlink_fails rt fileDir filename
              then (w1, Rejected)
              else (remove_file (fileDir, filename) w1, Resolved true)
            else (w, Resolved false)
        end
  end.

(** [deleteFiles(fileUrls, fileType)]: every deletion is attempted and
    the outcomes are discarded ([Promise.allSettled]).  The deletions are
    taken in the order of the list, each one finished before the next
    begins. *)
Fixpoint deleteFiles (fileUrls : list (option string)) (fileType : string)
         (w : World) : World :=
  match fileUrls with
  | [] => w
  | u :: rest => deleteFiles rest fileType (fst (deleteFile u fileType w))
  end.

End WithRuntime.

End Upload.

Import Upload.

(* ===================================================================== *)
(** * Results of fallible code                                            *)
(* ===================================================================== *)

(** A call either returns, throws [new Error(message)], or fails with an
    error of the storage engine that carries [code]. *)
Inductive Outcome (A : Type) : Type :=
| Return (a : A)
| Throw (message : string)
| DbError (code : string).
Arguments Return {A} a.
Arguments Throw {A} message.
Arguments DbError {A} code.

(** [try { body } catch (error) { throw new Error(wrap(error.message)) }]. *)
Definition rethrow {A} (body : Outcome A) (wrap : string -> string) : Outcome A :=
  match body with
  | Return a => Return a
  | Throw m => Throw (wrap m)
  | DbError c => Throw (wrap c)
  end.

Definition andThen {A B} (o : Outcome A) (k : A -> Outcome B) : Outcome B :=
  match o with
  | Return a => k a
  | Throw m => Throw m
  | DbError c => DbError c
  end.

(* ===================================================================== *)
(** * Date fields                                                         *)
(* ===================================================================== *)

Module DateFields.

Definition msPerDay : Z := 86400000.

(** Proleptic Gregorian (year, month 1..12, day) of a day number counted
    from 1970-01-01, as the UTC getters of [Date] compute them. *)
Definition civil_from_days (days : Z) : Z * Z * Z :=
  let z := days + 719468 in
  let era := z / 146097 in
  let doe := z - era * 146097 in
  let yoe := (doe - doe / 1460 + doe / 36524 - doe / 146096) / 365 in
  let y := yoe + era * 400 in
  let doy := doe - (365 * yoe + yoe / 4 - yoe / 100) in
  let mp := (5 * doy + 2) / 153 in
  let d := doy - (153 * mp + 2) / 5 + 1 in
  let m := if mp <? 10 then mp + 3 else mp - 9 in
  (if m <=? 2 then y + 1 else y, m, d).

Definition getUTCFullYear (t : Z) : Z := fst (fst (civil_from_days (t / msPerDay))).
(** Zero-based, as in JavaScript. *)
Definition getUTCMonth (t : Z) : Z := snd (fst (civil_from_days (t / msPerDay))) - 1.
Definition getUTCDate (t : Z) : Z := snd (civil_from_days (t / msPerDay)).
Definition getUTCHours (t : Z) : Z := (t / 3600000) mod 24.
Definition getUTCMinutes (t : Z) : Z := (t / 60000) mod 60.
Definition getUTCSeconds (t : Z) : Z := (t / 1000) mod 60.

End DateFields.

(** One position of a fixed-width pattern. *)
Inductive Pat : Type := PDigit | PChar (c : ascii).

Fixpoint match_pat (p : list Pat) (s : string) : bool :=
  match p, s with
  | [], EmptyString => true
  | PDigit :: p', String c s' => is_digit c && match_pat p' s'
  | PChar a :: p', String c s' => Ascii.eqb a c && match_pat p' s'
  | _, _ => false
  end.

(** [/^\d{4}-\d{2}-\d{2} \d{2}:\d{2}:\d{2}$/.test(s)]. *)
Definition mysql_datetime_re (s : string) : bool :=
  match_pat
    [PDigit; PDigit; PDigit; PDigit; PChar "-"; PDigit; PDigit; PChar "-";
     PDigit; PDigit; PChar " "; PDigit; PDigit; PChar ":"; PDigit; PDigit;
     PChar ":"; PDigit; PDigit] s.

(** [`${year}-${month}-${day} ${hours}:${minutes}:${seconds}`] with the
    two-digit padding of every field but the year. *)
Definition format_fields (year month day hours minutes seconds : Z) : string :=
  Z_to_string year ++ "-" ++ padStart2 (Z_to_string month) ++ "-"
  ++ padStart2 (Z_to_string day) ++ " " ++ padStart2 (Z_to_string hours) ++ ":"
  ++ padStart2 (Z_to_string minutes) ++ ":" ++ padStart2 (Z_to_string seconds).

(* ===================================================================== *)
(** * The news-and-events model (the copy with validated filters)         *)
(* ===================================================================== *)

(** The filter object handed to [findAll] and [count]. *)
Record Filters : Type := {
  f_category_id : JsVal;
  f_status : JsVal;
  f_search : JsVal;
  f_date_from : JsVal;
  f_date_to : JsVal;
  f_limit : JsVal;
  f_offset : JsVal
}.

(** A statement under construction: its text, the values pushed for its
    placeholders, and the meaning of the WHERE conditions and of the
    LIMIT/OFFSET appended so far. *)
Record Query : Type := {
  q_text : string;
  q_params : list SqlValue;
  q_where : NewsRow -> bool;
  q_limit : option (Z * Z)
}.

(** [query += text; params.push(...values)], with the condition added. *)
Definition add_clause (text : string) (values : list SqlValue)
           (cond : NewsRow -> bool) (q : Query) : Query :=
  {| q_text := q_text q ++ text;
     q_params := q_params q ++ values;
     q_where := fun r => q_where q r && cond r;
     q_limit := q_limit q |}.

(** [query += text; params.push(...values)] for a LIMIT/OFFSET tail. *)
Definition add_limit (text : string) (values : list SqlValue)
           (lim off : Z) (q : Query) : Query :=
  {| q_text := q_text q ++ text;
     q_params := q_params q ++ values;
     q_where := q_where q;
     q_limit := Some (lim, off) |}.

Definition add_text (text : string) (q : Query) : Query :=
  {| q_text := q_text q ++ text;
     q_params := q_params q;
     q_where := q_where q;
     q_limit := q_limit q |}.

(** [(query.match(/\?/g) || []).length]. *)
Fixpoint count_placeholders (s : string) : nat :=
  match s with
  | EmptyString => O
  | String c s' => (if Ascii.eqb c "?" then 1 else 0)%nat + count_placeholders s'
  end.

Definition is_nullish (v : JsVal) : bool :=
  match v with JUndefined | JNull => true | _ => false end.

(** [v !== undefined && v !== null && v !== ""]. *)
Definition is_present (v : JsVal) : bool :=
  match v with
  | JUndefined | JNull => false
  | JStr s => negb (String.eqb s "")
  | _ => true
  end.

Definition sql_is_null (v : SqlValue) : bool :=
  match v with SqlNull => true | _ => false end.

Section Engine.
Variable rt : Runtime.

(** Meaning of the conditions the model appends. *)
Definition cond_category (c : Z) (r : NewsRow) : bool := news_category_id r =? c.
Definition cond_status (s : string) (r : NewsRow) : bool :=
  match news_status r with
  | Some x => String.eqb x s
  | None => false
  end.
Definition cond_search (term : string) (r : NewsRow) : bool :=
  sql_like rt (Some (news_title r)) term
  || sql_like rt (news_description r) term
  || sql_like rt (news_location r) term.
Definition cond_date_from (d : string) (r : NewsRow) : bool :=
  sql_datetime_le rt d (news_date_time r).
Definition cond_date_to (d : string) (r : NewsRow) : bool :=
  sql_datetime_le rt (news_date_time r) d.

(** [ORDER BY n.date_time DESC, n.created_at DESC]: whether [a] may come
    before [b]. *)
Definition news_before (a b : NewsRow) : bool :=
  if sql_datetime_le rt (news_date_time a) (news_date_time b)
  then sql_datetime_le rt (news_date_time b) (news_date_time a)
       && (news_created_at b <=? news_created_at a)
  else true.

Fixpoint insert_sorted {A} (le : A -> A -> bool) (x : A) (l : list A) : list A :=
  match l with
  | [] => [x]
  | y :: l' => if le x y then x :: l else y :: insert_sorted le x l'
  end.

Definition sort_by {A} (le : A -> A -> bool) (l : list A) : list A :=
  fold_right (insert_sorted le) [] l.

(** Rows the engine returns for a listing statement. *)
Definition select_news (q : Query) (w : World) : list NewsRow :=
  let rows := sort_by news_before (filter (q_where q) (w_news w)) in
  match q_limit q with
  | Some (lim, off) => firstn (Z.to_nat lim) (skipn (Z.to_nat off) rows)
  | None => rows
  end.

(** Whether the engine accepts the LIMIT and OFFSET written into the text
    of a statement: they must be integer literals below 2^64; a larger
    number, one in exponent form and [Infinity] are syntax errors. *)
Definition limit_accepted (q : Query) : bool :=
  match q_limit q with
  | Some (lim, off) => (lim <? 2 ^ 64) && (off <? 2 ^ 64)
  | None => true
  end.
End Engine.

Module NewsAndEvents.

Section WithRuntime.
Variable rt : Runtime.

(** [formatDateTimeForMySQL(dateTimeString)]. *)
Definition formatDateTimeForMySQL (dateTimeString : JsVal) : Outcome JsVal :=
  match dateTimeString with
  | JNull | JUndefined => Return dateTimeString
  | JStr s =>
      let trimmed := trim s in
      if String.eqb trimmed "" then Throw "Empty datetime string is not allowed"
      else if mysql_datetime_re trimmed then Return (JStr trimmed)
      else
        rethrow
          (match Date_parse rt trimmed with
           | None => Throw ("Invalid date: " ++ trimmed)
           | Some t =>
               let formatted :=
                 format_fields
                   (DateFields.getUTCFullYear t)
                   (DateFields.getUTCMonth t + 1)
                   (DateFields.getUTCDate t)
                   (DateFields.getUTCHours t)
                   (DateFields.getUTCMinutes t)
                   (DateFields.getUTCSeconds t) in
               if negb (mysql_datetime_re formatted)
               then Throw ("Failed to format datetime correctly: " ++ formatted)
               else Return (JStr formatted)
           end)
          (fun m => "Invalid datetime format: " ++ trimmed ++ ". " ++ m)
  | v => Throw ("Expected string, got " ++ typeof v ++ ": " ++ to_string v)
  end.

Definition base_select : string :=
  "SELECT n.*, c.name as category_name, c.slug as category_slug,
                 a.name as created_by_name
                 FROM news_and_events n
                 LEFT JOIN categories c ON n.category_id = c.id
                 LEFT JOIN admins a ON n.created_by = a.id
                 WHERE 1=1".

Definition query0 : Query :=
  {| q_text := base_select; q_params := [];
     q_where := fun _ => true; q_limit := None |}.

Definition step_category (filters : Filters) (q : Query) : Outcome Query :=
  if is_present (f_category_id filters) then
    match parseInt (f_category_id filters) (Some 10) with
    | None => Throw ("Invalid category_id: " ++ to_string (f_category_id filters))
    | Some categoryId =>
        Return (add_clause " AND n.category_id = ?" [SqlInt categoryId]
                  (cond_category categoryId) q)
    end
  else Return q.

Definition step_status (filters : Filters) (q : Query) : Outcome Query :=
  if is_present (f_status filters) then
    match f_status filters with
    | JStr s => Return (add_clause " AND n.status = ?" [SqlStr s] (cond_status s) q)
    | v => Throw ("Invalid status type: " ++ typeof v)
    end
  else Return q.

Definition step_search (filters : Filters) (q : Query) : Outcome Query :=
  if is_present (f_search filters) then
    match f_search filters with
    | JStr s =>
        let searchTerm := "%" ++ trim s ++ "%" in
        Return (add_clause
                  " AND (n.title LIKE ? OR n.description LIKE ? OR n.location LIKE ?)"
                  [SqlStr searchTerm; SqlStr searchTerm; SqlStr searchTerm]
                  (cond_search rt searchTerm) q)
    | v => Throw ("Invalid search type: " ++ typeof v)
    end
  else Return q.

(** The shared shape of the [date_from] and [date_to] blocks. *)
Definition step_date (value : JsVal) (name clause : string)
           (cond : string -> NewsRow -> bool) (q : Query) : Outcome Query :=
  match value with
  | JStr s =>
      if negb (String.eqb s "") && negb (String.eqb (trim s) "") then
        rethrow
          (match formatDateTimeForMySQL value with
           | Throw m => Throw m
           | DbError c => DbError c
           | Return (JStr (String c f)) =>
               Return (add_clause clause [SqlStr (String c f)] (cond (String c f)) q)
           | Return v =>
               Throw ("formatDateTimeForMySQL returned invalid value: " ++ to_string v)
           end)
          (fun m => "Invalid " ++ name ++ " format: " ++ s ++ ". " ++ m)
      else Return q
  | _ => Return q
  end.

Definition step_limit (filters : Filters) (q : Query) : Outcome Query :=
  if negb (is_nullish (f_limit filters)) then
    match parseInt (f_limit filters) (Some 10) with
    | None => Throw ("Invalid limit value: " ++ to_string (f_limit filters))
    | Some limit =>
        if limit <? 1
        then Throw ("Invalid limit value: " ++ to_string (f_limit filters))
        else if negb (is_nullish (f_offset filters)) then
          match parseInt (f_offset filters) (Some 10) with
          | None => Throw ("Invalid offset value: " ++ to_string (f_offset filters))
          | Some offset =>
              if offset <? 0
              then Throw ("Invalid offset value: " ++ to_string (f_offset filters))
              else Return (add_limit
                             (" LIMIT " ++ number_to_string limit
                              ++ " OFFSET " ++ number_to_string offset)
                             [] (printed limit) (printed offset) q)
          end
        else Return (add_limit (" LIMIT " ++ number_to_string limit) []
                       (printed limit) 0 q)
    end
  else Return q.

(** Indices of [undefined]/[null] entries of the parameter array. *)
Fixpoint invalid_indices (i : Z) (params : list SqlValue) : list Z :=
  match params with
  | [] => []
  | p :: rest =>
      (if sql_is_null p then [i] else []) ++ invalid_indices (i + 1) rest
  end.

Definition join_indices (l : list Z) : string :=
  String.concat ", " (map Z_to_string l).

Definition check_params (q : Query) : Outcome Query :=
  match invalid_indices 0 (q_params q) with
  | _ :: _ as bad => Throw ("Invalid parameters at indices: " ++ join_indices bad)
  | [] =>
      if negb (Nat.eqb (count_placeholders (q_text q)) (List.length (q_params q)))
      then Throw ("Parameter count mismatch: "
                  ++ Z_to_string (Z.of_nat (count_placeholders (q_text q)))
                  ++ " placeholders but "
                  ++ Z_to_string (Z.of_nat (List.length (q_params q)))
                  ++ " parameters")
      else Return q
  end.

(** The statement and parameter list [findAll(filters)] hands to
    [db.execute], or the error it throws before reaching it. *)
Definition findAll_query (filters : Filters) : Outcome Query :=
  andThen (step_category filters query0) (fun q1 =>
  andThen (step_status filters q1) (fun q2 =>
  andThen (step_search filters q2) (fun q3 =>
  andThen (step_date (f_date_from filters) "date_from"
             " AND n.date_time >= ?" (cond_date_from rt) q3) (fun q4 =>
  andThen (step_date (f_date_to filters) "date_to"
             " AND n.date_time <= ?" (cond_date_to rt) q4) (fun q5 =>
  andThen (step_limit filters
             (add_text " ORDER BY n.date_time DESC, n.created_at DESC" q5))
          check_params))))).

(** [findAll(filters)]: the query is executed only when it was built; the
    engine's refusal of the statement is thrown on. *)
Definition findAll (filters : Filters) (w : World) : World * Outcome (list NewsRow) :=
  match findAll_query filters with
  | Throw m => (w, Throw m)
  | DbError c => (w, DbError c)
  | Return q =>
      (emit (DbExecute (q_text q) (q_params q)) w,
       if limit_accepted q then Return (select_news rt q w)
       else DbError "ER_PARSE_ERROR")
  end.

Definition js_to_sql (v : JsVal) : SqlValue :=
  match v with
  | JUndefined | JNull => SqlNull
  | JBool b => SqlInt (if b then 1 else 0)
  | JNum n => SqlInt n
  | JStr s => SqlStr s
  end.

(** Column value the engine compares an integer column with. *)
Definition sql_to_int (v : SqlValue) : option Z :=
  match v with
  | SqlNull | SqlNaN => None
  | SqlInt n => Some n
  | SqlStr s => Some (match parseInt_string s (Some 10) with Some n => n | None => 0 end)
  end.

Definition sql_to_text (v : SqlValue) : option string :=
  match v with
  | SqlNull | SqlNaN => None
  | SqlInt n => Some (Z_to_string n)
  | SqlStr s => Some s
  end.

(** [count(filters)]: truthiness tests, no date conditions. *)
Definition count_query (filters : Filters) : Query :=
  let q0 := {| q_text := "SELECT COUNT(*) as total FROM news_and_events WHERE 1=1";
               q_params := []; q_where := fun _ => true; q_limit := None |} in
  let q1 :=
    if truthy (f_category_id filters)
    then add_clause " AND category_id = ?" [js_to_sql (f_category_id filters)]
           (fun r => match sql_to_int (js_to_sql (f_category_id filters)) with
                     | Some c => cond_category c r
                     | None => false
                     end) q0
    else q0 in
  let q2 :=
    if truthy (f_status filters)
    then add_clause " AND status = ?" [js_to_sql (f_status filters)]
           (fun r => match sql_to_text (js_to_sql (f_status filters)) with
                     | Some s => cond_status s r
                     | None => false
                     end) q1
    else q1 in
  if truthy (f_search filters)
  then
    let searchTerm := "%" ++ to_string (f_search filters) ++ "%" in
    add_clause " AND (title LIKE ? OR description LIKE ? OR location LIKE ?)"
      [SqlStr searchTerm; SqlStr searchTerm; SqlStr searchTerm]
      (cond_search rt searchTerm) q2
  else q2.

Definition count (filters : Filters) (w : World) : World * Z :=
  let q := count_query filters in
  (emit (DbExecute (q_text q) (q_params q)) w,
   Z.of_nat (List.length (filter (q_where q) (w_news w)))).

Definition select_by_id : string :=
  "SELECT n.*, c.name as category_name, c.slug as category_slug,
       a.name as created_by_name
       FROM news_and_events n
       LEFT JOIN categories c ON n.category_id = c.id
       LEFT JOIN admins a ON n.created_by = a.id
       WHERE n.id = ?".

(** [findById(id)]. *)
Definition findById (id : Z) (w : World) : World * option NewsRow :=
  (emit (DbExecute select_by_id [SqlInt id]) w,
   find (fun r => news_id r =? id) (w_news w)).

(** The columns [update] can assign. *)
Inductive Column : Type :=
| col_category_id | col_title | col_description | col_location
| col_cover_image | col_date_time | col_status.

Definition column_name (c : Column) : string :=
  match c with
  | col_category_id => "category_id"
  | col_title => "title"
  | col_description => "description"
  | col_location => "location"
  | col_cover_image => "cover_image"
  | col_date_time => "date_time"
  | col_status => "status"
  end.

(** The body of an update after the controller has prepared it. *)
Record UpdateData : Type := {
  u_category_id : JsVal;
  u_title : JsVal;
  u_description : JsVal;
  u_location : JsVal;
  u_cover_image : JsVal;
  u_date_time : JsVal;
  u_status : JsVal
}.

Definition is_undefined (v : JsVal) : bool :=
  match v with JUndefined => true | _ => false end.

(** [if (updateData.x !== undefined) { fields.push("x = ?"); values.push(...) }]. *)
Definition push_field (c : Column) (v : JsVal)
           (acc : list (Column * SqlValue)) : list (Column * SqlValue) :=
  if is_undefined v then acc else acc ++ [(c, js_to_sql v)].

(** The assignments of [update], in the order they are pushed; the
    datetime conversion can throw. *)
Definition update_assignments (u : UpdateData)
  : Outcome (list (Column * SqlValue)) :=
  let a1 := push_field col_category_id (u_category_id u) [] in
  let a2 := push_field col_title (u_title u) a1 in
  let a3 := push_field col_description (u_description u) a2 in
  let a4 := push_field col_location (u_location u) a3 in
  let a5 := push_field col_cover_image (u_cover_image u) a4 in
  andThen
    (if is_undefined (u_date_time u) then Return a5
     else andThen (formatDateTimeForMySQL (u_date_time u))
            (fun d => Return (a5 ++ [(col_date_time, js_to_sql d)])%list))
    (fun a6 => Return (push_field col_status (u_status u) a6)).

(** [`UPDATE news_and_events SET ${fields.join(", ")} WHERE id = ?`]. *)
Definition update_sql (a : list (Column * SqlValue)) : string :=
  "UPDATE news_and_events SET "
  ++ String.concat ", "
       (List.app (map (fun cv => column_name (fst cv) ++ " = ?") a)
          ["updated_at = NOW()"])
  ++ " WHERE id = ?".

(** What the engine does with one assignment. *)
Definition assign (cv : Column * SqlValue) (r : NewsRow) : NewsRow :=
  let v := snd cv in
  match fst cv with
  | col_category_id =>
      {| news_id := news_id r;
         news_category_id := match sql_to_int v with Some n => n | None => 0 end;
         news_title := news_title r; news_description := news_description r;
         news_location := news_location r; news_cover_image := news_cover_image r;
         news_date_time := news_date_time r; news_status := news_status r;
         news_created_by := news_created_by r; news_created_at := news_created_at r |}
  | col_title =>
      {| news_id := news_id r; news_category_id := news_category_id r;
         news_title := match sql_to_text v with Some t => t | None => "" end;
         news_description := news_description r;
         news_location := news_location r; news_cover_image := news_cover_image r;
         news_date_time := news_date_time r; news_status := news_status r;
         news_created_by := news_created_by r; news_created_at := news_created_at r |}
  | col_description =>
      {| news_id := news_id r; news_category_id := news_category_id r;
         news_title := news_title r; news_description := sql_to_text v;
         news_location := news_location r; news_cover_image := news_cover_image r;
         news_date_time := news_date_time r; news_status := news_status r;
         news_created_by := news_created_by r; news_created_at := news_created_at r |}
  | col_location =>
      {| news_id := news_id r; news_category_id := news_category_id r;
         news_title := news_title r; news_description := news_description r;
         news_location := sql_to_text v; news_cover_image := news_cover_image r;
         news_date_time := news_date_time r; news_status := news_status r;
         news_created_by := news_created_by r; news_created_at := news_created_at r |}
  | col_cover_image =>
      {| news_id := news_id r; news_category_id := news_category_id r;
         news_title := news_title r; news_description := news_description r;
         news_location := news_location r; news_cover_image := sql_to_text v;
         news_date_time := news_date_time r; news_status := news_status r;
         news_created_by := news_created_by r; news_created_at := news_created_at r |}
  | col_date_time =>
      {| news_id := news_id r; news_category_id := news_category_id r;
         news_title := news_title r; news_description := news_description r;
         news_location := news_location r; news_cover_image := news_cover_image r;
         news_date_time := match sql_to_text v with Some t => t | None => "" end;
         news_status := news_status r;
         news_created_by := news_created_by r; news_created_at := news_created_at r |}
  | col_status =>
      {| news_id := news_id r; news_category_id := news_category_id r;
         news_title := news_title r; news_description := news_description r;
         news_location := news_location r; news_cover_image := news_cover_image r;
         news_date_time := news_date_time r; news_status := sql_to_text v;
         news_created_by := news_created_by r; news_created_at := news_created_at r |}
  end.

Definition assign_all (a : list (Column * SqlValue)) (r : NewsRow) : NewsRow :=
  fold_left (fun r cv => assign cv r) a r.

(** The foreign key of [category_id]: an assignment to a category that
    does not exist is refused by the engine. *)
Definition violates_category_fk (a : list (Column * SqlValue)) (w : World) : bool :=
  existsb
    (fun cv =>
       match fst cv with
       | col_category_id =>
           match sql_to_int (snd cv) with
           | Some n => negb (existsb (Z.eqb n) (w_categories w))
           | None => false
           end
       | _ => false
       end) a.

(** [update(id, updateData)]. *)
Definition update (id : Z) (u : UpdateData) (w : World)
  : World * Outcome (option NewsRow) :=
  match update_assignments u with
  | Throw m => (w, Throw m)
  | DbError c => (w, DbError c)
  | Return [] => let '(w1, r) := findById id w in (w1, Return r)
  | Return a =>
      let w1 := emit (DbExecute (update_sql a) (map snd a ++ [SqlInt id])%list) w in
      if existsb (fun r => news_id r =? id) (w_news w) && violates_category_fk a w
      then (w1, DbError "ER_NO_REFERENCED_ROW_2")
      else
        let w2 :=
          set_news (map (fun r => if news_id r =? id then assign_all a r else r)
                      (w_news w1)) w1 in
        let '(w3, r) := findById id w2 in (w3, Return r)
  end.

End WithRuntime.

End NewsAndEvents.

(* ===================================================================== *)
(** * The other copy of the news-and-events model                         *)
(* ===================================================================== *)

(** models/NewsAndEvents.js as it stands next to the image model: the
    earlier form of [formatDateTimeForMySQL] and [findAll]. *)
Module NewsAndEventsLegacy.

Section WithRuntime.
Variable rt : Runtime.

(** Time value of [new Date(v)]. *)
Definition new_Date (v : JsVal) : option Z :=
  match v with
  | JStr s => Date_parse rt s
  | JNum n => if Z.abs n <=? 8640000000000000 then Some n else None
  | JBool b => Some (if b then 1 else 0)
  | JNull => Some 0
  | JUndefined => None
  end.

(** [formatDateTimeForMySQL(dateTimeString)], with the local-time
    getters. *)
Definition formatDateTimeForMySQL (dateTimeString : JsVal) : Outcome JsVal :=
  if negb (truthy dateTimeString) then Return dateTimeString
  else
    rethrow
      (match new_Date dateTimeString with
       | None => Throw "Invalid date"
       | Some t =>
           let l := t + LocalTZA rt t in
           Return (JStr (format_fields
                           (DateFields.getUTCFullYear l)
                           (DateFields.getUTCMonth l + 1)
                           (DateFields.getUTCDate l)
                           (DateFields.getUTCHours l)
                           (DateFields.getUTCMinutes l)
                           (DateFields.getUTCSeconds l)))
       end)
      (fun _ => "Invalid datetime format: " ++ to_string dateTimeString).

Definition num_to_sql (n : option Z) : SqlValue :=
  match n with Some k => SqlInt k | None => SqlNaN end.

Definition step_date (value : JsVal) (clause : string)
           (cond : string -> NewsRow -> bool) (q : Query) : Outcome Query :=
  if truthy value then
    andThen (formatDateTimeForMySQL value)
      (fun d => Return (add_clause clause [NewsAndEvents.js_to_sql d]
                          (cond (to_string d)) q))
  else Return q.

Definition step_limit (filters : Filters) (q : Query) : Query :=
  if truthy (f_limit filters) then
    let lim := parseInt (f_limit filters) None in
    let l := match lim with Some n => n | None => 0 end in
    let q1 := add_limit " LIMIT ?" [num_to_sql lim] l 0 q in
    if truthy (f_offset filters) then
      let off := parseInt (f_offset filters) None in
      add_limit " OFFSET ?" [num_to_sql off] l
        (match off with Some n => n | None => 0 end) q1
    else q1
  else q.

(** The statement and parameter list [findAll(filters)] hands to
    [db.execute]. *)
Definition findAll_query (filters : Filters) : Outcome Query :=
  let q1 :=
    if truthy (f_category_id filters)
    then add_clause " AND n.category_id = ?"
           [NewsAndEvents.js_to_sql (f_category_id filters)]
           (fun r => match NewsAndEvents.sql_to_int
                             (NewsAndEvents.js_to_sql (f_category_id filters)) with
                     | Some c => cond_category c r
                     | None => false
                     end) NewsAndEvents.query0
    else NewsAndEvents.query0 in
  let q2 :=
    if truthy (f_status filters)
    then add_clause " AND n.status = ?"
           [NewsAndEvents.js_to_sql (f_status filters)]
           (fun r => match NewsAndEvents.sql_to_text
                             (NewsAndEvents.js_to_sql (f_status filters)) with
                     | Some s => cond_status s r
                     | None => false
                     end) q1
    else q1 in
  let q3 :=
    if truthy (f_search filters)
    then
      let searchTerm := "%" ++ to_string (f_search filters) ++ "%" in
      add_clause " AND (n.title LIKE ? OR n.description LIKE ? OR n.location LIKE ?)"
        [SqlStr searchTerm; SqlStr searchTerm; SqlStr searchTerm]
        (cond_search rt searchTerm) q2
    else q2 in
  andThen (step_date (f_date_from filters) " AND n.date_time >= ?"
             (cond_date_from rt) q3) (fun q4 =>
  andThen (step_date (f_date_to filters) " AND n.date_time <= ?"
             (cond_date_to rt) q4) (fun q5 =>
  Return (step_limit filters
            (add_text " ORDER BY n.date_time DESC, n.created_at DESC" q5)))).

Definition findAll (filters : Filters) (w : World) : World * Outcome (list NewsRow) :=
  match findAll_query filters with
  | Throw m => (w, Throw m)
  | DbError c => (w, DbError c)
  | Return q =>
      (emit (DbExecute (q_text q) (q_params q)) w, Return (select_news rt q w))
  end.

End WithRuntime.

End NewsAndEventsLegacy.

(* ===================================================================== *)
(** * models/Category.js and models/NewsAndEventsImage.js                 *)
(* ===================================================================== *)

Module Category.

(** [findById(id)]: whether a category row with that id exists. *)
Definition findById (id : JsVal) (w : World) : World * bool :=
  (emit (DbExecute "SELECT * FROM categories WHERE id = ?"
           [NewsAndEvents.js_to_sql id]) w,
   match NewsAndEvents.sql_to_int (NewsAndEvents.js_to_sql id) with
   | Some n => existsb (Z.eqb n) (w_categories w)
   | None => false
   end).

End Category.

Module NewsAndEventsImage.

(** [ORDER BY image_order ASC, created_at ASC]. *)
Definition image_before (a b : ImageRow) : bool :=
  (image_order a <? image_order b)
  || ((image_order a =? image_order b) && (img_created_at a <=? img_created_at b)).

Definition select_by_parent : string :=
  "SELECT * FROM news_and_events_images WHERE news_and_events_id = ? ORDER BY image_order ASC, created_at ASC".

(** [findByNewsAndEventsId(newsAndEventsId)]. *)
Definition findByNewsAndEventsId (newsAndEventsId : Z) (w : World)
  : World * list ImageRow :=
  (emit (DbExecute select_by_parent [SqlInt newsAndEventsId]) w,
   sort_by image_before
     (filter (fun r => img_news_and_events_id r =? newsAndEventsId) (w_images w))).

Definition insert_sql : string :=
  "INSERT INTO news_and_events_images (news_and_events_id, image_url, image_order, created_at) VALUES (?, ?, ?, NOW())".

(** [create(newsAndEventsId, imageUrl, imageOrder)]: the insert, then the
    read-back of the new row. *)
Definition create (newsAndEventsId : Z) (imageUrl : string) (imageOrder : Z)
           (w : World) : World * ImageRow :=
  let row := {| img_id := w_next_image_id w;
                img_news_and_events_id := newsAndEventsId;
                image_url := imageUrl;
                image_order := imageOrder;
                img_created_at := w_now w |} in
  let w1 := emit (DbExecute insert_sql
                    [SqlInt newsAndEventsId; SqlStr imageUrl; SqlInt imageOrder]) w in
  let w2 := set_next_image_id (w_next_image_id w + 1)
              (set_images (w_images w1 ++ [row]) w1) in
  (emit (DbExecute "SELECT * FROM news_and_events_images WHERE id = ?"
           [SqlInt (img_id row)]) w2,
   row).

(** The loop of [createMultiple], from index [i] on.  An entry is a string
    or [null]; reading [image.url] of [null] throws. *)
Fixpoint createMultiple_from (newsAndEventsId : Z) (i : Z)
         (images : list (option string)) (w : World)
  : World * Outcome (list ImageRow) :=
  match images with
  | [] => (w, Return [])
  | None :: _ => (w, Throw "Cannot read properties of null (reading 'url')")
  | Some image :: rest =>
      let '(w1, imageObj) := create newsAndEventsId image i w in
      let '(w2, r) := createMultiple_from newsAndEventsId (i + 1) rest w1 in
      (w2, andThen r (fun created => Return (imageObj :: created)))
  end.

(** [createMultiple(newsAndEventsId, images)]. *)
Definition createMultiple (newsAndEventsId : Z) (images : list (option string))
           (w : World) : World * Outcome (list ImageRow) :=
  createMultiple_from newsAndEventsId 0 images w.

(** [delete(id)]. *)
Definition delete (id : Z) (w : World) : World * bool :=
  let w1 := emit (DbExecute "DELETE FROM news_and_events_images WHERE id = ?"
                    [SqlInt id]) w in
  (set_images (filter (fun r => negb (img_id r =? id)) (w_images w1)) w1,
   existsb (fun r => img_id r =? id) (w_images w)).

(** [deleteByNewsAndEventsId(newsAndEventsId)]. *)
Definition deleteByNewsAndEventsId (newsAndEventsId : Z) (w : World) : World * bool :=
  let w1 := emit (DbExecute
                    "DELETE FROM news_and_events_images WHERE news_and_events_id = ?"
                    [SqlInt newsAndEventsId]) w in
  (set_images
     (filter (fun r => negb (img_news_and_events_id r =? newsAndEventsId)) (w_images w1))
     w1,
   existsb (fun r => img_news_and_events_id r =? newsAndEventsId) (w_images w)).

End NewsAndEventsImage.

(* ===================================================================== *)
(** * HTTP requests and responses                                         *)
(* ===================================================================== *)

(** The [images] field of a request body. *)
Inductive ImagesField : Type :=
| ImagesUndefined
| ImagesNull
| ImagesString (s : string)
| ImagesArray (l : list ImageEntry)
| ImagesOther (is_truthy : bool).

Record Body : Type := {
  b_category_id : JsVal;
  b_title : JsVal;
  b_description : JsVal;
  b_location : JsVal;
  b_cover_image : JsVal;
  b_date_time : JsVal;
  b_status : JsVal;
  b_images : ImagesField
}.

(** A PUT /api/news-and-events/:id request after the multipart parser ran:
    the generated names of the stored files and the text fields. *)
Record UpdateRequest : Type := {
  r_id : Z;
  r_files_cover_image : list string;
  r_files_images : list string;
  r_body : Body
}.

(** The query string of a listing request. *)
Record ListQuery : Type := {
  query_page : JsVal;
  query_limit : JsVal;
  query_category_id : JsVal;
  query_status : JsVal;
  query_search : JsVal;
  query_date_from : JsVal;
  query_date_to : JsVal
}.

Record Pagination : Type := {
  currentPage : Z;
  totalPages : Z;
  totalItems : Z;
  itemsPerPage : Z;
  hasNext : bool;
  hasPrev : bool;
  nextPage : option Z;
  prevPage : option Z
}.

(** An item as the responses show it: the row with its cover image and
    its gallery passed through [getRelativePath]. *)
Record ItemView : Type := {
  v_row : NewsRow;
  v_cover_image : option string;
  v_images : list (option string)
}.

Inductive ResponseData : Type :=
| NoData
| ItemData (item : ItemView)
| ListData (items : list ItemView) (pagination : Pagination)
| ErrorsData.

(** [res.status(status).json(formatResponse(success, message, data))]. *)
Record Response : Type := {
  status : Z;
  success : bool;
  message : string;
  data : ResponseData
}.

Definition respond (st : Z) (ok : bool) (msg : string) (d : ResponseData) : Response :=
  {| status := st; success := ok; message := msg; data := d |}.

(* ===================================================================== *)
(** * middleware/validation.js and middleware/errorHandler.js             *)
(* ===================================================================== *)

Module Validation.

(** [/^https?:\/\/.+/.test(value)]. *)
Definition http_url_re (value : string) : bool :=
  let after (p : string) :=
    match strip_prefix p value with
    | Some (String c r) => negb (starts_with_line_terminator (String c r))
    | _ => false
    end in
  after "http://" || after "https://".

(** The custom validator of [cover_image]. *)
Definition cover_image_custom (value : JsVal) : bool :=
  if negb (truthy value) then true
  else
    match value with
    | JStr s => if http_url_re s then (utf16_length s <=? 500)%nat else false
    | _ => false
    end.

Section WithRuntime.
Variable rt : Runtime.

(** The custom validator of [images]. *)
Definition images_custom (value : ImagesField) : bool :=
  match value with
  | ImagesUndefined | ImagesNull => true
  | ImagesString "" => true
  | ImagesArray _ => true
  | ImagesString s =>
      match JSON_parse rt s with
      | JsonArray _ => true
      | JsonOther => false
      | JsonThrows => true
      end
  | ImagesOther is_truthy => negb is_truthy
  end.

(** Text a standard validator or sanitizer sees. *)
Definition text_of (v : JsVal) : string :=
  match v with
  | JUndefined | JNull => ""
  | _ => to_string v
  end.

(** [.optional()] followed by a check: an absent field passes. *)
Definition optional (v : JsVal) (check : string -> bool) : bool :=
  match v with
  | JUndefined => true
  | _ => check (text_of v)
  end.

(** [.trim()] as a sanitizer of a present field. *)
Definition sanitize_trim (v : JsVal) : JsVal :=
  match v with
  | JUndefined => JUndefined
  | _ => JStr (trim (text_of v))
  end.

(** [.isLength({ min: lo, max: hi })]. *)
Definition length_between (lo hi : nat) (s : string) : bool :=
  ((lo <=? validator_length rt s) && (validator_length rt s <=? hi))%nat.

(** [validateNewsUpdate]: the sanitized body when every rule passes,
    [None] when [handleValidationErrors] answers 400. *)
Definition validateNewsUpdate (b : Body) : option Body :=
  if optional (b_category_id b) (validator_isInt rt)
     && optional (b_title b)
          (fun s => negb (String.eqb (trim s) "") && length_between 3 255 (trim s))
     && optional (b_description b) (fun s => length_between 0 5000 (trim s))
     && optional (b_location b) (fun s => length_between 0 255 (trim s))
     && match b_cover_image b with
        | JUndefined => true
        | v => cover_image_custom v
        end
     && optional (b_date_time b) (validator_isISO8601 rt)
     && optional (b_status b)
          (fun s => String.eqb s "active" || String.eqb s "inactive")
     && images_custom (b_images b)
  then Some {| b_category_id := b_category_id b;
               b_title := sanitize_trim (b_title b);
               b_description := sanitize_trim (b_description b);
               b_location := sanitize_trim (b_location b);
               b_cover_image := b_cover_image b;
               b_date_time := b_date_time b;
               b_status := b_status b;
               b_images := b_images b |}
  else None.

(** [errorHandler(err, req, res, next)] for an error without status code or
    special name. *)
Definition errorHandler (err_message : string) : Response :=
  let message := if String.eqb err_message "" then "Internal server error"
                 else err_message in
  respond 500 false
    (match env_NODE_ENV rt with
     | Some "production" => "Internal server error"
     | _ => message
     end)
    NoData.

End WithRuntime.

End Validation.

(* ===================================================================== *)
(** * controllers/newsAndEventsController.js                              *)
(* ===================================================================== *)

(** The handlers call the model through [findById], [count] and [update],
    which the two copies of the model share but for the datetime
    conversion inside [update]; the listing function, in which the copies
    differ, is a parameter. *)

Module Controller.

Section WithRuntime.
Variable rt : Runtime.

(** The listing function of the model copy in use. *)
Variable model_findAll : Filters -> World -> World * Outcome (list NewsRow).

(** [parseInt(v) || d]. *)
Definition parseInt_or (v : JsVal) (d : Z) : Z :=
  match parseInt v None with
  | Some 0 | None => d
  | Some n => n
  end.

(** [Math.ceil(a / b)] for a count [0 <= a < 2^53] and a size
    [0 < b <= 100], where the quotient is rounded to no integer that it
    is not. *)
Definition ceil_div (a b : Z) : Z := (a + b - 1) / b.

(** [next(error)] ends in the error handler; a thrown error with
    [code === "ER_NO_REFERENCED_ROW_2"] is answered by the handler itself
    where it checks for it. *)
Definition next_error {A} (o : Outcome A) : Response :=
  match o with
  | Throw m => Validation.errorHandler rt m
  | DbError c => Validation.errorHandler rt c
  | Return _ => Validation.errorHandler rt ""
  end.

(** [{...item, cover_image: getRelativePath(...), images: images.map(...)}]. *)
Definition view (item : NewsRow) (images : list ImageRow) : ItemView :=
  {| v_row := item;
     v_cover_image := getRelativePath rt (news_cover_image item) "cover";
     v_images := map (fun img => getRelativePath rt (Some (image_url img)) "news") images |}.

(** [Promise.all(newsAndEvents.map(async (item) => ...))]. *)
Fixpoint with_images (items : list NewsRow) (w : World) : World * list ItemView :=
  match items with
  | [] => (w, [])
  | item :: rest =>
      let '(w1, images) := NewsAndEventsImage.findByNewsAndEventsId (news_id item) w in
      let '(w2, views) := with_images rest w1 in
      (w2, view item images :: views)
  end.

(** The part the two listing handlers share once the filter object is
    built. *)
Definition list_with (filters : Filters) (page limit : Z) (ok_message : string)
           (w : World) : World * Response :=
  let '(w1, totalCount) :=
    NewsAndEvents.count rt
      {| f_category_id := f_category_id filters; f_status := f_status filters;
         f_search := f_search filters; f_date_from := f_date_from filters;
         f_date_to := f_date_to filters;
         f_limit := JUndefined; f_offset := JUndefined |} w in
  let totalPages := ceil_div totalCount limit in
  let hasNext := page <? totalPages in
  let hasPrev := page >? 1 in
  match model_findAll filters w1 with
  | (w2, Return newsAndEvents) =>
      let '(w3, views) := with_images newsAndEvents w2 in
      (w3,
       respond 200 true ok_message
         (ListData views
            {| currentPage := page; totalPages := totalPages;
               totalItems := totalCount; itemsPerPage := limit;
               hasNext := hasNext; hasPrev := hasPrev;
               nextPage := if hasNext then Some (double (page + 1)) else None;
               prevPage := if hasPrev then Some (double (page - 1)) else None |}))
  | (w2, failure) => (w2, next_error failure)
  end.

(** [getAllNewsAndEvents]: GET /api/news-and-events. *)
Definition getAllNewsAndEvents (query : ListQuery) (w : World) : World * Response :=
  let page := parseInt_or (query_page query) 1 in
  let limit := parseInt_or (query_limit query) 10 in
  let offset := double (double (page - 1) * limit) in
  if page <? 1 then (w, respond 400 false "Page must be greater than 0" NoData)
  else if (limit <? 1) || (limit >? 100)
  then (w, respond 400 false "Limit must be between 1 and 100" NoData)
  else
    list_with
      {| f_category_id := query_category_id query;
         f_status := query_status query;
         f_search := query_search query;
         f_date_from := query_date_from query;
         f_date_to := query_date_to query;
         f_limit := JNum limit;
         f_offset := JNum offset |}
      page limit "News and events retrieved successfully" w.

(** [getActiveNewsAndEvents]: GET /api/news-and-events/public. *)
Definition getActiveNewsAndEvents (query : ListQuery) (w : World) : World * Response :=
  let page := parseInt_or (query_page query) 1 in
  let limit := parseInt_or (query_limit query) 10 in
  let offset := double (double (page - 1) * limit) in
  if page <? 1 then (w, respond 400 false "Page must be greater than 0" NoData)
  else if (limit <? 1) || (limit >? 100)
  then (w, respond 400 false "Limit must be between 1 and 100" NoData)
  else
    list_with
      {| f_category_id := query_category_id query;
         f_status := JStr "active";
         f_search := query_search query;
         f_date_from := query_date_from query;
         f_date_to := query_date_to query;
         f_limit := JNum limit;
         f_offset := JNum offset |}
      page limit "Active news and events retrieved successfully" w.

(** [newsAndEvents.status !== "active"]. *)
Definition status_is_active (r : NewsRow) : bool :=
  match news_status r with
  | Some s => String.eqb s "active"
  | None => false
  end.

(** [getActiveNewsAndEventsById]: GET /api/news-and-events/public/:id. *)
Definition getActiveNewsAndEventsById (id : Z) (w : World) : World * Response :=
  let '(w1, newsAndEvents) := NewsAndEvents.findById id w in
  match newsAndEvents with
  | None => (w1, respond 404 false "News and events not found" NoData)
  | Some item =>
      if negb (status_is_active item)
      then (w1, respond 404 false "News and events not found" NoData)
      else
        let '(w2, images) := NewsAndEventsImage.findByNewsAndEventsId id w1 in
        (w2, respond 200 true "Active news and events retrieved successfully"
               (ItemData (view item images)))
  end.

(** A value read from the database is truthy when it is a non-empty
    string. *)
Definition truthy_text (v : option string) : bool :=
  match v with
  | Some (String _ _) => true
  | _ => false
  end.

Definition opt_string_eqb (a b : option string) : bool :=
  match a, b with
  | Some x, Some y => String.eqb x y
  | None, None => true
  | _, _ => false
  end.

Definition js_of_text (v : option string) : JsVal :=
  match v with
  | Some s => JStr s
  | None => JNull
  end.

(** The cover-image block of [updateNewsAndEvents]: the value left in
    [updateData.cover_image].  Failures of [deleteFile] are only logged. *)
Definition cover_step (req : UpdateRequest) (oldCoverImage : option string)
           (w : World) : World * Outcome JsVal :=
  let supersede (newCoverImageUrl : option string) :=
    let w1 :=
      if truthy_text oldCoverImage
         && negb (opt_string_eqb oldCoverImage newCoverImageUrl)
      then fst (deleteFile rt oldCoverImage "cover" w)
      else w in
    (w1, Return (js_of_text newCoverImageUrl)) in
  match r_files_cover_image req with
  | filename :: _ =>
      supersede (getRelativePath rt (Some ("uploads/cover-images/" ++ filename)) "cover")
  | [] =>
      match b_cover_image (r_body req) with
      | JUndefined => (w, Return JUndefined)
      | JStr "" | JNull =>
          ((if truthy_text oldCoverImage
            then fst (deleteFile rt oldCoverImage "cover" w)
            else w),
           Return JNull)
      | JStr s => supersede (getRelativePath rt (Some s) "cover")
      | v =>
          if truthy v then (w, Throw "filePath.startsWith is not a function")
          else supersede None
      end
  end.

(** [providedImages.map((img) => getRelativePath(img, "news"))]: a falsy
    entry becomes [null]; the first truthy entry that is no string ends
    the map, since it has no [startsWith]. *)
Fixpoint normalise (providedImages : list ImageEntry)
  : Outcome (list (option string)) :=
  match providedImages with
  | [] => Return []
  | EntryOther true :: _ => Throw "filePath.startsWith is not a function"
  | img :: rest =>
      match normalise rest with
      | Return urls =>
          Return (match img with
                  | EntryString s => getRelativePath rt (Some s) "news"
                  | EntryOther _ => None
                  end :: urls)
      | failure => failure
      end
  end.

(** [shouldUpdateImages = true] with the outcome of the map. *)
Definition updating (urls : Outcome (list (option string)))
  : Outcome (bool * list (option string)) :=
  match urls with
  | Return l => Return (true, l)
  | Throw m => Throw m
  | DbError c => DbError c
  end.

(** The image block: [shouldUpdateImages] and [imageUrls]. *)
Definition images_step (req : UpdateRequest) : Outcome (bool * list (option string)) :=
  match r_files_images req with
  | _ :: _ =>
      Return (true,
              map (fun filename =>
                     getRelativePath rt (Some ("uploads/news-images/" ++ filename)) "news")
                (r_files_images req))
  | [] =>
      match b_images (r_body req) with
      | ImagesUndefined => Return (false, [])
      | ImagesNull => Return (true, [])
      | ImagesString "" => Return (true, [])
      | ImagesArray l => updating (normalise l)
      | ImagesString s =>
          match JSON_parse rt s with
          | JsonArray l => updating (normalise l)
          | JsonThrows => updating (normalise [EntryString s])
          | JsonOther => Throw "providedImages.map is not a function"
          end
      | ImagesOther _ => Return (true, [])
      end
  end.

(** [imageUrls.includes(url)] and [oldImageUrls.includes(url)]. *)
Definition new_includes (imageUrls : list (option string)) (url : string) : bool :=
  existsb (opt_string_eqb (Some url)) imageUrls.

Definition old_includes (oldImageUrls : list string) (url : option string) : bool :=
  match url with
  | Some u => existsb (String.eqb u) oldImageUrls
  | None => false
  end.

Definition imagesToKeep (oldImageUrls : list string) (imageUrls : list (option string))
  : list (option string) :=
  filter (old_includes oldImageUrls) imageUrls.

Definition imagesToDelete (oldImageUrls : list string) (imageUrls : list (option string))
  : list string :=
  filter (fun url => negb (new_includes imageUrls url)) oldImageUrls.

Definition imagesToAdd (oldImageUrls : list string) (imageUrls : list (option string))
  : list (option string) :=
  filter (fun url => negb (old_includes oldImageUrls url)) imageUrls.

(** The loop that deletes the rows of the removed images: for each URL the
    first old row carrying it is looked up and deleted by id. *)
Fixpoint delete_rows (oldImages : list ImageRow) (toDelete : list string)
         (w : World) : World :=
  match toDelete with
  | [] => w
  | urlToDelete :: rest =>
      let w1 :=
        match find (fun img => String.eqb (image_url img) urlToDelete) oldImages with
        | Some imageToDelete =>
            if negb (img_id imageToDelete =? 0)
            then fst (NewsAndEventsImage.delete (img_id imageToDelete) w)
            else w
        | None => w
        end in
      delete_rows oldImages rest w1
  end.

(** The smart update of the image set. *)
Definition reconcile (id : Z) (oldImages : list ImageRow)
           (imageUrls : list (option string)) (w : World) : World * Outcome unit :=
  let oldImageUrls := map image_url oldImages in
  let toDelete := imagesToDelete oldImageUrls imageUrls in
  let toAdd := imagesToAdd oldImageUrls imageUrls in
  let w1 :=
    match toDelete with
    | [] => w
    | _ :: _ => deleteFiles rt (map Some toDelete) "news" (delete_rows oldImages toDelete w)
    end in
  let '(w2, added) :=
    match toAdd with
    | [] => (w1, Return [])
    | _ :: _ => NewsAndEventsImage.createMultiple id toAdd w1
    end in
  match added with
  | Return _ =>
      match imageUrls, oldImageUrls with
      | [], _ :: _ => (fst (NewsAndEventsImage.deleteByNewsAndEventsId id w2), Return tt)
      | _, _ => (w2, Return tt)
      end
  | Throw m => (w2, Throw m)
  | DbError c => (w2, DbError c)
  end.

(** The body of the [try] block of [updateNewsAndEvents]. *)
Definition updateNewsAndEvents_try (req : UpdateRequest) (w : World)
  : World * Outcome Response :=
  let id := r_id req in
  let updateData := r_body req in
  let '(w1, existingNewsAndEvents) := NewsAndEvents.findById id w in
  match existingNewsAndEvents with
  | None => (w1, Return (respond 404 false "News and events not found" NoData))
  | Some existing =>
      let '(w2, category_ok) :=
        if truthy (b_category_id updateData)
        then Category.findById (b_category_id updateData) w1
        else (w1, true) in
      if negb category_ok
      then (w2, Return (respond 404 false "Category not found" NoData))
      else
        let oldCoverImage := news_cover_image existing in
        let '(w3, oldImages) := NewsAndEventsImage.findByNewsAndEventsId id w2 in
        match cover_step req oldCoverImage w3 with
        | (w4, Throw m) => (w4, Throw m)
        | (w4, DbError c) => (w4, DbError c)
        | (w4, Return cover) =>
            match images_step req with
            | Throw m => (w4, Throw m)
            | DbError c => (w4, DbError c)
            | Return (shouldUpdateImages, imageUrls) =>
                match NewsAndEvents.update rt id
                        {| NewsAndEvents.u_category_id := b_category_id updateData;
                           NewsAndEvents.u_title := b_title updateData;
                           NewsAndEvents.u_description := b_description updateData;
                           NewsAndEvents.u_location := b_location updateData;
                           NewsAndEvents.u_cover_image := cover;
                           NewsAndEvents.u_date_time := b_date_time updateData;
                           NewsAndEvents.u_status := b_status updateData |} w4 with
                | (w5, Throw m) => (w5, Throw m)
                | (w5, DbError c) => (w5, DbError c)
                | (w5, Return newsAndEvents) =>
                    match (if shouldUpdateImages
                           then reconcile id oldImages imageUrls w5
                           else (w5, Return tt)) with
                    | (w6, Throw m) => (w6, Throw m)
                    | (w6, DbError c) => (w6, DbError c)
                    | (w6, Return _) =>
                        let '(w7, newsAndEventsImages) :=
                          NewsAndEventsImage.findByNewsAndEventsId id w6 in
                        match newsAndEvents with
                        | Some item =>
                            (w7, Return (respond 200 true
                                           "News and events updated successfully"
                                           (ItemData (view item newsAndEventsImages))))
                        | None =>
                            (w7, Throw "Cannot read properties of null (reading 'cover_image')")
                        end
                    end
                end
            end
        end
  end.

(** The [catch] block of [updateNewsAndEvents]. *)
Definition updateNewsAndEvents_catch (failure : Outcome Response) : Response :=
  match failure with
  | Return res => res
  | DbError code =>
      if String.eqb code "ER_NO_REFERENCED_ROW_2"
      then respond 400 false "Invalid category ID" NoData
      else next_error failure
  | Throw _ => next_error failure
  end.

(** [updateNewsAndEvents]: PUT /api/news-and-events/:id. *)
Definition updateNewsAndEvents (req : UpdateRequest) (w : World) : World * Response :=
  let '(w1, outcome) := updateNewsAndEvents_try req w in
  (w1, updateNewsAndEvents_catch outcome).

(** The route PUT /:id after authentication and upload handling:
    [validateNewsUpdate], then the controller. *)
Definition put_news_and_events (req : UpdateRequest) (w : World) : World * Response :=
  match Validation.validateNewsUpdate rt (r_body req) with
  | None => (w, respond 400 false "Validation failed" ErrorsData)
  | Some body =>
      updateNewsAndEvents
        {| r_id := r_id req; r_files_cover_image := r_files_cover_image req;
           r_files_images := r_files_images req; r_body := body |} w
  end.

End WithRuntime.

End Controller.

(* ===================================================================== *)
(** * Vocabulary of the properties                                        *)
(* ===================================================================== *)

(** The three kinds of error [formatDateTimeForMySQL] reports, read off
    the message. *)
Inductive DateError : Type := NotAString | EmptyDatetime | Unparseable.

Definition classify_error (m : string) : option DateError :=
  if String.prefix "Expected string, got " m then Some NotAString
  else if String.eqb m "Empty datetime string is not allowed" then Some EmptyDatetime
  else if String.prefix "Invalid datetime format: " m then Some Unparseable
  else None.

(** Whether a string of the shape [YYYY-MM-DD HH:MM:SS] names a date and a
    time of day that exist. *)
Definition days_in_month (y m : Z) : Z :=
  if (m =? 2)
  then if ((y mod 4 =? 0) && negb (y mod 100 =? 0)) || (y mod 400 =? 0) then 29 else 28
  else if (m =? 4) || (m =? 6) || (m =? 9) || (m =? 11) then 30 else 31.

Definition field (s : string) (start len : nat) : Z :=
  match parseInt_string (String.substring start len s) (Some 10) with
  | Some n => n
  | None => 0
  end.

Definition valid_calendar_datetime (s : string) : bool :=
  mysql_datetime_re s
  && (1 <=? field s 5 2) && (field s 5 2 <=? 12)
  && (1 <=? field s 8 2) && (field s 8 2 <=? days_in_month (field s 0 4) (field s 5 2))
  && (field s 11 2 <=? 23) && (field s 14 2 <=? 59) && (field s 17 2 <=? 59).

(** The filter object without its paging entries. *)
Definition without_paging (filters : Filters) : Filters :=
  {| f_category_id := f_category_id filters; f_status := f_status filters;
     f_search := f_search filters; f_date_from := f_date_from filters;
     f_date_to := f_date_to filters;
     f_limit := JUndefined; f_offset := JUndefined |}.

(** A query string with other [page] and [limit] parameters. *)
Definition set_paging (q : ListQuery) (page limit : JsVal) : ListQuery :=
  {| query_page := page; query_limit := limit;
     query_category_id := query_category_id q;
     query_status := query_status q;
     query_search := query_search q;
     query_date_from := query_date_from q;
     query_date_to := query_date_to q |}.

(** A query string with another [status] parameter. *)
Definition set_status (q : ListQuery) (st : JsVal) : ListQuery :=
  {| query_page := query_page q; query_limit := query_limit q;
     query_category_id := query_category_id q;
     query_status := st;
     query_search := query_search q;
     query_date_from := query_date_from q;
     query_date_to := query_date_to q |}.

(** Statements that change the image table. *)
Definition touches_image_table (e : Event) : bool :=
  match e with
  | DbExecute sql _ =>
      String.prefix "INSERT INTO news_and_events_images" sql
      || String.prefix "DELETE FROM news_and_events_images" sql
  | FsUnlink _ _ => false
  end.

(** Removals of a file of the gallery directory. *)
Definition unlinks_gallery_file (e : Event) : bool :=
  match e with
  | FsUnlink newsImagesDir _ => true
  | _ => false
  end.

(** Whether a file name has several path segments. *)
Definition has_slash (s : string) : bool :=
  existsb (Ascii.eqb "/") (list_ascii_of_string s).

(** An effect that neither changes the image table nor removes a gallery
    file. *)
Definition quiet (e : Event) : bool :=
  negb (touches_image_table e) && negb (unlinks_gallery_file e).

(** The files of the gallery directory. *)
Definition gallery_files (w : World) : list (Dir * string) :=
  filter (fun f => Dir_eqb (fst f) newsImagesDir) (w_files w).

(** The image table, the gallery directory and the log grow only by quiet
    effects between two worlds. *)
Definition image_frame (w w' : World) : Prop :=
  w_images w' = w_images w
  /\ gallery_files w' = gallery_files w
  /\ exists evs, w_log w' = (w_log w ++ evs)%list /\ forallb quiet evs = true.

(** A statement [q'] asks at least what [q] asks. *)
Definition refines (q' q : Query) : Prop :=
  forall r, q_where q' r = true -> q_where q r = true.

(** A listing function that only returns active rows of the table it is
    run on, whenever the status filter is the string active. *)
Definition lists_only_active (fa : Filters -> World -> World * Outcome (list NewsRow))
  : Prop :=
  forall f w rows,
    f_status f = JStr "active" ->
    snd (fa f w) = Return rows ->
    forall r, In r rows -> In r (w_news w) /\ news_status r = Some "active".

(** The ids of the rows the deletion loop of the update removes: for each
    URL the id of the first old row that carries it, unless it is 0. *)
Definition deleted_ids (oldImages : list ImageRow) (toDelete : list string) : list Z :=
  flat_map
    (fun url =>
       match find (fun img => String.eqb (image_url img) url) oldImages with
       | Some r => if negb (img_id r =? 0) then [img_id r] else []
       | None => []
       end) toDelete.

(** The image rows of an item, in table order. *)
Definition rows_of (id : Z) (w : World) : list ImageRow :=
  filter (fun r => img_news_and_events_id r =? id) (w_images w).

(** The image URLs stored for an item. *)
Definition persisted_urls (id : Z) (w : World) : list string :=
  map image_url (rows_of id w).

(** The image set after an update, in the words of the specification:
    whether the URL of a stored row is listed in the submitted list [N],
    and whether an entry of [N] is none of the stored URLs. *)
Definition reference_eq_dec (a b : option string) : {a = b} + {a <> b} :=
  match a, b with
  | Some x, Some y =>
      match string_dec x y with
      | left e => left (f_equal Some e)
      | right n => right (fun h : Some x = Some y =>
                            n (f_equal (fun o => match o with
                                                 | Some z => z
                                                 | None => x
                                                 end) h))
      end
  | None, None => left eq_refl
  | Some x, None =>
      right (fun h : Some x = None =>
               eq_ind (Some x) (fun o => match o with Some _ => True | None => False end)
                 I None h)
  | None, Some y =>
      right (fun h : None = Some y =>
               eq_ind None (fun o : option string =>
                              match o with Some _ => False | None => True end)
                 I (Some y) h)
  end.

Definition listed_in (N : list (option string)) (r : ImageRow) : bool :=
  if in_dec reference_eq_dec (Some (image_url r)) N then true else false.

Definition not_stored (stored : list string) (entry : option string) : bool :=
  if in_dec reference_eq_dec entry (map Some stored) then false else true.

(* ===================================================================== *)
(** * A sample platform and sample data                                   *)
(* ===================================================================== *)

(** A concrete runtime for running the model on examples.  Its URL parser
    splits [scheme://authority/path?query#fragment] without normalising;
    on the URLs used below this is what the WHATWG parser returns. *)
Module Sample.

Fixpoint until_delim (delims : list ascii) (s : string) : string * string :=
  match s with
  | EmptyString => (EmptyString, EmptyString)
  | String c s' =>
      if existsb (Ascii.eqb c) delims then (EmptyString, s)
      else let '(a, b) := until_delim delims s' in (String c a, b)
  end.

Definition after_scheme (s : string) : option string :=
  match strip_prefix "http://" s with
  | Some r => Some r
  | None => strip_prefix "https://" s
  end.

Definition url_host (s : string) : option string :=
  match after_scheme s with
  | None => None
  | Some r =>
      match fst (until_delim ["/"; "?"; "#"]%char r) with
      | EmptyString => None
      | h => Some h
      end
  end.

Definition url_pathname (s : string) : option string :=
  match url_host s with
  | None => None
  | Some _ =>
      match after_scheme s with
      | None => None
      | Some r =>
          match fst (until_delim ["?"; "#"]%char
                       (snd (until_delim ["/"; "?"; "#"]%char r))) with
          | EmptyString => Some "/"
          | p => Some p
          end
      end
  end.

Definition date_parse (s : string) : option Z :=
  if String.eqb s "2025-12-04T07:22:00.000Z" then Some 1764832920000
  else if String.eqb s "0999-01-01T00:00:00.000Z" then Some (-30641760000000)
  else None.

Definition all_digits (s : string) : bool :=
  match s with
  | EmptyString => false
  | _ => forallb is_digit (list_ascii_of_string s)
  end.

Definition rt : Runtime :=
  {| URL_pathname := url_pathname;
     URL_host := url_host;
     env_BASE_URL := None;
     env_PORT := None;
     Date_parse := date_parse;
     LocalTZA := fun _ => 0;
     env_NODE_ENV := None;
     JSON_parse := fun _ => JsonThrows;
     validator_isInt := all_digits;
     validator_length := JS.code_points;
     validator_isISO8601 := fun s => match date_parse s with Some _ => true | None => false end;
     unlink_fails := fun _ _ => false;
     sql_like := fun col pat =>
       match col with
       | Some c => includes ("%" ++ c ++ "%") pat
       | None => false
       end;
     sql_datetime_le := String.leb |}.

Definition news1 : NewsRow :=
  {| news_id := 1; news_category_id := 1; news_title := "Opening";
     news_description := None; news_location := None;
     news_cover_image := Some "/cover-images/cover-1.jpg";
     news_date_time := "2025-12-04 07:22:00"; news_status := Some "active";
     news_created_by := None; news_created_at := 100 |}.

Definition news2 : NewsRow :=
  {| news_id := 2; news_category_id := 1; news_title := "Draft";
     news_description := None; news_location := None;
     news_cover_image := None;
     news_date_time := "2025-12-05 09:00:00"; news_status := Some "inactive";
     news_created_by := None; news_created_at := 101 |}.

Definition image1 : ImageRow :=
  {| img_id := 1; img_news_and_events_id := 1;
     image_url := "/news-images/a.jpg"; image_order := 0; img_created_at := 100 |}.

Definition image2 : ImageRow :=
  {| img_id := 2; img_news_and_events_id := 1;
     image_url := "/news-images/b.jpg"; image_order := 1; img_created_at := 100 |}.

Definition world : World :=
  {| w_news := [news1; news2];
     w_images := [image1; image2];
     w_categories := [1];
     w_files := [(coverImagesDir, "cover-1.jpg"); (newsImagesDir, "a.jpg");
                 (newsImagesDir, "b.jpg")];
     w_next_image_id := 3;
     w_now := 200;
     w_log := [] |}.

(** A URL on a foreign host whose path has the shape of an upload path and
    whose file name contains the text that [deleteFile] looks for, and a
    world that stores a gallery file of that name. *)
Definition foreign_url : string :=
  "https://cdn.example.com/uploads/news-images/localhost-1.jpg".

Definition foreign_world : World :=
  {| w_news := []; w_images := []; w_categories := [];
     w_files := [(newsImagesDir, "localhost-1.jpg")];
     w_next_image_id := 1; w_now := 0; w_log := [] |}.

(** A string that consists of a no-break space (U+00A0). *)
Definition nbsp : string := bytes [194; 160]%nat.

(** A URL on a foreign host without those features. *)
Definition plain_foreign_url : string := "https://cdn.example.com/img/x.jpg".

(** A URL on a foreign host whose path is no upload path, whose file is
    named like a stored gallery file and whose query contains the text
    that [deleteFile] looks for. *)
Definition foreign_named_url : string :=
  "https://cdn.example.com/img/a.jpg?ref=localhost".

(** The filters of page 3 with ten items per page. *)
Definition paged_filters : Filters :=
  {| f_category_id := JUndefined; f_status := JUndefined;
     f_search := JUndefined; f_date_from := JUndefined; f_date_to := JUndefined;
     f_limit := JNum 10; f_offset := JNum 20 |}.

(** An empty request body. *)
Definition no_body : Body :=
  {| b_category_id := JUndefined; b_title := JUndefined;
     b_description := JUndefined; b_location := JUndefined;
     b_cover_image := JUndefined; b_date_time := JUndefined;
     b_status := JUndefined; b_images := ImagesUndefined |}.

Definition with_images (b : Body) (i : ImagesField) : Body :=
  {| b_category_id := b_category_id b; b_title := b_title b;
     b_description := b_description b; b_location := b_location b;
     b_cover_image := b_cover_image b; b_date_time := b_date_time b;
     b_status := b_status b; b_images := i |}.

Definition with_cover (b : Body) (c : JsVal) : Body :=
  {| b_category_id := b_category_id b; b_title := b_title b;
     b_description := b_description b; b_location := b_location b;
     b_cover_image := c; b_date_time := b_date_time b;
     b_status := b_status b; b_images := b_images b |}.

Definition put (id : Z) (b : Body) : UpdateRequest :=
  {| r_id := id; r_files_cover_image := []; r_files_images := []; r_body := b |}.

(** Item 1 keeps image a, drops image b and gains image c. *)
Definition keep_a_add_c : UpdateRequest :=
  put 1 (with_images no_body
           (ImagesArray [EntryString "/news-images/a.jpg";
                         EntryString "/news-images/c.jpg"])).

(** Item 2, which has no image, is given the same image twice. *)
Definition twice_n : UpdateRequest :=
  put 2 (with_images no_body
           (ImagesArray [EntryString "/news-images/n.jpg";
                         EntryString "/news-images/n.jpg"])).

(** Afterwards item 2 is given another image instead. *)
Definition then_m : UpdateRequest :=
  put 2 (with_images no_body (ImagesArray [EntryString "/news-images/m.jpg"])).

(** Item 2 is given that URL as its one image, and then no image. *)
Definition attach_foreign : UpdateRequest :=
  put 2 (with_images no_body (ImagesArray [EntryString foreign_named_url])).

Definition detach_all : UpdateRequest :=
  put 2 (with_images no_body (ImagesString "")).

(** The canonical cover path of item 1 sent back as [cover_image]. *)
Definition resubmit_cover : UpdateRequest :=
  put 1 (with_cover no_body (JStr "/cover-images/cover-1.jpg")).

Definition no_query : ListQuery :=
  {| query_page := JUndefined; query_limit := JUndefined;
     query_category_id := JUndefined; query_status := JUndefined;
     query_search := JUndefined; query_date_from := JUndefined;
     query_date_to := JUndefined |}.

End Sample.

From Stdlib Require DecimalPos.

(* ===================================================================== *)
(** * More of config/upload.js                                            *)
(* ===================================================================== *)

Module UploadUrls.

(** [s.replace(/\\/g, "/")]. *)
Fixpoint slashes (s : string) : string :=
  match s with
  | EmptyString => EmptyString
  | String c s' => String (if Ascii.eqb c "\" then "/"%char else c) (slashes s')
  end.

(** [s.replace(/^\/?/, "/public/")]: an optional leading slash gives way
    to the prefix. *)
Definition public_prefixed (s : string) : string :=
  match s with
  | String "/" t => "/public/" ++ t
  | _ => "/public/" ++ s
  end.

(** [getFileUrl(req, filePath)]; the request is not used. *)
Definition getFileUrl (rt : Runtime) (filePath : option string) : option string :=
  match filePath with
  | None => None
  | Some "" => None
  | Some filePath =>
      if is_http filePath then Some filePath
      else
        let relativePath := slashes filePath in
        let relativePath1 :=
          if negb (startsWith relativePath "/public")
          then public_prefixed relativePath
          else relativePath in
        let relativePath2 :=
          if negb (startsWith relativePath1 "/")
          then "/" ++ relativePath1
          else relativePath1 in
        Some (baseUrl rt ++ relativePath2)
  end.

(** The directory and the file name that [deleteFile(fileUrl, fileType)]
    hands to [path.join], when it gets as far as looking for a file. *)
Definition deleteFile_target (rt : Runtime) (fileUrl : option string)
           (fileType : string) : option (Dir * string) :=
  match fileUrl with
  | None => None
  | Some "" => None
  | Some url =>
      if is_http url
         && (negb (includes url (baseUrl rt)) && negb (includes url "localhost"))
      then None
      else
        match extractFilenameFromUrl rt fileUrl with
        | None => None
        | Some "" => None
        | Some filename =>
            Some (if String.eqb fileType "cover" then coverImagesDir
                  else if String.eqb fileType "news" then newsImagesDir
                  else uploadsDir,
                  filename)
        end
  end.

End UploadUrls.

(* ===================================================================== *)
(** * utils/helpers.js                                                    *)
(* ===================================================================== *)

Module Helpers.

Fixpoint remove_angle_brackets (s : string) : string :=
  match s with
  | EmptyString => EmptyString
  | String c s' =>
      if Ascii.eqb c "<" || Ascii.eqb c ">"
      then remove_angle_brackets s'
      else String c (remove_angle_brackets s')
  end.

(** [sanitizeInput(str)]. *)
Definition sanitizeInput (str : JsVal) : JsVal :=
  match str with
  | JStr s => JStr (remove_angle_brackets (trim s))
  | v => v
  end.

End Helpers.

(* ===================================================================== *)
(** * The writing half of the models                                      *)
(* ===================================================================== *)

Module NewsAndEventsWrite.

(** The object handed to [create]. *)
Record CreateData : Type := {
  n_category_id : JsVal;
  n_title : JsVal;
  n_description : JsVal;
  n_location : JsVal;
  n_cover_image : JsVal;
  n_date_time : JsVal;
  n_status : JsVal;
  n_created_by : JsVal
}.

(** [v || null]. *)
Definition or_null (v : JsVal) : JsVal := if truthy v then v else JNull.

Definition insert_sql : string :=
  "INSERT INTO news_and_events (category_id, title, description, location, cover_image, date_time, status, created_by, created_at, updated_at)
       VALUES (?, ?, ?, ?, ?, ?, ?, ?, NOW(), NOW())".

(** The values [create] binds, in order; [status] defaults to active when
    it is absent. *)
Definition create_values (d : CreateData) (formattedDateTime : JsVal) : list JsVal :=
  [n_category_id d; n_title d; or_null (n_description d); or_null (n_location d);
   or_null (n_cover_image d); formattedDateTime;
   (if NewsAndEvents.is_undefined (n_status d) then JStr "active" else n_status d);
   or_null (n_created_by d)].

(** The row the engine stores for the bound values. *)
Definition inserted_row (insertId : Z) (d : CreateData) (formattedDateTime : JsVal)
           (w : World) : NewsRow :=
  let text v := NewsAndEvents.sql_to_text (NewsAndEvents.js_to_sql v) in
  let int v := NewsAndEvents.sql_to_int (NewsAndEvents.js_to_sql v) in
  {| news_id := insertId;
     news_category_id := match int (n_category_id d) with Some n => n | None => 0 end;
     news_title := match text (n_title d) with Some t => t | None => "" end;
     news_description := text (or_null (n_description d));
     news_location := text (or_null (n_location d));
     news_cover_image := text (or_null (n_cover_image d));
     news_date_time := match text formattedDateTime with Some t => t | None => "" end;
     news_status :=
       text (if NewsAndEvents.is_undefined (n_status d) then JStr "active"
             else n_status d);
     news_created_by := int (or_null (n_created_by d));
     news_created_at := w_now w |}.

Definition add_news (r : NewsRow) (w : World) : World :=
  set_news (w_news w ++ [r]) w.

(** [create(newsAndEventsData)].  [insertId] is the id the engine assigns
    to the new row.  The client refuses to bind [undefined]; the engine
    refuses NULL in the columns declared NOT NULL, a category that does
    not exist and an id that is taken. *)
Definition create (rt : Runtime) (insertId : Z) (d : CreateData) (w : World)
  : World * Outcome (option NewsRow) :=
  if negb (truthy (n_date_time d)) then (w, Throw "date_time is required")
  else
    match NewsAndEvents.formatDateTimeForMySQL rt (n_date_time d) with
    | Throw m => (w, Throw m)
    | DbError c => (w, DbError c)
    | Return formattedDateTime =>
        let values := create_values d formattedDateTime in
        if existsb NewsAndEvents.is_undefined values
        then (w, Throw "Bind parameters must not contain undefined. To pass SQL NULL specify JS null")
        else
          let w1 := emit (DbExecute insert_sql (map NewsAndEvents.js_to_sql values)) w in
          match NewsAndEvents.sql_to_int (NewsAndEvents.js_to_sql (n_category_id d)),
                NewsAndEvents.sql_to_text (NewsAndEvents.js_to_sql (n_title d)) with
          | Some c, Some _ =>
              if negb (existsb (Z.eqb c) (w_categories w))
              then (w1, DbError "ER_NO_REFERENCED_ROW_2")
              else if existsb (fun r => news_id r =? insertId) (w_news w)
              then (w1, DbError "ER_DUP_ENTRY")
              else
                let '(w2, r) :=
                  NewsAndEvents.findById insertId
                    (add_news (inserted_row insertId d formattedDateTime w) w1) in
                (w2, Return r)
          | _, _ => (w1, DbError "ER_BAD_NULL_ERROR")
          end
    end.

(** [delete(id)]; the image rows of the item go with it (ON DELETE
    CASCADE). *)
Definition delete (id : Z) (w : World) : World * bool :=
  let w1 := emit (DbExecute "DELETE FROM news_and_events WHERE id = ?" [SqlInt id]) w in
  (set_images
     (filter (fun r => negb (img_news_and_events_id r =? id)) (w_images w1))
     (set_news (filter (fun r => negb (news_id r =? id)) (w_news w1)) w1),
   existsb (fun r => news_id r =? id) (w_news w)).

(** [NewsAndEventsImage.updateOrder(id, imageOrder)]. *)
Definition updateOrder (id imageOrder : Z) (w : World) : World * option ImageRow :=
  let w1 := emit (DbExecute "UPDATE news_and_events_images SET image_order = ? WHERE id = ?"
                    [SqlInt imageOrder; SqlInt id]) w in
  let w2 :=
    set_images
      (map (fun r => if img_id r =? id
                     then {| img_id := img_id r;
                             img_news_and_events_id := img_news_and_events_id r;
                             image_url := image_url r;
                             image_order := imageOrder;
                             img_created_at := img_created_at r |}
                     else r) (w_images w1)) w1 in
  (emit (DbExecute "SELECT * FROM news_and_events_images WHERE id = ?" [SqlInt id]) w2,
   find (fun r => img_id r =? id) (w_images w2)).

End NewsAndEventsWrite.

(* ===================================================================== *)
(** * The other handlers of the controller                                *)
(* ===================================================================== *)

(** A POST /api/news-and-events request after the multipart parser ran;
    [c_user] is the id the authentication gate found in the token. *)
Record CreateRequest : Type := {
  c_files_cover_image : list string;
  c_files_images : list string;
  c_body : Body;
  c_user : option Z
}.

Module ControllerMore.

Section WithRuntime.
Variable rt : Runtime.

(** [getNewsAndEventsById]: GET /api/news-and-events/:id. *)
Definition getNewsAndEventsById (id : Z) (w : World) : World * Response :=
  let '(w1, newsAndEvents) := NewsAndEvents.findById id w in
  match newsAndEvents with
  | None => (w1, respond 404 false "News and events not found" NoData)
  | Some item =>
      let '(w2, images) := NewsAndEventsImage.findByNewsAndEventsId id w1 in
      (w2, respond 200 true "News and events retrieved successfully"
             (ItemData (Controller.view rt item images)))
  end.

(** The cover-image block of [createNewsAndEvents]. *)
Definition create_cover (req : CreateRequest) : Outcome (option string) :=
  match c_files_cover_image req with
  | filename :: _ =>
      Return (getRelativePath rt (Some ("uploads/cover-images/" ++ filename)) "cover")
  | [] =>
      match b_cover_image (c_body req) with
      | JStr s => Return (getRelativePath rt (Some s) "cover")
      | v => if truthy v then Throw "filePath.startsWith is not a function"
             else Return None
      end
  end.

(** The image block of [createNewsAndEvents]: [imageUrls]. *)
Definition create_images (req : CreateRequest) : Outcome (list (option string)) :=
  match c_files_images req with
  | _ :: _ =>
      Return (map (fun filename =>
                     getRelativePath rt (Some ("uploads/news-images/" ++ filename)) "news")
                (c_files_images req))
  | [] =>
      match b_images (c_body req) with
      | ImagesUndefined | ImagesNull => Return []
      | ImagesString "" => Return []
      | ImagesArray l => Controller.normalise rt l
      | ImagesString s =>
          match JSON_parse rt s with
          | JsonArray l => Controller.normalise rt l
          | JsonThrows => Controller.normalise rt [EntryString s]
          | JsonOther => Throw "providedImages.map is not a function"
          end
      | ImagesOther _ => Return []
      end
  end.

(** The body of the [try] block of [createNewsAndEvents]; [insertId] is
    the id the engine gives the new item.  The database client refuses to
    bind an [undefined] category id. *)
Definition createNewsAndEvents_try (insertId : Z) (req : CreateRequest) (w : World)
  : World * Outcome Response :=
  let body := c_body req in
  if NewsAndEvents.is_undefined (b_category_id body)
  then (w, Throw "Bind parameters must not contain undefined. To pass SQL NULL specify JS null")
  else
  let '(w1, category_ok) := Category.findById (b_category_id body) w in
  if negb category_ok
  then (w1, Return (respond 404 false "Category not found" NoData))
  else
    match create_cover req with
    | Throw m => (w1, Throw m)
    | DbError c => (w1, DbError c)
    | Return coverImageUrl =>
        match NewsAndEventsWrite.create rt insertId
                {| NewsAndEventsWrite.n_category_id := b_category_id body;
                   NewsAndEventsWrite.n_title := b_title body;
                   NewsAndEventsWrite.n_description := b_description body;
                   NewsAndEventsWrite.n_location := b_location body;
                   NewsAndEventsWrite.n_cover_image := Controller.js_of_text coverImageUrl;
                   NewsAndEventsWrite.n_date_time := b_date_time body;
                   NewsAndEventsWrite.n_status := b_status body;
                   NewsAndEventsWrite.n_created_by :=
                     match c_user req with Some u => JNum u | None => JNull end |} w1 with
        | (w2, Throw m) => (w2, Throw m)
        | (w2, DbError c) => (w2, DbError c)
        | (w2, Return None) => (w2, Throw "Cannot read properties of null (reading 'id')")
        | (w2, Return (Some newsAndEvents)) =>
            match create_images req with
            | Throw m => (w2, Throw m)
            | DbError c => (w2, DbError c)
            | Return imageUrls =>
                match (match imageUrls with
                       | [] => (w2, Return [])
                       | _ :: _ =>
                           NewsAndEventsImage.createMultiple (news_id newsAndEvents)
                             imageUrls w2
                       end) with
                | (w3, Throw m) => (w3, Throw m)
                | (w3, DbError c) => (w3, DbError c)
                | (w3, Return _) =>
                    let '(w4, newsAndEventsImages) :=
                      NewsAndEventsImage.findByNewsAndEventsId (news_id newsAndEvents) w3 in
                    (w4, Return (respond 201 true "News and events created successfully"
                                   (ItemData (Controller.view rt newsAndEvents
                                                newsAndEventsImages))))
                end
            end
        end
    end.

(** [createNewsAndEvents]: POST /api/news-and-events; the [catch] block is
    the one of the update handler. *)
Definition createNewsAndEvents (insertId : Z) (req : CreateRequest) (w : World)
  : World * Response :=
  let '(w1, outcome) := createNewsAndEvents_try insertId req w in
  (w1, Controller.updateNewsAndEvents_catch rt outcome).

(** [deleteNewsAndEvents]: DELETE /api/news-and-events/:id.  Failures of
    the file deletions are only logged. *)
Definition deleteNewsAndEvents (id : Z) (w : World) : World * Response :=
  let '(w1, newsAndEvents) := NewsAndEvents.findById id w in
  match newsAndEvents with
  | None => (w1, respond 404 false "News and events not found" NoData)
  | Some item =>
      let '(w2, images) := NewsAndEventsImage.findByNewsAndEventsId id w1 in
      let imageUrls := map image_url images in
      let w3 :=
        if Controller.truthy_text (news_cover_image item)
        then fst (deleteFile rt (news_cover_image item) "cover" w2)
        else w2 in
      let w4 :=
        match imageUrls with
        | [] => w3
        | _ :: _ => deleteFiles rt (map Some imageUrls) "news" w3
        end in
      let '(w5, deleted) := NewsAndEventsWrite.delete id w4 in
      if negb deleted
      then (w5, respond 400 false "Failed to delete news and events" NoData)
      else (w5, respond 200 true "News and events deleted successfully" NoData)
  end.

(** [validateNewsCreate]: the sanitized body when every rule passes. *)
Definition validateNewsCreate (b : Body) : option Body :=
  let required (v : JsVal) (check : string -> bool) :=
    negb (String.eqb (Validation.text_of v) "") && check (Validation.text_of v) in
  if required (b_category_id b) (validator_isInt rt)
     && required (b_title b)
          (fun s => negb (String.eqb (trim s) "")
                    && Validation.length_between rt 3 255 (trim s))
     && Validation.optional (b_description b)
          (fun s => Validation.length_between rt 0 5000 (trim s))
     && Validation.optional (b_location b)
          (fun s => Validation.length_between rt 0 255 (trim s))
     && match b_cover_image b with
        | JUndefined => true
        | v => Validation.cover_image_custom v
        end
     && required (b_date_time b) (validator_isISO8601 rt)
     && Validation.optional (b_status b)
          (fun s => String.eqb s "active" || String.eqb s "inactive")
     && Validation.images_custom rt (b_images b)
  then Some {| b_category_id := b_category_id b;
               b_title := JStr (trim (Validation.text_of (b_title b)));
               b_description := Validation.sanitize_trim (b_description b);
               b_location := Validation.sanitize_trim (b_location b);
               b_cover_image := b_cover_image b;
               b_date_time := b_date_time b;
               b_status := b_status b;
               b_images := b_images b |}
  else None.

End WithRuntime.

End ControllerMore.

(* ===================================================================== *)
(** * The authentication gate                                             *)
(* ===================================================================== *)

Module Auth.

(** What [jwt.verify(token, secret)] does with a token. *)
Inductive Verified : Type :=
| Decoded (user : Z)
| TokenExpiredError
| JsonWebTokenError
| OtherError.

(** How the middleware ends: it calls [next()] with [req.user] set, or it
    answers. *)
Inductive Gate : Type :=
| Next (user : Z)
| Answer (res : Response).

(** The text of [s] up to its first space, and what follows that space. *)
Fixpoint until_space (s : string) : string * option string :=
  match s with
  | EmptyString => (EmptyString, None)
  | String c s' =>
      if Ascii.eqb c " " then (EmptyString, Some s')
      else let '(a, b) := until_space s' in (String c a, b)
  end.

(** [authHeader.split(" ")[1]]; [None] is [undefined]. *)
Definition second_segment (authHeader : string) : option string :=
  match snd (until_space authHeader) with
  | None => None
  | Some rest => Some (fst (until_space rest))
  end.

Section WithLibrary.
Variable jwt_verify : string -> Verified.

(** [authenticate(req, res, next)] on the value of the Authorization
    header. *)
Definition authenticate (authorization : option string) : Gate :=
  match authorization with
  | None | Some "" =>
      Answer (respond 401 false "No token provided. Authorization header required." NoData)
  | Some authHeader =>
      match second_segment authHeader with
      | None | Some "" =>
          Answer (respond 401 false "Token not found in Authorization header." NoData)
      | Some token =>
          match jwt_verify token with
          | Decoded user => Next user
          | TokenExpiredError => Answer (respond 401 false "Token has expired." NoData)
          | JsonWebTokenError => Answer (respond 401 false "Invalid token." NoData)
          | OtherError => Answer (respond 401 false "Authentication failed." NoData)
          end
      end
  end.

End WithLibrary.

End Auth.

(* ===================================================================== *)
(** * More vocabulary                                                     *)
(* ===================================================================== *)

(** The entries of an image list that come before its first [null]. *)
Fixpoint leading_urls (images : list (option string)) : list string :=
  match images with
  | Some u :: rest => u :: leading_urls rest
  | _ => []
  end.

(** A statement whose parameter list [findAll] accepts: no parameter is
    null and there are as many parameters as placeholders. *)
Definition well_formed (q : Query) : Prop :=
  forallb (fun p => negb (sql_is_null p)) (q_params q) = true
  /\ count_placeholders (q_text q) = List.length (q_params q).

(** [findAll] up to the point where it inspects the parameter list it has
    built: the statement it is about to check. *)
Definition findAll_unchecked (rt : Runtime) (filters : Filters) : Outcome Query :=
  andThen (NewsAndEvents.step_category filters NewsAndEvents.query0) (fun q1 =>
  andThen (NewsAndEvents.step_status filters q1) (fun q2 =>
  andThen (NewsAndEvents.step_search rt filters q2) (fun q3 =>
  andThen (NewsAndEvents.step_date rt (f_date_from filters) "date_from"
             " AND n.date_time >= ?" (cond_date_from rt) q3) (fun q4 =>
  andThen (NewsAndEvents.step_date rt (f_date_to filters) "date_to"
             " AND n.date_time <= ?" (cond_date_to rt) q4) (fun q5 =>
  NewsAndEvents.step_limit filters
    (add_text " ORDER BY n.date_time DESC, n.created_at DESC" q5)))))).

(* ===================================================================== *)
(** * More sample data                                                    *)
(* ===================================================================== *)

(** The array the image block of a handler maps over, when the [images]
    field gives one: the field itself, or what [JSON.parse] reads from a
    non-empty string. *)
Definition array_of_images (rt : Runtime) (i : ImagesField)
  : option (list ImageEntry) :=
  match i with
  | ImagesArray l => Some l
  | ImagesString "" => None
  | ImagesString s =>
      match JSON_parse rt s with
      | JsonArray l => Some l
      | _ => None
      end
  | _ => None
  end.

Module Fixtures.

(** The filter object of a request for the active items of category 1. *)
Definition active_in_category : Filters :=
  {| f_category_id := JStr "1"; f_status := JStr "active";
     f_search := JUndefined; f_date_from := JUndefined; f_date_to := JUndefined;
     f_limit := JUndefined; f_offset := JUndefined |}.

(** An update that gives a new title and removes the cover image. *)
Definition retitle : NewsAndEvents.UpdateData :=
  {| NewsAndEvents.u_category_id := JUndefined;
     NewsAndEvents.u_title := JStr "Reopening";
     NewsAndEvents.u_description := JUndefined;
     NewsAndEvents.u_location := JUndefined;
     NewsAndEvents.u_cover_image := JNull;
     NewsAndEvents.u_date_time := JUndefined;
     NewsAndEvents.u_status := JUndefined |}.

Definition news1_retitled : NewsRow :=
  {| news_id := 1; news_category_id := 1; news_title := "Reopening";
     news_description := None; news_location := None;
     news_cover_image := None;
     news_date_time := "2025-12-04 07:22:00"; news_status := Some "active";
     news_created_by := None; news_created_at := 100 |}.

(** The data of a new item, and the row the engine stores for it under
    the id 3 in the sample world. *)
Definition new_item : NewsAndEventsWrite.CreateData :=
  {| NewsAndEventsWrite.n_category_id := JStr "1";
     NewsAndEventsWrite.n_title := JStr "Concert";
     NewsAndEventsWrite.n_description := JUndefined;
     NewsAndEventsWrite.n_location := JStr "Hall";
     NewsAndEventsWrite.n_cover_image := JStr "/cover-images/c3.png";
     NewsAndEventsWrite.n_date_time := JStr "2026-01-10 10:00:00";
     NewsAndEventsWrite.n_status := JUndefined;
     NewsAndEventsWrite.n_created_by := JNum 7 |}.

Definition news3 : NewsRow :=
  {| news_id := 3; news_category_id := 1; news_title := "Concert";
     news_description := None; news_location := Some "Hall";
     news_cover_image := Some "/cover-images/c3.png";
     news_date_time := "2026-01-10 10:00:00"; news_status := Some "active";
     news_created_by := Some 7; news_created_at := 200 |}.

(** A creation request with two images given by path, sent by admin 7. *)
Definition create_request : CreateRequest :=
  {| c_files_cover_image := [];
     c_files_images := [];
     c_body := {| b_category_id := JStr "1"; b_title := JStr "Concert";
                  b_description := JUndefined; b_location := JStr "Hall";
                  b_cover_image := JStr "/cover-images/c3.png";
                  b_date_time := JStr "2026-01-10 10:00:00";
                  b_status := JUndefined;
                  b_images := ImagesArray [EntryString "/news-images/z.jpg"; EntryString "/news-images/a.jpg"] |};
     c_user := Some 7 |}.

(** The same request with an empty entry in its image list. *)
Definition create_request_empty_image : CreateRequest :=
  {| c_files_cover_image := [];
     c_files_images := [];
     c_body := {| b_category_id := JStr "1"; b_title := JStr "Concert";
                  b_description := JUndefined; b_location := JStr "Hall";
                  b_cover_image := JStr "/cover-images/c3.png";
                  b_date_time := JStr "2026-01-10 10:00:00";
                  b_status := JUndefined;
                  b_images := ImagesArray [EntryString "/news-images/z.jpg"; EntryString ""] |};
     c_user := Some 7 |}.

(** A token library that accepts one token, issued to admin 7. *)
Definition verify (token : string) : Auth.Verified :=
  if String.eqb token "good" then Auth.Decoded 7 else Auth.JsonWebTokenError.

(** An update whose date cannot be converted. *)
Definition bad_date : NewsAndEvents.UpdateData :=
  {| NewsAndEvents.u_category_id := JUndefined;
     NewsAndEvents.u_title := JStr "Reopening";
     NewsAndEvents.u_description := JUndefined;
     NewsAndEvents.u_location := JUndefined;
     NewsAndEvents.u_cover_image := JUndefined;
     NewsAndEvents.u_date_time := JNum 5;
     NewsAndEvents.u_status := JUndefined |}.

(** A body whose [images] array holds a number after a path, as a JSON
    request can send it. *)
Definition body_with_number : Body :=
  Sample.with_images Sample.no_body
    (ImagesArray [EntryString "/news-images/a.jpg"; EntryOther true]).

End Fixtures.

(** A value as a query string delivers it: absent, or a string. *)
Definition from_query_string (v : JsVal) : bool :=
  match v with
  | JUndefined | JStr _ => true
  | _ => false
  end.

(** A category id as the pages send it: decimal digits, at most fifteen of
    them, so that the number is below 2^53 and [parseInt] and the engine's
    conversion of the bound string read the same integer from it. *)
Definition decimal_numeral (s : string) : bool :=
  forallb is_digit (list_ascii_of_string s) && (String.length s <=? 15)%nat.

(** What a nullable text column holds after an update that was handed the
    value [v] for it: the old value when [v] is [undefined], NULL for
    [null], the string for a string. *)
Definition nullable_column_after (v : JsVal) (old new : option string) : Prop :=
  match v with
  | JUndefined => new = old
  | JNull => new = None
  | JStr s => new = Some s
  | _ => True
  end.

(** What the engine does with one field of [updateData]: nothing when the
    field is [undefined], the assignment otherwise. *)
Definition set_column (c : NewsAndEvents.Column) (v : JsVal) (r : NewsRow) : NewsRow :=
  if NewsAndEvents.is_undefined v then r
  else NewsAndEvents.assign (c, NewsAndEvents.js_to_sql v) r.

(** Whether a text contains a space. *)
(** A plain file name: one path segment that is neither empty nor [.] nor
    [..].  For such a name [path.join(dir, name)] is the file of that name
    directly inside [dir]; any other name makes [path.join] resolve to
    another place (the directory itself, its parent, a file elsewhere). *)
Definition plain_name (f : string) : bool :=
  negb (has_slash f) && negb (String.eqb f "")
  && negb (String.eqb f ".") && negb (String.eqb f "..").

Definition has_space (s : string) : bool :=
  existsb (Ascii.eqb " ") (list_ascii_of_string s).

(* ===================================================================== *)
(** * Facts about strings                                                 *)
(* ===================================================================== *)

(** Case analysis on the innermost scrutinee of the matches in sight. *)
Ltac break_inner :=
  repeat match goal with
         | H : context [match ?x with _ => _ end] |- _ =>
             lazymatch x with
             | context [match _ with _ => _ end] => fail
             | _ => destruct x eqn:?
             end
         | |- context [match ?x with _ => _ end] =>
             lazymatch x with
             | context [match _ with _ => _ end] => fail
             | _ => destruct x eqn:?
             end
         end.

Lemma prefix_app (p s : string) : String.prefix p (p ++ s) = true.
Proof.
  induction p as [|a p IH]; simpl.
  - now destruct s.
  - destruct (ascii_dec a a) as [_|n]; [exact IH | now elim n].
Qed.

Lemma prefix_cons_neq (a b : ascii) (p s : string) :
  a <> b -> String.prefix (String a p) (String b s) = false.
Proof.
  intros H; simpl. destruct (ascii_dec a b); [contradiction | reflexivity].
Qed.

Lemma is_relative_cover (f : string) : is_relative ("/cover-images/" ++ f) = true.
Proof. unfold is_relative, startsWith. now rewrite prefix_app. Qed.

Lemma is_relative_news (f : string) : is_relative ("/news-images/" ++ f) = true.
Proof.
  unfold is_relative, startsWith. rewrite (prefix_app "/news-images/" f).
  apply orb_true_r.
Qed.

Lemma is_http_slash (s : string) : is_http (String "/" s) = false.
Proof. reflexivity. Qed.

Lemma is_relative_not_http (s : string) : is_relative s = true -> is_http s = false.
Proof.
  destruct s as [|c s]; [discriminate|].
  destruct (ascii_dec c "/") as [->|n]; [reflexivity|].
  unfold is_relative, startsWith.
  rewrite !prefix_cons_neq by congruence. discriminate.
Qed.

(** The first capture group of the uploads pattern is one of the two
    directory names. *)
Lemma match_uploads_tail_dir (s m1 m2 : string) :
  match_uploads_tail s = Some (m1, m2) -> m1 = "cover-images" \/ m1 = "news-images".
Proof.
  unfold match_uploads_tail, orelse. cbv zeta. intros H.
  break_inner; try discriminate; inversion H; auto.
Qed.

Lemma match_uploads_here_dir (s m1 m2 : string) :
  match_uploads_here s = Some (m1, m2) -> m1 = "cover-images" \/ m1 = "news-images".
Proof.
  unfold match_uploads_here, orelse. intros H.
  break_inner; try discriminate;
    solve [ inversion H; subst; eapply match_uploads_tail_dir; eauto
          | eapply match_uploads_tail_dir; eauto ].
Qed.

Lemma match_uploads_dir (s m1 m2 : string) :
  match_uploads s = Some (m1, m2) -> m1 = "cover-images" \/ m1 = "news-images".
Proof.
  induction s as [|c s IH]; intros H.
  - discriminate H.
  - simpl in H. destruct (match_uploads_here (String c s)) as [[a b]|] eqn:E.
    + inversion H; subst. eapply match_uploads_here_dir; eauto.
    + auto.
Qed.

(** The unfolding of [getRelativePath] on a non-empty string. *)
Lemma getRelativePath_cons (rt : Runtime) (c : ascii) (s fileType : string) :
  getRelativePath rt (Some (String c s)) fileType =
  if is_http (String c s) then
    match URL_pathname rt (String c s) with
    | Some urlPath =>
        match match_uploads urlPath with
        | Some (m1, m2) => Some ("/" ++ m1 ++ "/" ++ m2)
        | None => Some (String c s)
        end
    | None => Some (String c s)
    end
  else if is_relative (String c s) then Some (String c s)
  else if String.eqb fileType "cover" then Some ("/cover-images/" ++ basename (String c s))
  else if String.eqb fileType "news" then Some ("/news-images/" ++ basename (String c s))
  else Some (String c s).
Proof. reflexivity. Qed.

(** Canonical relative paths are returned as they are. *)
Lemma getRelativePath_relative (rt : Runtime) (s fileType : string) :
  is_relative s = true -> getRelativePath rt (Some s) fileType = Some s.
Proof.
  intros H. pose proof (is_relative_not_http s H) as Hh.
  destruct s as [|c s]; [discriminate|].
  rewrite getRelativePath_cons, Hh, H. reflexivity.
Qed.

(* ===================================================================== *)
(** * Normalisation of image references                                   *)
(* ===================================================================== *)

(** C10. [getRelativePath] is idempotent: for every string and every file
    type, normalising the result of a normalisation returns it unchanged;
    in particular the canonical paths [/cover-images/<file>] and
    [/news-images/<file>] are fixed points. *)
Theorem getRelativePath_idempotent :
  forall (rt : Runtime) (s fileType : string),
    getRelativePath rt (getRelativePath rt (Some s) fileType) fileType
    = getRelativePath rt (Some s) fileType
    /\ getRelativePath rt (Some ("/cover-images/" ++ s)) fileType
       = Some ("/cover-images/" ++ s)
    /\ getRelativePath rt (Some ("/news-images/" ++ s)) fileType
       = Some ("/news-images/" ++ s).
Proof.
  intros rt s fileType. split; [|split].
  2: apply getRelativePath_relative, is_relative_cover.
  2: apply getRelativePath_relative, is_relative_news.
  destruct s as [|c s]; [reflexivity|].
  rewrite getRelativePath_cons.
  destruct (is_http (String c s)) eqn:Hh.
  - destruct (URL_pathname rt (String c s)) as [urlPath|] eqn:Hu.
    + destruct (match_uploads urlPath) as [[m1 m2]|] eqn:Hm.
      * apply match_uploads_dir in Hm. apply getRelativePath_relative.
        destruct Hm as [-> | ->].
        -- apply (is_relative_cover m2).
        -- apply (is_relative_news m2).
      * rewrite getRelativePath_cons, Hh, Hu, Hm. reflexivity.
    + rewrite getRelativePath_cons, Hh, Hu. reflexivity.
  - destruct (is_relative (String c s)) eqn:Hr.
    + rewrite getRelativePath_cons, Hh, Hr. reflexivity.
    + destruct (String.eqb fileType "cover") eqn:Hc.
      * apply getRelativePath_relative, is_relative_cover.
      * destruct (String.eqb fileType "news") eqn:Hn.
        -- apply getRelativePath_relative, is_relative_news.
        -- rewrite getRelativePath_cons, Hh, Hr, Hc, Hn. reflexivity.
Qed.

(** An http(s) URL is returned as it is when its path does not have the
    shape of an upload path, whatever its host. *)
Lemma getRelativePath_http_verbatim (rt : Runtime) (u fileType : string) :
  is_http u = true ->
  (forall p, URL_pathname rt u = Some p -> match_uploads p = None) ->
  getRelativePath rt (Some u) fileType = Some u.
Proof.
  intros Hh Hp. destruct u as [|c u]; [discriminate|].
  rewrite getRelativePath_cons, Hh.
  destruct (URL_pathname rt (String c u)) as [p|]; [|reflexivity].
  now rewrite (Hp p eq_refl).
Qed.

(** [deleteFile] leaves alone every http(s) URL in which neither the base
    URL nor the word localhost occurs. *)
Lemma deleteFile_external_skips (rt : Runtime) (u fileType : string) (w : World) :
  is_http u = true ->
  includes u (baseUrl rt) = false ->
  includes u "localhost" = false ->
  deleteFile rt (Some u) fileType w = (w, Resolved false).
Proof.
  intros Hh Hb Hl. destruct u as [|c u]; [discriminate|].
  unfold deleteFile. cbv beta iota. now rewrite Hh, Hb, Hl.
Qed.

(** An http(s) URL whose path has the shape of an upload path is rewritten
    to the relative path, whatever its host. *)
Lemma getRelativePath_http_rewritten (rt : Runtime) (u fileType p m1 m2 : string) :
  is_http u = true ->
  URL_pathname rt u = Some p ->
  match_uploads p = Some (m1, m2) ->
  getRelativePath rt (Some u) fileType = Some ("/" ++ m1 ++ "/" ++ m2).
Proof.
  intros Hh Hp Hm. destruct u as [|c u]; [discriminate|].
  rewrite getRelativePath_cons, Hh, Hp, Hm. reflexivity.
Qed.

(** [deleteFile] goes on to the file system for every http(s) URL in which
    the text localhost occurs, whatever its host: it removes the file of
    the type's directory that is named like the last segment of the URL's
    path. *)
Lemma deleteFile_localhost_unlinks (rt : Runtime) (u fileType f : string) (w : World) :
  is_http u = true ->
  includes u "localhost" = true ->
  extractFilenameFromUrl rt (Some u) = Some f ->
  f <> "" ->
  existsSync w (if String.eqb fileType "cover" then coverImagesDir
                else if String.eqb fileType "news" then newsImagesDir
                else uploadsDir, f) = true ->
  unlink_fails rt (if String.eqb fileType "cover" then coverImagesDir
                   else if String.eqb fileType "news" then newsImagesDir
                   else uploadsDir) f = false ->
  deleteFile rt (Some u) fileType w
  = (remove_file (if String.eqb fileType "cover" then coverImagesDir
                  else if String.eqb fileType "news" then newsImagesDir
                  else uploadsDir, f)
       (emit (FsUnlink (if String.eqb fileType "cover" then coverImagesDir
                        else if String.eqb fileType "news" then newsImagesDir
                        else uploadsDir) f) w),
     Resolved true).
Proof.
  intros Hh Hl Hf Hne He Hu. destruct u as [|c u]; [discriminate|].
  unfold deleteFile. cbv beta iota. rewrite Hh, Hl, Hf.
  rewrite andb_false_r. cbv beta iota.
  destruct f as [|a f]; [now elim Hne|].
  cbv zeta. rewrite He, Hu. reflexivity.
Qed.

(** C7 at its failing input.  The host of a URL is never consulted.  A URL
    on the host cdn.example.com, which is not the host of the service, is
    given a local file to lose: [deleteFile] takes it for a URL of the
    service because the text localhost occurs in it, in the query or in
    the file name, and unlinks the gallery file named like the last
    segment of its path, whether [getRelativePath] returns the URL
    verbatim (its path is no upload path) or rewrites it to a relative
    path (its path has the shape of one).  Two accepted PUT requests
    suffice: one gives item 2 the URL as its image, the next takes the
    image away, and the gallery file [a.jpg] of item 1 is gone.  This is
    so for every http(s) URL in which the text localhost occurs, and
    every http(s) URL whose path has the shape of an upload path is
    rewritten.  What the claim says holds where neither happens: a URL
    whose path is no upload path is returned verbatim, and a URL in which
    neither the base URL nor the text localhost occurs is left alone by
    [deleteFile]. *)
Theorem foreign_url_unlinked_by_deleteFile :
  (URL_host Sample.rt Sample.foreign_named_url = Some "cdn.example.com"
   /\ URL_host Sample.rt Sample.foreign_url = Some "cdn.example.com"
   /\ URL_host Sample.rt (baseUrl Sample.rt) = Some "localhost:3000"
   /\ getRelativePath Sample.rt (Some Sample.foreign_named_url) "news"
      = Some Sample.foreign_named_url
   /\ existsSync Sample.world (newsImagesDir, "a.jpg") = true
   /\ deleteFile Sample.rt (Some Sample.foreign_named_url) "news" Sample.world
      = (remove_file (newsImagesDir, "a.jpg")
           (emit (FsUnlink newsImagesDir "a.jpg") Sample.world),
         Resolved true)
   /\ existsSync (fst (deleteFile Sample.rt (Some Sample.foreign_named_url) "news"
                         Sample.world)) (newsImagesDir, "a.jpg") = false
   /\ status (snd (Controller.put_news_and_events Sample.rt Sample.attach_foreign
                     Sample.world)) = 200
   /\ status (snd (Controller.put_news_and_events Sample.rt Sample.detach_all
                     (fst (Controller.put_news_and_events Sample.rt
                             Sample.attach_foreign Sample.world)))) = 200
   /\ persisted_urls 1
        (fst (Controller.put_news_and_events Sample.rt Sample.detach_all
                (fst (Controller.put_news_and_events Sample.rt
                        Sample.attach_foreign Sample.world))))
      = ["/news-images/a.jpg"; "/news-images/b.jpg"]
   /\ w_files
        (fst (Controller.put_news_and_events Sample.rt Sample.detach_all
                (fst (Controller.put_news_and_events Sample.rt
                        Sample.attach_foreign Sample.world))))
      = [(coverImagesDir, "cover-1.jpg"); (newsImagesDir, "b.jpg")]
   /\ getRelativePath Sample.rt (Some Sample.foreign_url) "news"
      = Some "/news-images/localhost-1.jpg"
   /\ deleteFile Sample.rt (Some Sample.foreign_url) "news" Sample.foreign_world
      = (set_files []
           (emit (FsUnlink newsImagesDir "localhost-1.jpg") Sample.foreign_world),
         Resolved true))
  /\ (forall (rt : Runtime) (u f : string) (w : World),
        is_http u = true ->
        includes u "localhost" = true ->
        extractFilenameFromUrl rt (Some u) = Some f ->
        f <> "" ->
        existsSync w (newsImagesDir, f) = true ->
        unlink_fails rt newsImagesDir f = false ->
        deleteFile rt (Some u) "news" w
        = (remove_file (newsImagesDir, f) (emit (FsUnlink newsImagesDir f) w),
           Resolved true))
  /\ (forall (rt : Runtime) (u fileType p m1 m2 : string),
        is_http u = true ->
        URL_pathname rt u = Some p ->
        match_uploads p = Some (m1, m2) ->
        getRelativePath rt (Some u) fileType = Some ("/" ++ m1 ++ "/" ++ m2))
  /\ (forall (rt : Runtime) (u fileType : string),
        is_http u = true ->
        (forall p, URL_pathname rt u = Some p -> match_uploads p = None) ->
        getRelativePath rt (Some u) fileType = Some u)
  /\ (forall (rt : Runtime) (u fileType : string) (w : World),
        is_http u = true ->
        includes u (baseUrl rt) = false ->
        includes u "localhost" = false ->
        deleteFile rt (Some u) fileType w = (w, Resolved false)).
Proof.
  split; [repeat split; reflexivity|].
  split; [intros rt u f w; apply (deleteFile_localhost_unlinks rt u "news" f w)|].
  split; [intros rt u fileType p m1 m2; apply getRelativePath_http_rewritten|].
  split; [intros rt u fileType; apply getRelativePath_http_verbatim|].
  intros rt u fileType w. apply deleteFile_external_skips.
Qed.

Lemma foreign_url_unlinked_by_deleteFile_witness :
  deleteFile Sample.rt (Some Sample.foreign_named_url) "news" Sample.world
  = (remove_file (newsImagesDir, "a.jpg")
       (emit (FsUnlink newsImagesDir "a.jpg") Sample.world),
     Resolved true)
  /\ getRelativePath Sample.rt (Some Sample.foreign_url) "cover"
     = Some "/news-images/localhost-1.jpg"
  /\ getRelativePath Sample.rt (Some Sample.plain_foreign_url) "news"
     = Some Sample.plain_foreign_url
  /\ deleteFile Sample.rt (Some Sample.plain_foreign_url) "news" Sample.world
     = (Sample.world, Resolved false).
Proof.
  destruct foreign_url_unlinked_by_deleteFile as (_ & H1 & H2 & H3 & H4).
  split; [|split; [|split]].
  - apply (H1 Sample.rt Sample.foreign_named_url "a.jpg" Sample.world);
      try reflexivity.
    discriminate.
  - apply (H2 Sample.rt Sample.foreign_url "cover"
             "/uploads/news-images/localhost-1.jpg" "news-images" "localhost-1.jpg");
      reflexivity.
  - apply (H3 Sample.rt Sample.plain_foreign_url "news"); [reflexivity|].
    intros p H. vm_compute in H. inversion H. reflexivity.
  - apply (H4 Sample.rt Sample.plain_foreign_url "news" Sample.world); reflexivity.
Defined.

(* ===================================================================== *)
(** * Datetime conversion                                                 *)
(* ===================================================================== *)

Lemma classify_expected (x : string) :
  classify_error ("Expected string, got " ++ x) = Some NotAString.
Proof. unfold classify_error. now rewrite prefix_app. Qed.

Lemma classify_invalid (x : string) :
  classify_error ("Invalid datetime format: " ++ x) = Some Unparseable.
Proof.
  unfold classify_error.
  rewrite (prefix_app "Invalid datetime format: " x). reflexivity.
Qed.

(** Every string the conversion returns has the fixed-width shape. *)
Lemma formatDateTimeForMySQL_fixed_width (rt : Runtime) (v : JsVal) (out : string) :
  NewsAndEvents.formatDateTimeForMySQL rt v = Return (JStr out) ->
  mysql_datetime_re out = true.
Proof.
  destruct v as [| |b|n|s]; simpl; try discriminate.
  destruct (String.eqb (trim s) "") eqn:He; [discriminate|].
  destruct (mysql_datetime_re (trim s)) eqn:Hre.
  - intros H; inversion H; subst; exact Hre.
  - destruct (Date_parse rt (trim s)) as [t|]; simpl; [|discriminate].
    match goal with
    | |- context [mysql_datetime_re ?f] => destruct (mysql_datetime_re f) eqn:Hf
    end; simpl; [|discriminate].
    intros H; inversion H; subst; exact Hf.
Qed.

(** C3, as the code has it.  In the copy of the model with validated
    filters, [null] and [undefined] are handed back unchanged; every other
    non-string is rejected; a string that is empty after trimming is
    rejected; a string already of the shape [YYYY-MM-DD HH:MM:SS] is
    returned trimmed without looking at the calendar; any other string
    that [Date] cannot parse is rejected, and one that it can parse is
    returned in the fixed-width form of its UTC fields or rejected when
    those do not fit it.  The three rejections carry messages of three
    different kinds, and every string that is returned has the fixed-width
    shape.  The other copy, models/NewsAndEvents.js, rejects less: it
    hands back every falsy value, the empty string among them; it rejects
    a truthy value, string or not, only when [Date] makes no time of it,
    always with the message of the third kind; and what it returns
    otherwise need not have the fixed-width shape. *)
Theorem formatDateTimeForMySQL_outcomes :
  forall rt : Runtime,
    (forall v, is_nullish v = true ->
       NewsAndEvents.formatDateTimeForMySQL rt v = Return v)
    /\ (forall v, is_nullish v = false -> typeof v <> "string" ->
          exists m, NewsAndEvents.formatDateTimeForMySQL rt v = Throw m
                    /\ classify_error m = Some NotAString)
    /\ (forall s, trim s = "" ->
          exists m, NewsAndEvents.formatDateTimeForMySQL rt (JStr s) = Throw m
                    /\ classify_error m = Some EmptyDatetime)
    /\ (forall s, trim s <> "" -> mysql_datetime_re (trim s) = true ->
          NewsAndEvents.formatDateTimeForMySQL rt (JStr s) = Return (JStr (trim s)))
    /\ (forall s, trim s <> "" -> mysql_datetime_re (trim s) = false ->
          Date_parse rt (trim s) = None ->
          exists m, NewsAndEvents.formatDateTimeForMySQL rt (JStr s) = Throw m
                    /\ classify_error m = Some Unparseable)
    /\ (forall s t, trim s <> "" -> mysql_datetime_re (trim s) = false ->
          Date_parse rt (trim s) = Some t ->
          (exists out, NewsAndEvents.formatDateTimeForMySQL rt (JStr s) = Return (JStr out)
                       /\ mysql_datetime_re out = true)
          \/ (exists m, NewsAndEvents.formatDateTimeForMySQL rt (JStr s) = Throw m
                        /\ classify_error m = Some Unparseable))
    /\ (forall v out, NewsAndEvents.formatDateTimeForMySQL rt v = Return (JStr out) ->
          mysql_datetime_re out = true)
    /\ (forall v, truthy v = false ->
          NewsAndEventsLegacy.formatDateTimeForMySQL rt v = Return v)
    /\ (forall v, truthy v = true -> NewsAndEventsLegacy.new_Date rt v = None ->
          exists m, NewsAndEventsLegacy.formatDateTimeForMySQL rt v = Throw m
                    /\ classify_error m = Some Unparseable)
    /\ (forall v t, truthy v = true -> NewsAndEventsLegacy.new_Date rt v = Some t ->
          exists out, NewsAndEventsLegacy.formatDateTimeForMySQL rt v
                      = Return (JStr out))
    /\ (NewsAndEventsLegacy.formatDateTimeForMySQL Sample.rt (JNum 5)
        = Return (JStr "1970-01-01 00:00:00")
        /\ NewsAndEventsLegacy.formatDateTimeForMySQL Sample.rt
             (JStr "0999-01-01T00:00:00.000Z")
           = Return (JStr "999-01-01 00:00:00")
        /\ mysql_datetime_re "999-01-01 00:00:00" = false).
Proof.
  intros rt.
  split; [|split; [|split; [|split; [|split; [|split; [|split;
    [|split; [|split; [|split]]]]]]]]].
  - intros [| |b|n|s] H; try discriminate; reflexivity.
  - intros [| |b|n|s] Hn Ht; try discriminate.
    + eexists; split; [reflexivity | apply classify_expected].
    + eexists; split; [reflexivity | apply classify_expected].
    + now elim Ht.
  - intros s Hs. exists "Empty datetime string is not allowed". split; [|reflexivity].
    simpl. now rewrite Hs.
  - intros s Hs Hre. simpl.
    destruct (String.eqb_spec (trim s) ""); [contradiction|]. now rewrite Hre.
  - intros s Hs Hre Hd. simpl.
    destruct (String.eqb_spec (trim s) ""); [contradiction|].
    rewrite Hre, Hd. simpl.
    eexists; split; [reflexivity | apply classify_invalid].
  - intros s t Hs Hre Hd. simpl.
    destruct (String.eqb_spec (trim s) ""); [contradiction|].
    rewrite Hre, Hd.
    match goal with
    | |- context [mysql_datetime_re ?f] => destruct (mysql_datetime_re f) eqn:Hf
    end; simpl.
    + left. eexists; split; [reflexivity | exact Hf].
    + right. eexists; split; [reflexivity | apply classify_invalid].
  - intros v out. apply formatDateTimeForMySQL_fixed_width.
  - intros v Hv. unfold NewsAndEventsLegacy.formatDateTimeForMySQL.
    now rewrite Hv.
  - intros v Hv Hd. unfold NewsAndEventsLegacy.formatDateTimeForMySQL.
    rewrite Hv, Hd. cbn [negb rethrow].
    eexists; split; [reflexivity | apply classify_invalid].
  - intros v t Hv Hd. unfold NewsAndEventsLegacy.formatDateTimeForMySQL.
    rewrite Hv, Hd. cbn [negb rethrow]. eexists; reflexivity.
  - repeat split; reflexivity.
Qed.

Lemma formatDateTimeForMySQL_outcomes_witness :
  NewsAndEvents.formatDateTimeForMySQL Sample.rt JNull = Return JNull
  /\ (exists m, NewsAndEvents.formatDateTimeForMySQL Sample.rt (JNum 5) = Throw m
                /\ classify_error m = Some NotAString)
  /\ (exists m, NewsAndEvents.formatDateTimeForMySQL Sample.rt (JStr "   ") = Throw m
                /\ classify_error m = Some EmptyDatetime)
  /\ (exists m, NewsAndEvents.formatDateTimeForMySQL Sample.rt (JStr Sample.nbsp)
                = Throw m
                /\ classify_error m = Some EmptyDatetime)
  /\ NewsAndEvents.formatDateTimeForMySQL Sample.rt (JStr " 2025-12-04 07:22:00 ")
     = Return (JStr "2025-12-04 07:22:00")
  /\ (exists m, NewsAndEvents.formatDateTimeForMySQL Sample.rt (JStr "next week") = Throw m
                /\ classify_error m = Some Unparseable)
  /\ mysql_datetime_re "2025-12-04 07:22:00" = true
  /\ NewsAndEventsLegacy.formatDateTimeForMySQL Sample.rt (JStr "") = Return (JStr "")
  /\ (exists m, NewsAndEventsLegacy.formatDateTimeForMySQL Sample.rt (JStr "next week")
                = Throw m
                /\ classify_error m = Some Unparseable)
  /\ (exists out, NewsAndEventsLegacy.formatDateTimeForMySQL Sample.rt (JBool true)
                  = Return (JStr out)).
Proof.
  destruct (formatDateTimeForMySQL_outcomes Sample.rt)
    as (H1 & H2 & H3 & H4 & H5 & _ & H6 & H7 & H8 & H9 & _).
  split; [apply H1; reflexivity|].
  split; [apply H2; [reflexivity | discriminate]|].
  split; [apply H3; reflexivity|].
  split; [apply H3; reflexivity|].
  split; [apply (H4 " 2025-12-04 07:22:00 "); [discriminate | reflexivity]|].
  split; [apply H5; [discriminate | reflexivity | reflexivity]|].
  split; [apply (H6 (JStr "2025-12-04T07:22:00.000Z")); reflexivity|].
  split; [apply H7; reflexivity|].
  split; [apply H8; reflexivity|].
  apply (H9 (JBool true) 1); reflexivity.
Defined.

(** C3 as stated fails: [null], which is not a string, is not rejected,
    and a string of the right shape that names no calendar date or time is
    accepted. *)
Lemma formatDateTimeForMySQL_counterexample :
  NewsAndEvents.formatDateTimeForMySQL Sample.rt JNull = Return JNull
  /\ typeof JNull <> "string"
  /\ NewsAndEvents.formatDateTimeForMySQL Sample.rt (JStr "2025-13-45 25:61:61")
     = Return (JStr "2025-13-45 25:61:61")
  /\ valid_calendar_datetime "2025-13-45 25:61:61" = false
  /\ Date_parse Sample.rt "2025-13-45 25:61:61" = None.
Proof.
  repeat split; try reflexivity. discriminate.
Qed.

(* ===================================================================== *)
(** * The listing query                                                   *)
(* ===================================================================== *)

Lemma count_placeholders_app (a b : string) :
  count_placeholders (a ++ b) = (count_placeholders a + count_placeholders b)%nat.
Proof.
  induction a as [|c a IH]; simpl; [reflexivity|].
  rewrite IH. now rewrite Nat.add_assoc.
Qed.

Lemma count_placeholders_uint (d : Decimal.uint) :
  count_placeholders (NilEmpty.string_of_uint d) = O.
Proof. induction d; simpl; auto. Qed.

(** The decimal rendering of an integer contains no placeholder. *)
Lemma count_placeholders_Z_to_string (n : Z) :
  count_placeholders (Z_to_string n) = O.
Proof.
  unfold Z_to_string, NilZero.string_of_int, NilZero.string_of_uint.
  destruct (Z.to_int n) as [d|d]; destruct d; simpl;
    try reflexivity; apply count_placeholders_uint.
Qed.

(** Nor does a number as [String] prints it. *)
Lemma count_placeholders_number_to_string (n : Z) :
  count_placeholders (number_to_string n) = O.
Proof.
  unfold number_to_string.
  destruct (Z.abs n <? 2 ^ 53); [apply count_placeholders_Z_to_string|].
  rewrite count_placeholders_app.
  replace (count_placeholders (if n <? 0 then "-" else "")) with O
    by (destruct (n <? 0); reflexivity).
  destruct (infinity <=? Z.abs (printed n)); [reflexivity|].
  destruct (digits (Z.abs (printed n)) <=? 21);
    [apply count_placeholders_Z_to_string|].
  unfold exponent_form.
  pose proof (count_placeholders_Z_to_string
                (strip_zeros (Z.to_nat (digits (Z.abs (printed n))))
                   (Z.abs (printed n)))) as H.
  destruct (Z_to_string _) as [|d rest]; [reflexivity|].
  cbn [count_placeholders] in H.
  change (String d ?x ++ ?y) with (String d (x ++ y)).
  cbn [count_placeholders Nat.add].
  rewrite count_placeholders_app, count_placeholders_app,
    count_placeholders_Z_to_string.
  destruct (Ascii.eqb d "?"); [discriminate|].
  destruct rest as [|e rest]; [reflexivity|].
  cbn [count_placeholders Nat.add] in H |- *.
  change (Ascii.eqb "." "?") with false. cbn [Nat.add].
  rewrite H. reflexivity.
Qed.

Lemma check_params_inv (q q' : Query) :
  NewsAndEvents.check_params q = Return q' ->
  q' = q
  /\ NewsAndEvents.invalid_indices 0 (q_params q) = []
  /\ count_placeholders (q_text q) = List.length (q_params q).
Proof.
  unfold NewsAndEvents.check_params.
  destruct (NewsAndEvents.invalid_indices 0 (q_params q)); [|discriminate].
  destruct (Nat.eqb_spec (count_placeholders (q_text q)) (List.length (q_params q)));
    simpl; [|discriminate].
  intros H; inversion H; subst; repeat split; auto.
Qed.

Lemma check_params_intro (q : Query) :
  NewsAndEvents.invalid_indices 0 (q_params q) = [] ->
  count_placeholders (q_text q) = List.length (q_params q) ->
  NewsAndEvents.check_params q = Return q.
Proof.
  unfold NewsAndEvents.check_params. intros -> ->.
  now rewrite Nat.eqb_refl.
Qed.

(** What the paging step appends: validated integers in the text, nothing
    in the parameter list. *)
Lemma step_limit_inv (filters : Filters) (q0 q : Query) :
  NewsAndEvents.step_limit filters q0 = Return q ->
  is_nullish (f_limit filters) = false ->
  exists limit,
    parseInt (f_limit filters) (Some 10) = Some limit /\ 1 <= limit
    /\ q_params q = q_params q0
    /\ ((is_nullish (f_offset filters) = true
         /\ q_text q = q_text q0 ++ " LIMIT " ++ number_to_string limit)
        \/ (exists offset,
              parseInt (f_offset filters) (Some 10) = Some offset /\ 0 <= offset
              /\ q_text q = q_text q0 ++ " LIMIT " ++ number_to_string limit
                            ++ " OFFSET " ++ number_to_string offset)).
Proof.
  unfold NewsAndEvents.step_limit. intros H Hn. rewrite Hn in H. cbn [negb] in H.
  destruct (parseInt (f_limit filters) (Some 10)) as [limit|]; [|discriminate].
  destruct (Z.ltb_spec limit 1); [discriminate|].
  exists limit. split; [reflexivity|]. split; [assumption|].
  destruct (is_nullish (f_offset filters)) eqn:Ho; cbn [negb] in H.
  - replace q with (add_limit (" LIMIT " ++ number_to_string limit) []
                      (printed limit) 0 q0) by congruence.
    cbn [add_limit q_params q_text]. rewrite app_nil_r. split; [reflexivity|].
    left. auto.
  - destruct (parseInt (f_offset filters) (Some 10)) as [offset|]; [|discriminate].
    destruct (Z.ltb_spec offset 0); [discriminate|].
    replace q with (add_limit (" LIMIT " ++ number_to_string limit
                               ++ " OFFSET " ++ number_to_string offset) []
                      (printed limit) (printed offset) q0) by congruence.
    cbn [add_limit q_params q_text]. rewrite app_nil_r. split; [reflexivity|].
    right. exists offset. auto.
Qed.

(** In the copy with validated filters, [limit] and [offset] never reach
    the parameter list: the statement built with them has the parameters
    of the statement built without them, and its text is that statement's
    text followed by the numbers as they print. *)
Lemma findAll_query_paging_inlined (rt : Runtime) (filters : Filters) (q : Query) :
  NewsAndEvents.findAll_query rt filters = Return q ->
  is_nullish (f_limit filters) = false ->
  exists q0 limit,
    NewsAndEvents.findAll_query rt (without_paging filters) = Return q0
    /\ parseInt (f_limit filters) (Some 10) = Some limit /\ 1 <= limit
    /\ q_params q = q_params q0
    /\ List.length (q_params q) = count_placeholders (q_text q0)
    /\ ((is_nullish (f_offset filters) = true
         /\ q_text q = q_text q0 ++ " LIMIT " ++ number_to_string limit)
        \/ (exists offset,
              parseInt (f_offset filters) (Some 10) = Some offset /\ 0 <= offset
              /\ q_text q = q_text q0 ++ " LIMIT " ++ number_to_string limit
                            ++ " OFFSET " ++ number_to_string offset)).
Proof.
  unfold NewsAndEvents.findAll_query.
  change (f_date_from (without_paging filters)) with (f_date_from filters).
  change (f_date_to (without_paging filters)) with (f_date_to filters).
  change (NewsAndEvents.step_category (without_paging filters))
    with (NewsAndEvents.step_category filters).
  change (NewsAndEvents.step_status (without_paging filters))
    with (NewsAndEvents.step_status filters).
  change (NewsAndEvents.step_search rt (without_paging filters))
    with (NewsAndEvents.step_search rt filters).
  change (NewsAndEvents.step_limit (without_paging filters))
    with (fun q : Query => Return q).
  destruct (NewsAndEvents.step_category filters NewsAndEvents.query0) as [q1| |];
    simpl; try discriminate.
  destruct (NewsAndEvents.step_status filters q1) as [q2| |]; simpl; try discriminate.
  destruct (NewsAndEvents.step_search rt filters q2) as [q3| |]; simpl; try discriminate.
  destruct (NewsAndEvents.step_date rt (f_date_from filters) _ _ _ q3) as [q4| |];
    simpl; try discriminate.
  destruct (NewsAndEvents.step_date rt (f_date_to filters) _ _ _ q4) as [q5| |];
    simpl; try discriminate.
  set (qo := add_text " ORDER BY n.date_time DESC, n.created_at DESC" q5).
  destruct (NewsAndEvents.step_limit filters qo) as [q6| |] eqn:Hl;
    simpl; try discriminate.
  intros Hc Hn.
  apply check_params_inv in Hc. destruct Hc as (-> & Hi & Hp).
  destruct (step_limit_inv _ _ _ Hl Hn) as (limit & Hpl & Hge & Hpar & Htext).
  assert (Hcount : count_placeholders (q_text q6) = count_placeholders (q_text qo)).
  { destruct Htext as [[_ ->] | (offset & _ & _ & ->)];
      rewrite !count_placeholders_app, !count_placeholders_number_to_string; simpl; lia. }
  exists qo, limit.
  split.
  - apply check_params_intro; [now rewrite <- Hpar | now rewrite <- Hpar, <- Hcount].
  - repeat split; auto. now rewrite <- Hcount.
Qed.

(** C4 at its failing input.  The copy of the model in
    models/NewsAndEvents.js builds, for the filters of page 3 with ten
    items per page, a statement that ends in placeholders and binds the two
    numbers as parameters; the copy with validated filters writes them
    into the text and binds nothing. *)
Theorem legacy_findAll_binds_limit_and_offset :
  (exists q, NewsAndEventsLegacy.findAll_query Sample.rt Sample.paged_filters = Return q
             /\ q_text q = NewsAndEvents.base_select
                           ++ " ORDER BY n.date_time DESC, n.created_at DESC LIMIT ? OFFSET ?"
             /\ q_params q = [SqlInt 10; SqlInt 20])
  /\ (exists q, NewsAndEvents.findAll_query Sample.rt Sample.paged_filters = Return q
                /\ q_text q = NewsAndEvents.base_select
                              ++ " ORDER BY n.date_time DESC, n.created_at DESC LIMIT 10 OFFSET 20"
                /\ q_params q = []).
Proof.
  split; eexists; (split; [reflexivity|]); split; reflexivity.
Qed.

(* ===================================================================== *)
(** * The listing handlers                                                *)
(* ===================================================================== *)

(** C2 at its failing inputs.  A [page] or [limit] parameter of 0 is not
    rejected: [parseInt(x) || default] replaces the 0 by the default before
    the range checks run, so the request is served exactly like one that
    leaves the parameter out (on the sample data: status 200, ten items
    per page, the count query first).  A [limit] of 101 is rejected with
    400 before any query. *)
Theorem zero_page_and_limit_fall_back_to_defaults :
  (forall rt fa query p l w,
      Controller.getAllNewsAndEvents rt fa (set_paging query (JStr "0") l) w
      = Controller.getAllNewsAndEvents rt fa (set_paging query JUndefined l) w
      /\ Controller.getAllNewsAndEvents rt fa (set_paging query p (JStr "0")) w
         = Controller.getAllNewsAndEvents rt fa (set_paging query p JUndefined) w
      /\ Controller.getActiveNewsAndEvents rt fa (set_paging query (JStr "0") l) w
         = Controller.getActiveNewsAndEvents rt fa (set_paging query JUndefined l) w
      /\ Controller.getActiveNewsAndEvents rt fa (set_paging query p (JStr "0")) w
         = Controller.getActiveNewsAndEvents rt fa (set_paging query p JUndefined) w)
  /\ (exists w' items pg,
         Controller.getAllNewsAndEvents Sample.rt (NewsAndEvents.findAll Sample.rt)
           (set_paging Sample.no_query (JStr "0") (JStr "0")) Sample.world
         = (w', respond 200 true "News and events retrieved successfully"
                  (ListData items pg))
         /\ currentPage pg = 1 /\ itemsPerPage pg = 10
         /\ hd_error (w_log w')
            = Some (DbExecute "SELECT COUNT(*) as total FROM news_and_events WHERE 1=1" []))
  /\ (forall rt fa query p w,
         fst (Controller.getAllNewsAndEvents rt fa (set_paging query p (JStr "101")) w) = w
         /\ status (snd (Controller.getAllNewsAndEvents rt fa
                           (set_paging query p (JStr "101")) w)) = 400
         /\ fst (Controller.getActiveNewsAndEvents rt fa
                   (set_paging query p (JStr "101")) w) = w
         /\ status (snd (Controller.getActiveNewsAndEvents rt fa
                           (set_paging query p (JStr "101")) w)) = 400).
Proof.
  split; [|split].
  - intros. repeat split; reflexivity.
  - do 3 eexists. split; [vm_compute; reflexivity|].
    repeat split; reflexivity.
  - intros rt fa query p w.
    unfold Controller.getAllNewsAndEvents, Controller.getActiveNewsAndEvents.
    cbn [query_page query_limit set_paging].
    change (Controller.parseInt_or (JStr "101") 10) with 101.
    change ((101 <? 1) || (101 >? 100)) with true.
    destruct (Controller.parseInt_or p 1 <? 1); repeat split; reflexivity.
Qed.

Lemma In_insert_sorted {A} (le : A -> A -> bool) (x y : A) (l : list A) :
  In y (insert_sorted le x l) <-> y = x \/ In y l.
Proof.
  induction l as [|z l IH]; simpl.
  - intuition.
  - destruct (le x z); simpl; [intuition|]. rewrite IH. intuition.
Qed.

(** Sorting keeps exactly the elements of the list. *)
Lemma In_sort_by {A} (le : A -> A -> bool) (y : A) (l : list A) :
  In y (sort_by le l) <-> In y l.
Proof.
  induction l as [|x l IH]; simpl; [tauto|].
  rewrite In_insert_sorted, IH. intuition.
Qed.

Lemma In_firstn {A} (n : nat) (l : list A) (x : A) : In x (firstn n l) -> In x l.
Proof.
  revert l; induction n as [|n IH]; intros [|y l]; simpl; intuition.
Qed.

Lemma In_skipn {A} (n : nat) (l : list A) (x : A) : In x (skipn n l) -> In x l.
Proof.
  revert l; induction n as [|n IH]; intros [|y l]; simpl; intuition.
Qed.

(** The rows a listing statement returns are rows of the table that pass
    its conditions. *)
Lemma select_news_sound (rt : Runtime) (q : Query) (w : World) (r : NewsRow) :
  In r (select_news rt q w) -> In r (w_news w) /\ q_where q r = true.
Proof.
  unfold select_news. intros H.
  assert (In r (sort_by (news_before rt) (filter (q_where q) (w_news w)))) as H'.
  { destruct (q_limit q) as [[lim off]|]; [|exact H].
    eapply In_skipn, In_firstn, H. }
  apply In_sort_by, filter_In in H'. exact H'.
Qed.

Lemma refines_refl (q : Query) : refines q q.
Proof. intros r H; exact H. Qed.

Lemma refines_trans (a b c : Query) : refines a b -> refines b c -> refines a c.
Proof. intros H1 H2 r H; auto. Qed.

Lemma refines_add_clause (t : string) (v : list SqlValue) (c : NewsRow -> bool)
      (q : Query) : refines (add_clause t v c q) q.
Proof. intros r; simpl. now intros [H _]%andb_prop. Qed.

Lemma add_clause_cond (t : string) (v : list SqlValue) (c : NewsRow -> bool)
      (q : Query) (r : NewsRow) :
  q_where (add_clause t v c q) r = true -> c r = true.
Proof. simpl. now intros [_ H]%andb_prop. Qed.

Create HintDb refine.
#[local] Hint Resolve refines_refl refines_add_clause : refine.

Lemma step_search_refines (rt : Runtime) (f : Filters) (q q' : Query) :
  NewsAndEvents.step_search rt f q = Return q' -> refines q' q.
Proof.
  unfold NewsAndEvents.step_search. intros H.
  break_inner; inversion H; subst; auto with refine.
Qed.

Lemma step_date_refines (rt : Runtime) (v : JsVal) (n c : string)
      (cond : string -> NewsRow -> bool) (q q' : Query) :
  NewsAndEvents.step_date rt v n c cond q = Return q' -> refines q' q.
Proof.
  unfold NewsAndEvents.step_date, rethrow. intros H.
  break_inner; inversion H; subst; auto with refine.
Qed.

Lemma step_limit_refines (f : Filters) (q q' : Query) :
  NewsAndEvents.step_limit f q = Return q' -> refines q' q.
Proof.
  unfold NewsAndEvents.step_limit. intros H.
  break_inner; inversion H; subst; intros r Hr; exact Hr.
Qed.

(** With the status filter set to the string active, every row that
    passes the statement of the validated copy is active. *)
Lemma findAll_query_active (rt : Runtime) (f : Filters) (q : Query) (r : NewsRow) :
  f_status f = JStr "active" ->
  NewsAndEvents.findAll_query rt f = Return q ->
  q_where q r = true -> news_status r = Some "active".
Proof.
  intros Hs. unfold NewsAndEvents.findAll_query.
  destruct (NewsAndEvents.step_category f NewsAndEvents.query0) as [q1| |];
    simpl; try discriminate.
  unfold NewsAndEvents.step_status at 1. rewrite Hs. simpl.
  destruct (NewsAndEvents.step_search rt f _) as [q3| |] eqn:H3; simpl; try discriminate.
  destruct (NewsAndEvents.step_date rt (f_date_from f) _ _ _ q3) as [q4| |] eqn:H4;
    simpl; try discriminate.
  destruct (NewsAndEvents.step_date rt (f_date_to f) _ _ _ q4) as [q5| |] eqn:H5;
    simpl; try discriminate.
  destruct (NewsAndEvents.step_limit f _) as [q6| |] eqn:H6; simpl; try discriminate.
  intros Hc Hr. apply check_params_inv in Hc. destruct Hc as (-> & _ & _).
  apply step_limit_refines in H6. apply step_date_refines in H5.
  apply step_date_refines in H4. apply step_search_refines in H3.
  apply H6 in Hr. simpl in Hr. apply H5, H4, H3 in Hr.
  apply add_clause_cond in Hr. unfold cond_status in Hr.
  destruct (news_status r) as [x|]; [|discriminate].
  apply String.eqb_eq in Hr. now subst.
Qed.

Lemma legacy_step_date_refines (rt : Runtime) (v : JsVal) (c : string)
      (cond : string -> NewsRow -> bool) (q q' : Query) :
  NewsAndEventsLegacy.step_date rt v c cond q = Return q' -> refines q' q.
Proof.
  unfold NewsAndEventsLegacy.step_date, andThen. intros H.
  break_inner; inversion H; subst; auto with refine.
Qed.

Lemma legacy_step_limit_refines (f : Filters) (q : Query) :
  refines (NewsAndEventsLegacy.step_limit f q) q.
Proof.
  unfold NewsAndEventsLegacy.step_limit.
  break_inner; intros r Hr; exact Hr.
Qed.

(** The same for the other copy of the model. *)
Lemma legacy_findAll_query_active (rt : Runtime) (f : Filters) (q : Query)
      (r : NewsRow) :
  f_status f = JStr "active" ->
  NewsAndEventsLegacy.findAll_query rt f = Return q ->
  q_where q r = true -> news_status r = Some "active".
Proof.
  intros Hs. unfold NewsAndEventsLegacy.findAll_query. rewrite Hs.
  cbn [truthy String.eqb negb NewsAndEvents.js_to_sql NewsAndEvents.sql_to_text].
  match goal with
  | |- context [add_clause " AND n.status = ?" ?v ?c ?q1] =>
      set (q2 := add_clause " AND n.status = ?" v c q1)
  end.
  match goal with
  | |- context [NewsAndEventsLegacy.step_date rt (f_date_from f) ?c ?k ?q3] =>
      assert (H3 : refines q3 q2) by (break_inner; auto with refine);
      destruct (NewsAndEventsLegacy.step_date rt (f_date_from f) c k q3)
        as [q4| |] eqn:H4; simpl; try discriminate
  end.
  destruct (NewsAndEventsLegacy.step_date rt (f_date_to f) _ _ q4) as [q5| |] eqn:H5;
    simpl; try discriminate.
  intros Hq Hr. inversion Hq; subst.
  apply legacy_step_limit_refines in Hr. simpl in Hr.
  apply legacy_step_date_refines in H5. apply legacy_step_date_refines in H4.
  apply H5, H4, H3 in Hr. apply add_clause_cond in Hr.
  unfold cond_status in Hr.
  destruct (news_status r) as [x|]; [|discriminate].
  apply String.eqb_eq in Hr. now subst.
Qed.

Lemma with_images_rows (rt : Runtime) (items : list NewsRow) (w : World) :
  map v_row (snd (Controller.with_images rt items w)) = items.
Proof.
  revert w; induction items as [|item rest IH]; intros w; simpl; [reflexivity|].
  specialize (IH (fst (NewsAndEventsImage.findByNewsAndEventsId (news_id item) w))).
  simpl in IH.
  destruct (Controller.with_images rt rest _) as [w2 views]. simpl in *.
  now rewrite IH.
Qed.

(** A listing that returns rows has built its statement, and the engine
    has accepted it. *)
Lemma findAll_inv (rt : Runtime) (f : Filters) (w : World) (rows : list NewsRow) :
  snd (NewsAndEvents.findAll rt f w) = Return rows ->
  exists q,
    NewsAndEvents.findAll_query rt f = Return q
    /\ limit_accepted q = true
    /\ fst (NewsAndEvents.findAll rt f w) = emit (DbExecute (q_text q) (q_params q)) w
    /\ rows = select_news rt q w.
Proof.
  unfold NewsAndEvents.findAll.
  destruct (NewsAndEvents.findAll_query rt f) as [q| |]; try discriminate.
  cbn [fst snd].
  destruct (limit_accepted q) eqn:Ha; [|discriminate].
  intros H. exists q. split; [reflexivity|]. split; [exact Ha|].
  split; [reflexivity|]. congruence.
Qed.

Lemma findAll_lists_only_active (rt : Runtime) :
  lists_only_active (NewsAndEvents.findAll rt).
Proof.
  intros f w rows Hs H r Hr.
  destruct (findAll_inv rt f w rows H) as (q & Hq & _ & _ & ->).
  apply select_news_sound in Hr. destruct Hr as [Hin Hw].
  split; [exact Hin|]. eapply findAll_query_active; eauto.
Qed.

Lemma legacy_findAll_lists_only_active (rt : Runtime) :
  lists_only_active (NewsAndEventsLegacy.findAll rt).
Proof.
  intros f w rows Hs. unfold NewsAndEventsLegacy.findAll.
  destruct (NewsAndEventsLegacy.findAll_query rt f) as [q| |] eqn:Hq;
    simpl; try discriminate.
  intros H r Hr. inversion H; subst.
  apply select_news_sound in Hr. destruct Hr as [Hin Hw].
  split; [exact Hin|]. eapply legacy_findAll_query_active; eauto.
Qed.

Lemma next_error_data (rt : Runtime) {A} (o : Outcome A) :
  data (Controller.next_error rt o) = NoData.
Proof. destruct o; reflexivity. Qed.

(** The items of a public listing are active rows of the table. *)
Lemma getActiveNewsAndEvents_items (rt : Runtime)
      (fa : Filters -> World -> World * Outcome (list NewsRow))
      (query : ListQuery) (w : World) (items : list ItemView) (pg : Pagination) :
  lists_only_active fa ->
  data (snd (Controller.getActiveNewsAndEvents rt fa query w)) = ListData items pg ->
  forall v, In v items ->
    In (v_row v) (w_news w) /\ news_status (v_row v) = Some "active".
Proof.
  intros Hfa. unfold Controller.getActiveNewsAndEvents.
  destruct (Controller.parseInt_or (query_page query) 1 <? 1); [discriminate|].
  destruct ((_ <? 1) || (_ >? 100)); [discriminate|].
  unfold Controller.list_with, NewsAndEvents.count.
  match goal with
  | |- context [fa ?f ?w1] =>
      pose proof (Hfa f w1) as Hrows; destruct (fa f w1) as [w2 [rows|m|c]]
  end; simpl; try discriminate.
  pose proof (with_images_rows rt rows w2) as Hv.
  destruct (Controller.with_images rt rows w2) as [w3 views]. simpl in *.
  intros H v Hin. inversion H; subst.
  apply (Hrows (map v_row items) eq_refl eq_refl), in_map, Hin.
Qed.

(** C8.  The public endpoints never show an item that is not active.  The
    list handler ignores the [status] parameter of the query string and
    every item it returns is a row of the table whose status is active,
    with either copy of the model; the by-id handler answers 404 for an
    existing item whose status is not active, and any item it does return
    is active. *)
Theorem public_endpoints_only_active :
  forall (rt : Runtime) (w : World),
    (forall fa query st,
        Controller.getActiveNewsAndEvents rt fa (set_status query st) w
        = Controller.getActiveNewsAndEvents rt fa query w)
    /\ (forall fa query items pg v,
          fa = NewsAndEvents.findAll rt \/ fa = NewsAndEventsLegacy.findAll rt ->
          data (snd (Controller.getActiveNewsAndEvents rt fa query w))
          = ListData items pg ->
          In v items ->
          In (v_row v) (w_news w) /\ news_status (v_row v) = Some "active")
    /\ (forall id item,
          find (fun r => news_id r =? id) (w_news w) = Some item ->
          news_status item <> Some "active" ->
          snd (Controller.getActiveNewsAndEventsById rt id w)
          = respond 404 false "News and events not found" NoData)
    /\ (forall id v,
          data (snd (Controller.getActiveNewsAndEventsById rt id w)) = ItemData v ->
          news_status (v_row v) = Some "active").
Proof.
  intros rt w. split; [|split; [|split]].
  - reflexivity.
  - intros fa query items pg v [-> | ->] H Hin.
    + eapply getActiveNewsAndEvents_items; eauto using findAll_lists_only_active.
    + eapply getActiveNewsAndEvents_items; eauto using legacy_findAll_lists_only_active.
  - intros id item Hf Hs.
    unfold Controller.getActiveNewsAndEventsById, NewsAndEvents.findById.
    cbn [emit w_news]. rewrite Hf.
    unfold Controller.status_is_active.
    destruct (news_status item) as [s|]; [|reflexivity].
    destruct (String.eqb_spec s "active") as [->|]; [now elim Hs | reflexivity].
  - intros id v.
    unfold Controller.getActiveNewsAndEventsById, NewsAndEvents.findById.
    cbn [emit w_news].
    destruct (find _ (w_news w)) as [item|]; [|discriminate].
    unfold Controller.status_is_active.
    destruct (news_status item) as [s|] eqn:Hs; [|discriminate].
    destruct (String.eqb_spec s "active") as [->|]; [|discriminate].
    simpl. intros H; inversion H; subst. exact Hs.
Qed.

Lemma public_endpoints_only_active_witness :
  (forall v, In v match data (snd (Controller.getActiveNewsAndEvents Sample.rt
                                     (NewsAndEvents.findAll Sample.rt)
                                     (set_status Sample.no_query (JStr "inactive"))
                                     Sample.world)) with
               | ListData items _ => items
               | _ => []
               end ->
             news_status (v_row v) = Some "active")
  /\ snd (Controller.getActiveNewsAndEventsById Sample.rt 2 Sample.world)
     = respond 404 false "News and events not found" NoData.
Proof.
  destruct (public_endpoints_only_active Sample.rt Sample.world) as (_ & H2 & H3 & _).
  split.
  - intros v Hin.
    destruct (data (snd (Controller.getActiveNewsAndEvents Sample.rt
                           (NewsAndEvents.findAll Sample.rt)
                           (set_status Sample.no_query (JStr "inactive"))
                           Sample.world))) as [|?|items pg|] eqn:E;
      try (now elim Hin).
    exact (proj2 (H2 _ _ items pg v (or_introl eq_refl) E Hin)).
  - apply (H3 2 Sample.news2); [reflexivity | discriminate].
Defined.

(* ===================================================================== *)
(** * Effects of the update handler outside the image set                 *)
(* ===================================================================== *)

Lemma image_frame_refl (w : World) : image_frame w w.
Proof.
  repeat split. exists []. now rewrite app_nil_r.
Qed.

Lemma image_frame_trans (a b c : World) :
  image_frame a b -> image_frame b c -> image_frame a c.
Proof.
  intros (Hi1 & Hg1 & e1 & Hl1 & Hq1) (Hi2 & Hg2 & e2 & Hl2 & Hq2).
  repeat split; try congruence.
  exists (e1 ++ e2)%list. split.
  - now rewrite Hl2, Hl1, app_assoc.
  - now rewrite forallb_app, Hq1, Hq2.
Qed.

Lemma image_frame_emit (e : Event) (w : World) :
  quiet e = true -> image_frame w (emit e w).
Proof.
  intros H. repeat split. exists [e]. simpl. now rewrite H.
Qed.

Lemma quiet_select (s : string) (p : list SqlValue) :
  quiet (DbExecute (String "S" s) p) = true.
Proof. reflexivity. Qed.

Lemma quiet_update (s : string) (p : list SqlValue) :
  quiet (DbExecute (String "U" s) p) = true.
Proof. reflexivity. Qed.

Lemma frame_findById (id : Z) (w : World) :
  image_frame w (fst (NewsAndEvents.findById id w)).
Proof. apply image_frame_emit. reflexivity. Qed.

Lemma frame_category_findById (v : JsVal) (w : World) :
  image_frame w (fst (Category.findById v w)).
Proof. apply image_frame_emit. reflexivity. Qed.

Lemma frame_findByNewsAndEventsId (id : Z) (w : World) :
  image_frame w (fst (NewsAndEventsImage.findByNewsAndEventsId id w)).
Proof. apply image_frame_emit. reflexivity. Qed.

Lemma filter_filter_cover (f : string) (l : list (Dir * string)) :
  filter (fun g => Dir_eqb (fst g) newsImagesDir)
    (filter (fun g => negb (file_eqb (coverImagesDir, f) g)) l)
  = filter (fun g => Dir_eqb (fst g) newsImagesDir) l.
Proof.
  induction l as [|[d n] l IH]; simpl; [reflexivity|].
  destruct d; simpl; try exact IH.
  - destruct (negb (file_eqb (coverImagesDir, f) (coverImagesDir, n))); simpl; exact IH.
  - now rewrite IH.
Qed.

(** Deleting a cover image leaves the image table and the gallery alone. *)
Lemma frame_deleteFile_cover (rt : Runtime) (u : option string) (w : World) :
  image_frame w (fst (deleteFile rt u "cover" w)).
Proof.
  unfold deleteFile.
  destruct u as [[|c u]|]; try apply image_frame_refl.
  destruct (_ && _); [apply image_frame_refl|].
  destruct (extractFilenameFromUrl rt _) as [[|c' f]|]; try apply image_frame_refl.
  change (if String.eqb "cover" "cover" then coverImagesDir
          else if String.eqb "cover" "news" then newsImagesDir else uploadsDir)
    with coverImagesDir.
  destruct (existsSync _ _); [|apply image_frame_refl].
  destruct (unlink_fails rt _ _); cbn [fst].
  - now apply (image_frame_emit (FsUnlink coverImagesDir (String c' f))).
  - eapply image_frame_trans;
      [now apply (image_frame_emit (FsUnlink coverImagesDir (String c' f)))|].
    repeat split.
    + unfold gallery_files, remove_file. cbn [w_files set_files].
      apply filter_filter_cover.
    + exists []. now rewrite app_nil_r.
Qed.

Lemma frame_cover_step (rt : Runtime) (req : UpdateRequest) (old : option string)
      (w : World) :
  image_frame w (fst (Controller.cover_step rt req old w)).
Proof.
  unfold Controller.cover_step.
  assert (Hs : forall n,
             image_frame w
               (if Controller.truthy_text old
                   && negb (Controller.opt_string_eqb old n)
                then fst (deleteFile rt old "cover" w) else w)).
  { intros n. destruct (_ && _); [apply frame_deleteFile_cover | apply image_frame_refl]. }
  destruct (r_files_cover_image req); [|apply Hs].
  destruct (b_cover_image (r_body req)) as [| |b|n|[|c s]]; cbn [fst];
    try apply image_frame_refl; try apply Hs.
  - destruct (Controller.truthy_text old);
      [apply frame_deleteFile_cover | apply image_frame_refl].
  - destruct (truthy (JBool b)); [apply image_frame_refl | apply Hs].
  - destruct (truthy (JNum n)); [apply image_frame_refl | apply Hs].
  - destruct (Controller.truthy_text old);
      [apply frame_deleteFile_cover | apply image_frame_refl].
Qed.

Lemma frame_update (rt : Runtime) (id : Z) (u : NewsAndEvents.UpdateData) (w : World) :
  image_frame w (fst (NewsAndEvents.update rt id u w)).
Proof.
  unfold NewsAndEvents.update.
  destruct (NewsAndEvents.update_assignments rt u) as [[|a l]|m|c];
    try apply image_frame_refl.
  - apply frame_findById.
  - set (w1 := emit _ w).
    assert (H1 : image_frame w w1) by (apply image_frame_emit; reflexivity).
    destruct (_ && _); [exact H1|].
    cbn [fst]. eapply image_frame_trans; [exact H1|].
    eapply image_frame_trans; [|apply frame_findById].
    repeat split. exists []. now rewrite app_nil_r.
Qed.

Lemma status_next_error (rt : Runtime) {A} (o : Outcome A) :
  status (Controller.next_error rt o) = 500.
Proof. destruct o; reflexivity. Qed.

Lemma catch_throw_status (rt : Runtime) (m : string) :
  status (Controller.updateNewsAndEvents_catch rt (Throw m)) <> 200.
Proof.
  unfold Controller.updateNewsAndEvents_catch. rewrite status_next_error. discriminate.
Qed.

Lemma catch_dberror_status (rt : Runtime) (c : string) :
  status (Controller.updateNewsAndEvents_catch rt (DbError c)) <> 200.
Proof.
  unfold Controller.updateNewsAndEvents_catch.
  destruct (String.eqb c _); [discriminate|].
  rewrite status_next_error. discriminate.
Qed.

(** The old images the handler reads depend on the image table only. *)
Lemma findByNewsAndEventsId_images (id : Z) (w w' : World) :
  w_images w' = w_images w ->
  snd (NewsAndEventsImage.findByNewsAndEventsId id w')
  = snd (NewsAndEventsImage.findByNewsAndEventsId id w).
Proof. intros H. unfold NewsAndEventsImage.findByNewsAndEventsId. simpl. now rewrite H. Qed.

(** The course of [updateNewsAndEvents]: either it stops before the image
    set is looked at, having changed neither the image table nor the
    gallery, or it reaches the reconciliation (when images were supplied)
    in a world that still has the image table and gallery of the start,
    and ends with the read-back of the images. *)
Lemma updateNewsAndEvents_shape (rt : Runtime) (req : UpdateRequest) (w : World) :
  (image_frame w (fst (Controller.updateNewsAndEvents rt req w))
   /\ status (snd (Controller.updateNewsAndEvents rt req w)) <> 200)
  \/ exists w5 sh N,
      image_frame w w5
      /\ Controller.images_step rt req = Return (sh, N)
      /\ fst (Controller.updateNewsAndEvents rt req w)
         = match snd (if sh : bool
                      then Controller.reconcile rt (r_id req)
                             (snd (NewsAndEventsImage.findByNewsAndEventsId (r_id req) w))
                             N w5
                      else (w5, Return tt)) with
           | Return _ =>
               fst (NewsAndEventsImage.findByNewsAndEventsId (r_id req)
                      (fst (if sh
                            then Controller.reconcile rt (r_id req)
                                   (snd (NewsAndEventsImage.findByNewsAndEventsId
                                           (r_id req) w))
                                   N w5
                            else (w5, Return tt))))
           | _ =>
               fst (if sh
                    then Controller.reconcile rt (r_id req)
                           (snd (NewsAndEventsImage.findByNewsAndEventsId (r_id req) w))
                           N w5
                    else (w5, Return tt))
           end
      /\ (status (snd (Controller.updateNewsAndEvents rt req w)) = 200 ->
          exists u,
            snd (if sh
                 then Controller.reconcile rt (r_id req)
                        (snd (NewsAndEventsImage.findByNewsAndEventsId (r_id req) w))
                        N w5
                 else (w5, Return tt)) = Return u).
Proof.
  unfold Controller.updateNewsAndEvents, Controller.updateNewsAndEvents_try.
  pose proof (frame_findById (r_id req) w) as F1.
  destruct (NewsAndEvents.findById (r_id req) w) as [w1 [existing|]]; cbn [fst] in F1.
  2: { left. split; [exact F1 | discriminate]. }
  assert (exists w2 ok,
             (if truthy (b_category_id (r_body req))
              then Category.findById (b_category_id (r_body req)) w1
              else (w1, true)) = (w2, ok) /\ image_frame w w2) as (w2 & ok & -> & F2).
  { destruct (truthy _).
    - pose proof (frame_category_findById (b_category_id (r_body req)) w1) as F.
      destruct (Category.findById _ w1) as [w2 ok]. exists w2, ok.
      split; [reflexivity | eapply image_frame_trans; eauto].
    - exists w1, true. auto. }
  destruct ok; cbn [negb].
  2: { left. split; [exact F2 | discriminate]. }
  pose proof (frame_findByNewsAndEventsId (r_id req) w2) as F3.
  pose proof (findByNewsAndEventsId_images (r_id req) w w2 (proj1 F2)) as Hold.
  destruct (NewsAndEventsImage.findByNewsAndEventsId (r_id req) w2) as [w3 oldImages].
  cbn [fst snd] in F3, Hold. subst oldImages.
  pose proof (image_frame_trans _ _ _ F2 F3) as F3'.
  pose proof (frame_cover_step rt req (news_cover_image existing) w3) as F4.
  destruct (Controller.cover_step rt req (news_cover_image existing) w3) as [w4 [cover|m|c]];
    cbn [fst] in F4; pose proof (image_frame_trans _ _ _ F3' F4) as F4'.
  2: { left. split; [exact F4' | apply catch_throw_status]. }
  2: { left. split; [exact F4' | apply catch_dberror_status]. }
  destruct (Controller.images_step rt req) as [[sh N]|m|c].
  2: { left. split; [exact F4' | apply catch_throw_status]. }
  2: { left. split; [exact F4' | apply catch_dberror_status]. }
  match goal with
  | |- context [NewsAndEvents.update rt ?i ?u w4] =>
      pose proof (frame_update rt i u w4) as F5;
      destruct (NewsAndEvents.update rt i u w4) as [w5 [ne|m|c]]
  end; cbn [fst] in F5; pose proof (image_frame_trans _ _ _ F4' F5) as F5'.
  2: { left. split; [exact F5' | apply catch_throw_status]. }
  2: { left. split; [exact F5' | apply catch_dberror_status]. }
  right. exists w5, sh, N. split; [exact F5'|]. split; [reflexivity|].
  destruct (if sh then _ else _) as [w6 [u|m|c]]; cbn [fst snd].
  - destruct (NewsAndEventsImage.findByNewsAndEventsId (r_id req) w6) as [w7 imgs].
    destruct ne; cbn [fst snd]; split; eauto.
  - split; [reflexivity|]. intros H. now apply catch_throw_status in H.
  - split; [reflexivity|]. intros H. now apply catch_dberror_status in H.
Qed.

Lemma opt_string_eqb_eq (a b : option string) :
  Controller.opt_string_eqb a b = true <-> a = b.
Proof.
  destruct a as [x|], b as [y|]; simpl; try (split; congruence).
  rewrite String.eqb_eq. split; congruence.
Qed.

Lemma new_includes_In (N : list (option string)) (url : string) :
  Controller.new_includes N url = true <-> In (Some url) N.
Proof.
  unfold Controller.new_includes. rewrite existsb_exists. split.
  - intros (x & Hin & Heq). apply opt_string_eqb_eq in Heq. now subst.
  - intros H. exists (Some url). split; [exact H | now apply opt_string_eqb_eq].
Qed.

Lemma old_includes_In (O : list string) (u : option string) :
  Controller.old_includes O u = true <-> exists s, u = Some s /\ In s O.
Proof.
  destruct u as [s|]; simpl.
  - rewrite existsb_exists. split.
    + intros (x & Hin & Heq). apply String.eqb_eq in Heq. subst. eauto.
    + intros (x & Heq & Hin). inversion Heq; subst. exists x.
      split; [exact Hin | apply String.eqb_refl].
  - split; [discriminate | intros (s & H & _); discriminate].
Qed.

Lemma filter_nil {A} (f : A -> bool) (l : list A) :
  (forall x, In x l -> f x = false) -> filter f l = [].
Proof.
  induction l as [|a l IH]; simpl; intros H; [reflexivity|].
  rewrite (H a) by auto. apply IH. auto.
Qed.

(** The URLs the handler reads as old are the stored URLs of the item. *)
Lemma old_urls_In (id : Z) (w : World) (s : string) :
  In s (map image_url (snd (NewsAndEventsImage.findByNewsAndEventsId id w)))
  <-> In s (persisted_urls id w).
Proof.
  unfold NewsAndEventsImage.findByNewsAndEventsId, persisted_urls, rows_of.
  cbn [snd]. rewrite !in_map_iff.
  split; intros (r & Hr & Hin); exists r; (split; [exact Hr|]);
    now apply (In_sort_by NewsAndEventsImage.image_before).
Qed.

(** When old and new image sets agree, nothing is to be deleted or added
    and the reconciliation does nothing. *)
Lemma reconcile_same_set (rt : Runtime) (id : Z) (oldImages : list ImageRow)
      (N : list (option string)) (w : World) :
  (forall u, In u N <-> exists s, u = Some s /\ In s (map image_url oldImages)) ->
  Controller.imagesToDelete (map image_url oldImages) N = []
  /\ Controller.imagesToAdd (map image_url oldImages) N = []
  /\ Controller.reconcile rt id oldImages N w = (w, Return tt).
Proof.
  intros H.
  assert (Hd : Controller.imagesToDelete (map image_url oldImages) N = []).
  { apply filter_nil. intros s Hs. apply negb_false_iff, new_includes_In, H. eauto. }
  assert (Ha : Controller.imagesToAdd (map image_url oldImages) N = []).
  { apply filter_nil. intros u Hu. apply negb_false_iff, old_includes_In, H, Hu. }
  split; [exact Hd|]. split; [exact Ha|].
  unfold Controller.reconcile. rewrite Hd, Ha.
  destruct N as [|n N]; [|reflexivity].
  destruct (map image_url oldImages) as [|s O] eqn:E; [reflexivity|].
  exfalso. apply (proj2 (H (Some s))). exists s. split; [reflexivity | now left].
Qed.

(* ===================================================================== *)
(** * Updates that leave the image set alone                              *)
(* ===================================================================== *)

(** C9.  An update that carries neither uploaded image files nor an
    [images] field leaves the image table as it is, removes no gallery
    file, and issues no insert into or delete from the image table: the
    only effects are quiet ones. *)
Theorem update_without_images_keeps_image_set :
  forall (rt : Runtime) (req : UpdateRequest) (w : World),
    r_files_images req = [] ->
    b_images (r_body req) = ImagesUndefined ->
    image_frame w (fst (Controller.updateNewsAndEvents rt req w)).
Proof.
  intros rt req w Hf Hb.
  destruct (updateNewsAndEvents_shape rt req w)
    as [[H _] | (w5 & sh & N & F & Hs & Hw & _)]; [exact H|].
  unfold Controller.images_step in Hs. rewrite Hf, Hb in Hs.
  inversion Hs; subst sh N. cbn [fst snd] in Hw. rewrite Hw.
  eapply image_frame_trans; [exact F | apply frame_findByNewsAndEventsId].
Qed.

Lemma update_without_images_keeps_image_set_witness :
  image_frame Sample.world
    (fst (Controller.updateNewsAndEvents Sample.rt
            (Sample.put 1 (Sample.with_cover Sample.no_body (JStr ""))) Sample.world)).
Proof.
  apply update_without_images_keeps_image_set; reflexivity.
Defined.

(** C5.  When the stored image set of the item already is the canonical
    form of the submitted list, the update finds nothing to delete and
    nothing to add, its reconciliation step has no effect at all, and the
    whole request leaves the image table and the gallery as they are,
    issuing no insert or delete on the image table and no removal of a
    gallery file. *)
Theorem resubmitting_same_images_changes_nothing :
  forall (rt : Runtime) (req : UpdateRequest) (w : World) (N : list (option string)),
    Controller.images_step rt req = Return (true, N) ->
    (forall u, In u N <-> exists s, u = Some s /\ In s (persisted_urls (r_id req) w)) ->
    Controller.imagesToDelete
      (map image_url (snd (NewsAndEventsImage.findByNewsAndEventsId (r_id req) w))) N = []
    /\ Controller.imagesToAdd
         (map image_url (snd (NewsAndEventsImage.findByNewsAndEventsId (r_id req) w))) N = []
    /\ (forall w5,
          Controller.reconcile rt (r_id req)
            (snd (NewsAndEventsImage.findByNewsAndEventsId (r_id req) w)) N w5
          = (w5, Return tt))
    /\ image_frame w (fst (Controller.updateNewsAndEvents rt req w)).
Proof.
  intros rt req w N Hs Hset.
  assert (Hset' : forall u, In u N <->
            exists s, u = Some s
                      /\ In s (map image_url
                                 (snd (NewsAndEventsImage.findByNewsAndEventsId
                                         (r_id req) w)))).
  { intros u. rewrite Hset. split; intros (s & -> & Hin); exists s;
      (split; [reflexivity|]); now apply old_urls_In. }
  split; [now apply (reconcile_same_set rt (r_id req) _ N w)|].
  split; [now apply (reconcile_same_set rt (r_id req) _ N w)|].
  split; [intros w5; now apply (reconcile_same_set rt (r_id req) _ N w5)|].
  destruct (updateNewsAndEvents_shape rt req w)
    as [[H _] | (w5 & sh & N' & F & Hs' & Hw & _)]; [exact H|].
  rewrite Hs in Hs'. inversion Hs'; subst sh N'.
  destruct (reconcile_same_set rt (r_id req) _ N w5 Hset') as (_ & _ & Hr).
  rewrite Hr in Hw. cbn [fst snd] in Hw. rewrite Hw.
  eapply image_frame_trans; [exact F | apply frame_findByNewsAndEventsId].
Qed.

Lemma resubmitting_same_images_changes_nothing_witness :
  image_frame Sample.world
    (fst (Controller.updateNewsAndEvents Sample.rt
            (Sample.put 1
               (Sample.with_images Sample.no_body
                  (ImagesArray
                     [EntryString "http://localhost:3000/public/uploads/news-images/b.jpg";
                      EntryString "/news-images/a.jpg"])))
            Sample.world)).
Proof.
  apply (resubmitting_same_images_changes_nothing Sample.rt _ Sample.world
           [Some "/news-images/b.jpg"; Some "/news-images/a.jpg"]).
  - reflexivity.
  - intros u. simpl. split.
    + intros [<- | [<- | []]]; eexists; split; try reflexivity; auto.
    + intros (s & -> & [<- | [<- | []]]); auto.
Defined.

(* ===================================================================== *)
(** * The reconciliation of the image set                                 *)
(* ===================================================================== *)

Lemma filter_filter {A} (f g : A -> bool) (l : list A) :
  filter f (filter g l) = filter (fun x => g x && f x) l.
Proof.
  induction l as [|a l IH]; simpl; [reflexivity|].
  destruct (g a); simpl; [destruct (f a)|]; now rewrite IH.
Qed.

Lemma NoDup_map_inj {A B} (f : A -> B) (l : list A) (a b : A) :
  NoDup (map f l) -> In a l -> In b l -> f a = f b -> a = b.
Proof.
  induction l as [|x l IH]; simpl; [contradiction|].
  intros Hnd Ha Hb Hf. inversion Hnd as [|? ? Hx Hnd']; subst.
  destruct Ha as [-> | Ha], Hb as [-> | Hb]; auto.
  - exfalso. apply Hx. rewrite Hf. now apply in_map.
  - exfalso. apply Hx. rewrite <- Hf. now apply in_map.
Qed.

Lemma delete_images (id : Z) (w : World) :
  w_images (fst (NewsAndEventsImage.delete id w))
  = filter (fun r => negb (img_id r =? id)) (w_images w).
Proof. reflexivity. Qed.

(** The deletion loop removes exactly the rows whose id it picked. *)
Lemma delete_rows_images (oldImages : list ImageRow) (toDelete : list string)
      (w : World) :
  w_images (Controller.delete_rows oldImages toDelete w)
  = filter (fun r => negb (existsb (Z.eqb (img_id r)) (deleted_ids oldImages toDelete)))
      (w_images w).
Proof.
  revert w. induction toDelete as [|url rest IH]; intros w; simpl.
  - induction (w_images w) as [|a l IHl]; simpl; [reflexivity | now rewrite <- IHl].
  - rewrite IH. unfold deleted_ids at 2. simpl.
    destruct (find _ oldImages) as [r0|].
    + destruct (img_id r0 =? 0) eqn:E0; simpl.
      * reflexivity.
      * rewrite filter_filter. apply filter_ext.
        intros r. rewrite (Z.eqb_sym (img_id r) (img_id r0)).
        now rewrite negb_orb.
    + reflexivity.
Qed.

Lemma deleteFile_images (rt : Runtime) (u : option string) (t : string) (w : World) :
  w_images (fst (deleteFile rt u t w)) = w_images w.
Proof.
  unfold deleteFile. break_inner; reflexivity.
Qed.

Lemma deleteFiles_images (rt : Runtime) (urls : list (option string)) (t : string)
      (w : World) :
  w_images (deleteFiles rt urls t w) = w_images w.
Proof.
  revert w; induction urls as [|u urls IH]; intros w; simpl; [reflexivity|].
  now rewrite IH, deleteFile_images.
Qed.

(** [createMultiple] appends one row per entry, in order, to the rows of
    the item. *)
Lemma createMultiple_from_images (id i : Z) (imgs : list (option string))
      (w w' : World) (rows : list ImageRow) :
  NewsAndEventsImage.createMultiple_from id i imgs w = (w', Return rows) ->
  w_images w' = (w_images w ++ rows)%list
  /\ map (fun r => Some (image_url r)) rows = imgs
  /\ Forall (fun r => img_news_and_events_id r = id) rows.
Proof.
  revert i w w' rows. induction imgs as [|[image|] rest IH]; intros i w w' rows; simpl.
  - intros H; inversion H; subst. rewrite app_nil_r. auto.
  - destruct (NewsAndEventsImage.createMultiple_from id (i + 1) rest _)
      as [w2 [created|m|c]] eqn:E; simpl; try discriminate.
    intros H; inversion H; subst.
    apply IH in E. destruct E as (Hi & Hm & Hf).
    rewrite Hi. simpl. rewrite <- app_assoc. simpl.
    repeat split; auto. now rewrite Hm.
  - discriminate.
Qed.

Lemma deleteBy_images (id : Z) (w : World) :
  w_images (fst (NewsAndEventsImage.deleteByNewsAndEventsId id w))
  = filter (fun r => negb (img_news_and_events_id r =? id)) (w_images w).
Proof. reflexivity. Qed.

Section Reconcile.
Variable rt : Runtime.
Variable id : Z.
Variable N : list (option string).
Variable w : World.

Local Abbreviation item r := (img_news_and_events_id r =? id).
Local Abbreviation oldImages := (sort_by NewsAndEventsImage.image_before (rows_of id w)).
Local Abbreviation O := (map image_url oldImages).

Hypothesis ids_unique : NoDup (map img_id (w_images w)).
Hypothesis ids_nonzero : Forall (fun r => img_id r <> 0) (w_images w).
Hypothesis urls_unique : NoDup (persisted_urls id w).

Lemma oldImages_In (r : ImageRow) :
  In r oldImages <-> In r (w_images w) /\ item r = true.
Proof.
  unfold rows_of. rewrite In_sort_by, filter_In. reflexivity.
Qed.

(** Under the invariants the deletion loop picks exactly the rows of the
    item whose URL is not among the new ones. *)
Lemma deleted_ids_spec (r : ImageRow) :
  In r (w_images w) ->
  existsb (Z.eqb (img_id r)) (deleted_ids oldImages (Controller.imagesToDelete O N))
  = item r && negb (Controller.new_includes N (image_url r)).
Proof.
  intros Hr. apply eq_true_iff_eq. rewrite andb_true_iff, existsb_exists. split.
  - intros (x & Hx & Heq). apply Z.eqb_eq in Heq. subst x.
    unfold deleted_ids in Hx. apply in_flat_map in Hx.
    destruct Hx as (url & Hurl & Hx).
    destruct (find _ oldImages) as [r0|] eqn:Hf; [|contradiction].
    destruct (negb (img_id r0 =? 0)); [|contradiction].
    destruct Hx as [Hx | []].
    apply find_some in Hf. destruct Hf as [Hin Hu]. apply String.eqb_eq in Hu.
    apply oldImages_In in Hin. destruct Hin as [Hin Hitem].
    assert (r0 = r) by (eapply (NoDup_map_inj img_id); eauto). subst r0.
    split; [exact Hitem|].
    apply filter_In in Hurl. rewrite Hu. tauto.
  - intros [Hitem Hnew].
    assert (Hold : In r oldImages) by (apply oldImages_In; auto).
    assert (Hdel : In (image_url r) (Controller.imagesToDelete O N)).
    { apply filter_In. split; [now apply in_map | exact Hnew]. }
    exists (img_id r). split; [|apply Z.eqb_refl].
    unfold deleted_ids. apply in_flat_map. exists (image_url r). split; [exact Hdel|].
    destruct (find _ oldImages) as [r0|] eqn:Hf.
    + apply find_some in Hf. destruct Hf as [Hin Hu]. apply String.eqb_eq in Hu.
      assert (r0 = r).
      { apply (NoDup_map_inj image_url (rows_of id w)); auto.
        - apply (In_sort_by NewsAndEventsImage.image_before), Hin.
        - apply (In_sort_by NewsAndEventsImage.image_before), Hold. }
      subst r0.
      rewrite Forall_forall in ids_nonzero.
      destruct (Z.eqb_spec (img_id r) 0) as [E|E]; [now apply ids_nonzero in E|].
      now left.
    + eapply find_none in Hf; [|exact Hold]. now rewrite String.eqb_refl in Hf.
Qed.

(** The image table after a reconciliation that did not throw. *)
Lemma reconcile_images (w5 w6 : World) (u : unit) :
  w_images w5 = w_images w ->
  Controller.reconcile rt id oldImages N w5 = (w6, Return u) ->
  exists added,
    w_images w6
    = (filter (fun r => negb (item r && negb (Controller.new_includes N (image_url r))))
         (w_images w) ++ added)%list
    /\ map (fun r => Some (image_url r)) added = Controller.imagesToAdd O N
    /\ Forall (fun r => img_news_and_events_id r = id) added.
Proof.
  intros H5. unfold Controller.reconcile.
  set (toDelete := Controller.imagesToDelete O N).
  set (toAdd := Controller.imagesToAdd O N).
  set (kept := filter (fun r => negb (item r && negb (Controller.new_includes N (image_url r))))
                 (w_images w)).
  set (w1 := match toDelete with
             | [] => w5
             | _ :: _ => deleteFiles rt (map Some toDelete) "news"
                           (Controller.delete_rows oldImages toDelete w5)
             end).
  assert (H1 : w_images w1 = kept).
  { assert (w_images w1
            = filter (fun r => negb (existsb (Z.eqb (img_id r))
                                       (deleted_ids oldImages toDelete))) (w_images w5)).
    { unfold w1. destruct toDelete eqn:E.
      - simpl. clear. induction (w_images w5) as [|a l IH]; simpl; [reflexivity|].
        now rewrite <- IH.
      - rewrite deleteFiles_images, delete_rows_images. reflexivity. }
    rewrite H, H5. apply filter_ext_in. intros r Hr.
    unfold toDelete. now rewrite deleted_ids_spec. }
  destruct (match toAdd with
            | [] => (w1, Return [])
            | _ :: _ => NewsAndEventsImage.createMultiple id toAdd w1
            end) as [w2 added] eqn:Hadd.
  assert (H2 : forall rows, added = Return rows ->
               w_images w2 = (kept ++ rows)%list
               /\ map (fun r => Some (image_url r)) rows = toAdd
               /\ Forall (fun r => img_news_and_events_id r = id) rows).
  { intros rows ->. destruct toAdd eqn:E.
    - inversion Hadd; subst. rewrite app_nil_r. auto.
    - apply createMultiple_from_images in Hadd. now rewrite H1 in Hadd. }
  destruct added as [rows|m|c]; try discriminate.
  destruct (H2 rows eq_refl) as (Hw2 & Hm & Hf).
  destruct N as [|n N'] eqn:EN.
  - destruct O as [|o O'] eqn:EO.
    + intros H; inversion H; subst. exists rows. auto.
    + intros H; inversion H; subst.
      assert (rows = []) by (destruct rows; [reflexivity | discriminate]). subst rows.
      exists []. split; [|auto].
      cbn [w_images set_images emit]. rewrite Hw2, !app_nil_r. unfold kept.
      rewrite filter_filter. apply filter_ext. intros r.
      destruct (item r); reflexivity.
  - intros H; inversion H; subst. exists rows. auto.
Qed.

End Reconcile.

Lemma old_includes_ext (O P : list string) (u : option string) :
  (forall s, In s O <-> In s P) ->
  Controller.old_includes O u = Controller.old_includes P u.
Proof.
  intros H. apply eq_true_iff_eq. rewrite !old_includes_In.
  split; intros (s & -> & Hin); exists s; (split; [reflexivity|]); now apply H.
Qed.

Lemma filter_item_app_added (id : Z) (N : list (option string))
      (l added : list ImageRow) :
  Forall (fun r => img_news_and_events_id r = id) added ->
  filter (fun r => img_news_and_events_id r =? id)
    (filter (fun r => negb ((img_news_and_events_id r =? id)
                            && negb (Controller.new_includes N (image_url r)))) l
     ++ added)
  = (filter (fun r => Controller.new_includes N (image_url r))
       (filter (fun r => img_news_and_events_id r =? id) l) ++ added)%list.
Proof.
  intros Hf. rewrite filter_app, !filter_filter. f_equal.
  - apply filter_ext. intros r.
    destruct (img_news_and_events_id r =? id),
      (Controller.new_includes N (image_url r)); reflexivity.
  - induction Hf as [|r added Hr Hf IH]; simpl; [reflexivity|].
    rewrite Hr, Z.eqb_refl, IH. reflexivity.
Qed.

Lemma filter_other_app_added (id : Z) (N : list (option string))
      (l added : list ImageRow) :
  Forall (fun r => img_news_and_events_id r = id) added ->
  filter (fun r => negb (img_news_and_events_id r =? id))
    (filter (fun r => negb ((img_news_and_events_id r =? id)
                            && negb (Controller.new_includes N (image_url r)))) l
     ++ added)
  = filter (fun r => negb (img_news_and_events_id r =? id)) l.
Proof.
  intros Hf. rewrite filter_app, !filter_filter.
  assert (filter (fun r => negb (img_news_and_events_id r =? id)) added = []) as ->.
  { induction Hf as [|r added Hr Hf IH]; simpl; [reflexivity|].
    now rewrite Hr, Z.eqb_refl. }
  rewrite app_nil_r. apply filter_ext. intros r.
  destruct (img_news_and_events_id r =? id),
    (Controller.new_includes N (image_url r)); reflexivity.
Qed.

Lemma listed_in_new_includes (N : list (option string)) (r : ImageRow) :
  Controller.new_includes N (image_url r) = listed_in N r.
Proof.
  unfold listed_in.
  destruct (in_dec reference_eq_dec (Some (image_url r)) N) as [Hin|Hin].
  - now apply new_includes_In.
  - apply not_true_is_false. intros H. now apply Hin, new_includes_In.
Qed.

Lemma not_stored_old_includes (stored : list string) (x : option string) :
  negb (Controller.old_includes stored x) = not_stored stored x.
Proof.
  unfold not_stored.
  destruct (in_dec reference_eq_dec x (map Some stored)) as [Hin|Hin].
  - apply negb_false_iff, old_includes_In.
    apply in_map_iff in Hin. destruct Hin as (s & <- & Hin). eauto.
  - apply negb_true_iff, not_true_is_false. intros H.
    apply old_includes_In in H. destruct H as (s & -> & Hs).
    apply Hin. now apply in_map.
Qed.

(** C1, as the code has it.  Let the stored image URLs of the item be
    pairwise distinct and the image ids unique and non-zero, and let an
    update that supplies the image list N (already in canonical form, from
    uploads or from the body) complete with status 200, whatever file
    removals failed.  Then the rows of the item afterwards are the old rows
    whose URL is listed in N, unchanged, followed by one new row for every
    entry of N that is none of the stored URLs, in the order and as often
    as N lists it.  So the stored URLs are, as a set, those of N; the rows
    of kept entries remain; the rows of entries no longer in N are gone;
    and the rows of other items are untouched.  No entry is
    deduplicated. *)
Theorem update_image_set_reconciled :
  forall (rt : Runtime) (req : UpdateRequest) (w : World) (N : list (option string)),
    NoDup (map img_id (w_images w)) ->
    Forall (fun r => img_id r <> 0) (w_images w) ->
    NoDup (persisted_urls (r_id req) w) ->
    Controller.images_step rt req = Return (true, N) ->
    status (snd (Controller.updateNewsAndEvents rt req w)) = 200 ->
    exists added,
      rows_of (r_id req) (fst (Controller.updateNewsAndEvents rt req w))
      = (filter (listed_in N) (rows_of (r_id req) w) ++ added)%list
      /\ map (fun r => Some (image_url r)) added
         = filter (not_stored (persisted_urls (r_id req) w)) N
      /\ (forall u,
            In u (persisted_urls (r_id req)
                    (fst (Controller.updateNewsAndEvents rt req w)))
            <-> In (Some u) N)
      /\ (forall r, In r (rows_of (r_id req) w) -> In (Some (image_url r)) N ->
            In r (rows_of (r_id req) (fst (Controller.updateNewsAndEvents rt req w))))
      /\ (forall r, In r (rows_of (r_id req) w) -> ~ In (Some (image_url r)) N ->
            ~ In r (rows_of (r_id req) (fst (Controller.updateNewsAndEvents rt req w))))
      /\ filter (fun r => negb (img_news_and_events_id r =? r_id req))
           (w_images (fst (Controller.updateNewsAndEvents rt req w)))
         = filter (fun r => negb (img_news_and_events_id r =? r_id req)) (w_images w).
Proof.
  intros rt req w N Hids Hnz Hurls Hs Hok.
  destruct (updateNewsAndEvents_shape rt req w)
    as [[_ H] | (w5 & sh & N' & F & Hs' & Hw & Hret)]; [contradiction|].
  rewrite Hs in Hs'. inversion Hs'; subst sh N'. clear Hs'.
  destruct (Hret Hok) as [u Hu].
  destruct (Controller.reconcile rt (r_id req) _ N w5) as [w6 o] eqn:Hr.
  cbn [fst snd] in Hw, Hu. subst o.
  assert (Hi : w_images (fst (Controller.updateNewsAndEvents rt req w)) = w_images w6)
    by (rewrite Hw; reflexivity).
  destruct (reconcile_images rt (r_id req) N w Hids Hnz Hurls w5 w6 u (proj1 F) Hr)
    as (added & Himg & Hmap & Hitem).
  assert (Hrows : rows_of (r_id req) (fst (Controller.updateNewsAndEvents rt req w))
                  = (filter (fun r => Controller.new_includes N (image_url r))
                       (rows_of (r_id req) w) ++ added)%list).
  { unfold rows_of. rewrite Hi, Himg. now apply filter_item_app_added. }
  assert (Hadd : map (fun r => Some (image_url r)) added
                 = Controller.imagesToAdd (persisted_urls (r_id req) w) N).
  { rewrite Hmap. apply filter_ext. intros x. f_equal.
    apply old_includes_ext. intros s. apply (old_urls_In (r_id req) w). }
  exists added.
  split; [rewrite Hrows; f_equal; apply filter_ext; intros r;
          apply listed_in_new_includes|].
  split; [rewrite Hadd; apply filter_ext; intros x; apply not_stored_old_includes|].
  assert (Hkept : forall r, In r (rows_of (r_id req) w) -> In (Some (image_url r)) N ->
            In r (rows_of (r_id req) (fst (Controller.updateNewsAndEvents rt req w)))).
  { intros r Hr' Hn. rewrite Hrows. apply in_or_app. left.
    apply filter_In. split; [exact Hr' | now apply new_includes_In]. }
  assert (Hset : forall x,
             In x (persisted_urls (r_id req)
                     (fst (Controller.updateNewsAndEvents rt req w)))
             <-> In (Some x) N).
  { intros x. unfold persisted_urls at 1. rewrite Hrows, map_app, in_app_iff. split.
    - intros [Hin | Hin]; apply in_map_iff in Hin; destruct Hin as (r & <- & Hin).
      + apply filter_In in Hin. now apply new_includes_In.
      + assert (In (Some (image_url r)) (map (fun r => Some (image_url r)) added))
          as Hin' by (apply in_map_iff; eauto).
        rewrite Hadd in Hin'. now apply filter_In in Hin'.
    - intros Hin.
      destruct (Controller.old_includes (persisted_urls (r_id req) w) (Some x)) eqn:E.
      + apply old_includes_In in E. destruct E as (s & Heq & Hs'). inversion Heq; subst s.
        left. unfold persisted_urls in Hs'. apply in_map_iff in Hs'.
        destruct Hs' as (r & <- & Hr').
        apply in_map, filter_In. split; [exact Hr' | now apply new_includes_In].
      + right.
        assert (In (Some x) (Controller.imagesToAdd (persisted_urls (r_id req) w) N))
          as Hin' by (apply filter_In; split; [exact Hin | now rewrite E]).
        rewrite <- Hadd in Hin'. apply in_map_iff in Hin'.
        destruct Hin' as (r & Heq & Hr'). inversion Heq; subst x.
        now apply in_map. }
  split; [exact Hset|]. split; [exact Hkept|]. split.
  - intros r Hr' Hn Hin. apply Hn, Hset. unfold persisted_urls. now apply in_map.
  - rewrite Hi, Himg. now apply filter_other_app_added.
Qed.

Lemma update_image_set_reconciled_witness :
  exists added,
    rows_of 1 (fst (Controller.updateNewsAndEvents Sample.rt Sample.keep_a_add_c
                      Sample.world))
    = (filter (listed_in [Some "/news-images/a.jpg"; Some "/news-images/c.jpg"])
         (rows_of 1 Sample.world) ++ added)%list
    /\ map (fun r => Some (image_url r)) added
       = filter (not_stored (persisted_urls 1 Sample.world))
           [Some "/news-images/a.jpg"; Some "/news-images/c.jpg"]
    /\ filter (listed_in [Some "/news-images/a.jpg"; Some "/news-images/c.jpg"])
         (rows_of 1 Sample.world) = [Sample.image1]
    /\ filter (not_stored (persisted_urls 1 Sample.world))
         [Some "/news-images/a.jpg"; Some "/news-images/c.jpg"]
       = [Some "/news-images/c.jpg"].
Proof.
  destruct (update_image_set_reconciled Sample.rt Sample.keep_a_add_c Sample.world
              [Some "/news-images/a.jpg"; Some "/news-images/c.jpg"])
    as (added & H1 & H2 & _).
  - constructor; [simpl; intros [H | []]; discriminate|].
    constructor; [intros []|constructor].
  - repeat constructor; discriminate.
  - constructor; [simpl; intros [H | []]; discriminate|].
    constructor; [intros []|constructor].
  - reflexivity.
  - reflexivity.
  - exists added. split; [exact H1|]. split; [exact H2|].
    split; reflexivity.
Defined.

(** C1 as stated fails: an entry that occurs twice in the submitted list
    and was not stored is stored twice; and once an item holds the same URL
    twice, an update that drops that URL removes only one of its rows. *)
Lemma update_image_set_counterexample :
  status (snd (Controller.updateNewsAndEvents Sample.rt Sample.twice_n Sample.world))
  = 200
  /\ persisted_urls 2
       (fst (Controller.updateNewsAndEvents Sample.rt Sample.twice_n Sample.world))
     = ["/news-images/n.jpg"; "/news-images/n.jpg"]
  /\ ~ NoDup (persisted_urls 2
                (fst (Controller.updateNewsAndEvents Sample.rt Sample.twice_n
                        Sample.world)))
  /\ status (snd (Controller.updateNewsAndEvents Sample.rt Sample.then_m
                    (fst (Controller.updateNewsAndEvents Sample.rt Sample.twice_n
                            Sample.world)))) = 200
  /\ persisted_urls 2
       (fst (Controller.updateNewsAndEvents Sample.rt Sample.then_m
               (fst (Controller.updateNewsAndEvents Sample.rt Sample.twice_n
                       Sample.world))))
     = ["/news-images/n.jpg"; "/news-images/m.jpg"].
Proof.
  split; [reflexivity|]. split; [reflexivity|]. split; [|split; reflexivity].
  change (persisted_urls 2
            (fst (Controller.updateNewsAndEvents Sample.rt Sample.twice_n Sample.world)))
    with ["/news-images/n.jpg"; "/news-images/n.jpg"].
  intros H. inversion H as [|? ? Hn _]; subst. apply Hn. now left.
Qed.

(* ===================================================================== *)
(** * The cover image sent back                                           *)
(* ===================================================================== *)

(** C6, as the code has it.  A canonical cover path sent as the
    [cover_image] field is not an http(s) URL, so [validateNewsUpdate]
    answers 400 and the handler does not run: nothing is deleted and
    nothing stored changes.  The cover block of the handler itself treats
    such a value, when it equals the stored one, as unchanged: it attempts
    no deletion and hands the same path on to the row update. *)
Theorem resubmitted_cover_path_is_rejected_by_validation :
  forall (rt : Runtime) (req : UpdateRequest) (w : World) (f : string),
    r_files_cover_image req = [] ->
    b_cover_image (r_body req) = JStr ("/cover-images/" ++ f) ->
    Controller.put_news_and_events rt req w
    = (w, respond 400 false "Validation failed" ErrorsData)
    /\ getRelativePath rt (Some ("/cover-images/" ++ f)) "cover"
       = Some ("/cover-images/" ++ f)
    /\ Controller.cover_step rt req (Some ("/cover-images/" ++ f)) w
       = (w, Return (JStr ("/cover-images/" ++ f))).
Proof.
  intros rt req w f Hfiles Hcover.
  assert (Hrel : getRelativePath rt (Some ("/cover-images/" ++ f)) "cover"
                 = Some ("/cover-images/" ++ f))
    by apply getRelativePath_relative, is_relative_cover.
  split; [|split; [exact Hrel|]].
  - unfold Controller.put_news_and_events, Validation.validateNewsUpdate.
    rewrite Hcover.
    change (Validation.cover_image_custom (JStr ("/cover-images/" ++ f))) with false.
    rewrite andb_false_r. reflexivity.
  - unfold Controller.cover_step. rewrite Hfiles, Hcover.
    change ("/cover-images/" ++ f) with (String "/" ("cover-images/" ++ f)) at 1.
    cbv beta iota.
    change (String "/" ("cover-images/" ++ f)) with ("/cover-images/" ++ f).
    rewrite Hrel. cbn [Controller.truthy_text Controller.opt_string_eqb].
    rewrite String.eqb_refl. reflexivity.
Qed.

Lemma resubmitted_cover_path_is_rejected_by_validation_witness :
  Controller.put_news_and_events Sample.rt Sample.resubmit_cover Sample.world
  = (Sample.world, respond 400 false "Validation failed" ErrorsData)
  /\ getRelativePath Sample.rt (Some "/cover-images/cover-1.jpg") "cover"
     = Some "/cover-images/cover-1.jpg"
  /\ Controller.cover_step Sample.rt Sample.resubmit_cover
       (Some "/cover-images/cover-1.jpg") Sample.world
     = (Sample.world, Return (JStr "/cover-images/cover-1.jpg")).
Proof.
  apply (resubmitted_cover_path_is_rejected_by_validation
           Sample.rt Sample.resubmit_cover Sample.world "cover-1.jpg");
    reflexivity.
Defined.

(** C6 as stated fails: the request that sends the stored canonical cover
    path back is not accepted. *)
Lemma resubmitted_cover_path_counterexample :
  find (fun r => news_id r =? 1) (w_news Sample.world) = Some Sample.news1
  /\ news_cover_image Sample.news1 = Some "/cover-images/cover-1.jpg"
  /\ b_cover_image (r_body Sample.resubmit_cover) = JStr "/cover-images/cover-1.jpg"
  /\ status (snd (Controller.put_news_and_events Sample.rt Sample.resubmit_cover
                    Sample.world)) = 400
  /\ success (snd (Controller.put_news_and_events Sample.rt Sample.resubmit_cover
                     Sample.world)) = false.
Proof. repeat split; reflexivity. Qed.

(* ===================================================================== *)
(** * Supplements                                                         *)
(* ===================================================================== *)

Lemma string_app_assoc (a b c : string) : (a ++ b) ++ c = a ++ (b ++ c).
Proof. induction a as [|x a IH]; simpl; [reflexivity | now rewrite IH]. Qed.

(** The other copy of the model binds whatever [parseInt] makes of a
    truthy [limit] (and [offset]) as the last parameters of a statement
    that ends in placeholders. *)
Lemma legacy_findAll_query_binds_paging (rt : Runtime) (filters : Filters) (q : Query) :
  NewsAndEventsLegacy.findAll_query rt filters = Return q ->
  truthy (f_limit filters) = true ->
  exists text params,
    q_text q
    = text ++ " LIMIT ?" ++ (if truthy (f_offset filters) then " OFFSET ?" else "")
    /\ q_params q
       = (params
          ++ NewsAndEventsLegacy.num_to_sql (parseInt (f_limit filters) None)
             :: (if truthy (f_offset filters)
                 then [NewsAndEventsLegacy.num_to_sql (parseInt (f_offset filters) None)]
                 else []))%list.
Proof.
  unfold NewsAndEventsLegacy.findAll_query. intros H Hl.
  match type of H with
  | andThen (NewsAndEventsLegacy.step_date rt _ _ _ ?q3) _ = _ =>
      destruct (NewsAndEventsLegacy.step_date rt (f_date_from filters)
                  " AND n.date_time >= ?" (cond_date_from rt) q3) as [q4| |];
      simpl in H; try discriminate
  end.
  destruct (NewsAndEventsLegacy.step_date rt (f_date_to filters) _ _ q4) as [q5| |];
    simpl in H; try discriminate.
  inversion H; subst q. clear H.
  unfold NewsAndEventsLegacy.step_limit. rewrite Hl.
  exists (q_text q5 ++ " ORDER BY n.date_time DESC, n.created_at DESC"), (q_params q5).
  destruct (truthy (f_offset filters)); simpl.
  - rewrite <- !app_assoc. split; [|reflexivity].
    now rewrite !string_app_assoc.
  - split; [|reflexivity]. now rewrite !string_app_assoc.
Qed.

Lemma list_ascii_of_string_of_list (l : list ascii) :
  list_ascii_of_string (string_of_list_ascii l) = l.
Proof. induction l as [|c l IH]; simpl; [reflexivity | now rewrite IH]. Qed.

Lemma take_segment_no_slash (l : list ascii) :
  existsb (Ascii.eqb "/") (take_segment l) = false.
Proof.
  induction l as [|c l IH]; [reflexivity|].
  cbn [take_segment]. destruct (Ascii.eqb c "/") eqn:E; [reflexivity|].
  cbn [existsb]. rewrite Ascii.eqb_sym, E. exact IH.
Qed.

Lemma existsb_rev {A} (f : A -> bool) (l : list A) :
  existsb f (rev l) = existsb f l.
Proof.
  induction l as [|a l IH]; simpl; [reflexivity|].
  rewrite existsb_app, IH. simpl. rewrite orb_false_r. apply orb_comm.
Qed.

(** A base name is a single path segment. *)
Lemma basename_no_slash (p : string) : has_slash (basename p) = false.
Proof.
  unfold has_slash, basename.
  now rewrite list_ascii_of_string_of_list, existsb_rev, take_segment_no_slash.
Qed.

(** What [getRelativePath] stores for a cover or gallery image is an
    http(s) URL or a canonical relative path. *)
Lemma getRelativePath_range (rt : Runtime) (x : option string) (t c : string) :
  t = "cover" \/ t = "news" ->
  getRelativePath rt x t = Some c ->
  is_http c = true \/ is_relative c = true.
Proof.
  intros Ht. destruct x as [[|a s]|]; try discriminate.
  rewrite getRelativePath_cons.
  destruct (is_http (String a s)) eqn:Hh.
  - destruct (URL_pathname rt (String a s)) as [p|].
    + destruct (match_uploads p) as [[m1 m2]|] eqn:Hm.
      * apply match_uploads_dir in Hm. intros H; inversion H; subst. right.
        destruct Hm as [-> | ->];
          [apply (is_relative_cover m2) | apply (is_relative_news m2)].
      * intros H; inversion H; subst. now left.
    + intros H; inversion H; subst. now left.
  - destruct (is_relative (String a s)) eqn:Hr.
    + intros H; inversion H; subst. now right.
    + destruct Ht as [-> | ->]; simpl; intros H; inversion H; subst; right.
      * apply is_relative_cover.
      * apply is_relative_news.
Qed.

(** For such a stored value the name [deleteFile] joins to the directory
    is a single path segment, so the file it removes lies in the directory
    of its file type. *)
Lemma stored_reference_filename (rt : Runtime) (c f : string) :
  is_http c = true \/ is_relative c = true ->
  extractFilenameFromUrl rt (Some c) = Some f ->
  has_slash f = false.
Proof.
  intros Hc. unfold extractFilenameFromUrl.
  destruct c as [|a s]; [discriminate|].
  destruct (is_relative (String a s)) eqn:Hr.
  - intros H; inversion H. apply basename_no_slash.
  - destruct Hc as [Hh | Hh]; [|discriminate].
    unfold is_http in Hh.
    destruct (startsWith (String a s) "http://"),
      (startsWith (String a s) "https://"); try discriminate; cbn [negb andb];
      (destruct (URL_pathname rt (String a s)); [|discriminate]);
      intros H; inversion H; apply basename_no_slash.
Qed.

(** A run of the model: item 1 holds the images a and b and is updated to
    a and c.  The row and the file of b are gone, the row of a is the one
    it was, and a row for c is appended. *)
Example update_keep_a_add_c :
  rows_of 1 (fst (Controller.updateNewsAndEvents Sample.rt Sample.keep_a_add_c
                    Sample.world))
  = [Sample.image1;
     {| img_id := 3; img_news_and_events_id := 1;
        image_url := "/news-images/c.jpg"; image_order := 0;
        img_created_at := 200 |}]
  /\ gallery_files (fst (Controller.updateNewsAndEvents Sample.rt Sample.keep_a_add_c
                           Sample.world))
     = [(newsImagesDir, "a.jpg")]
  /\ filter (fun e => touches_image_table e || unlinks_gallery_file e)
       (w_log (fst (Controller.updateNewsAndEvents Sample.rt Sample.keep_a_add_c
                      Sample.world)))
     = [DbExecute "DELETE FROM news_and_events_images WHERE id = ?" [SqlInt 2];
        FsUnlink newsImagesDir "b.jpg";
        DbExecute NewsAndEventsImage.insert_sql
          [SqlInt 1; SqlStr "/news-images/c.jpg"; SqlInt 0]].
Proof. repeat split; reflexivity. Qed.

(* ===================================================================== *)
(** * More about image references and files                               *)
(* ===================================================================== *)

Lemma list_ascii_app (a b : string) :
  list_ascii_of_string (a ++ b) = (list_ascii_of_string a ++ list_ascii_of_string b)%list.
Proof. induction a as [|c a IH]; simpl; [reflexivity | now rewrite IH]. Qed.

Lemma string_of_list_of_string (s : string) :
  string_of_list_ascii (list_ascii_of_string s) = s.
Proof. induction s as [|c s IH]; simpl; [reflexivity | now rewrite IH]. Qed.

Lemma take_segment_app (l rest : list ascii) :
  existsb (Ascii.eqb "/") l = false ->
  take_segment (l ++ "/"%char :: rest) = l.
Proof.
  induction l as [|c l IH]; intros H; [reflexivity|].
  cbn [existsb] in H. apply orb_false_elim in H. destruct H as [Hc Hl].
  cbn [app take_segment]. rewrite Ascii.eqb_sym, Hc. now rewrite IH.
Qed.

Lemma drop_slashes_nonslash (c : ascii) (l : list ascii) :
  Ascii.eqb "/" c = false -> drop_slashes (c :: l) = c :: l.
Proof.
  intros H. unfold drop_slashes.
  destruct c as [[] [] [] [] [] [] [] []]; try reflexivity. discriminate H.
Qed.

(** The base name of a path that ends in a slash-free, non-empty last
    segment is that segment. *)
Lemma basename_last_segment (p f : string) :
  f <> "" -> has_slash f = false -> basename (p ++ "/" ++ f) = f.
Proof.
  intros Hne Hs. unfold basename, has_slash in *.
  rewrite list_ascii_app. cbn [list_ascii_of_string append].
  rewrite rev_app_distr. cbn [rev]. rewrite <- app_assoc. cbn [app].
  assert (Hr : existsb (Ascii.eqb "/") (rev (list_ascii_of_string f)) = false)
    by now rewrite existsb_rev.
  destruct (rev (list_ascii_of_string f)) as [|c l] eqn:E.
  - exfalso. apply Hne. destruct f; [reflexivity|].
    apply (f_equal (@List.length ascii)) in E. rewrite length_rev in E. discriminate.
  - cbn [existsb] in Hr. apply orb_false_elim in Hr. destruct Hr as [Hc Hl].
    cbn [app]. rewrite drop_slashes_nonslash by exact Hc.
    change (c :: (l ++ "/"%char :: rev (list_ascii_of_string p))%list)
      with (((c :: l) ++ "/"%char :: rev (list_ascii_of_string p))%list).
    rewrite take_segment_app by (cbn [existsb]; now rewrite Hc, Hl).
    rewrite <- E, rev_involutive. apply string_of_list_of_string.
Qed.

(** X1.  The path under which an uploaded file was stored,
    [uploads/<directory>/<generated name>], is normalised to the canonical
    path of that name, for cover and for gallery images alike. *)
Theorem uploaded_file_gets_canonical_path :
  forall (rt : Runtime) (filename : string),
    filename <> "" ->
    has_slash filename = false ->
    getRelativePath rt (Some ("uploads/cover-images/" ++ filename)) "cover"
    = Some ("/cover-images/" ++ filename)
    /\ getRelativePath rt (Some ("uploads/news-images/" ++ filename)) "news"
       = Some ("/news-images/" ++ filename).
Proof.
  intros rt f Hne Hs. split.
  - change ("uploads/cover-images/" ++ f) with (String "u" ("ploads/cover-images/" ++ f)).
    rewrite getRelativePath_cons.
    change (String "u" ("ploads/cover-images/" ++ f)) with ("uploads/cover-images" ++ "/" ++ f).
    rewrite basename_last_segment by assumption. reflexivity.
  - change ("uploads/news-images/" ++ f) with (String "u" ("ploads/news-images/" ++ f)).
    rewrite getRelativePath_cons.
    change (String "u" ("ploads/news-images/" ++ f)) with ("uploads/news-images" ++ "/" ++ f).
    rewrite basename_last_segment by assumption. reflexivity.
Qed.

Lemma uploaded_file_gets_canonical_path_witness :
  getRelativePath Sample.rt (Some "uploads/cover-images/cover-17-42.png") "cover"
  = Some "/cover-images/cover-17-42.png"
  /\ getRelativePath Sample.rt (Some "uploads/news-images/cover-17-42.png") "news"
     = Some "/news-images/cover-17-42.png".
Proof.
  apply (uploaded_file_gets_canonical_path Sample.rt "cover-17-42.png");
    [discriminate | reflexivity].
Defined.

(** X2.  A stored reference, whether an http(s) URL or a canonical path, makes
    [deleteFile] join to the directory of its type one non-empty path
    segment, the last segment of the reference.  Unless that segment is
    [.] or [..] it is a plain name, so the joined path is a file directly
    inside that directory.  A stored reference can end in dots:
    [getRelativePath] keeps [/news-images/..] as it is, and [deleteFile]
    then joins [..] to the gallery directory, which is the uploads
    directory itself. *)
Theorem stored_reference_target_single_segment :
  (forall (rt : Runtime) (x : option string) (t c : string) (d : Dir) (f : string),
      t = "cover" \/ t = "news" ->
      getRelativePath rt x t = Some c ->
      UploadUrls.deleteFile_target rt (Some c) t = Some (d, f) ->
      has_slash f = false
      /\ f <> ""
      /\ d = (if String.eqb t "cover" then coverImagesDir else newsImagesDir)
      /\ (f <> "." -> f <> ".." -> plain_name f = true))
  /\ (forall rt : Runtime,
        getRelativePath rt (Some "/news-images/..") "news" = Some "/news-images/.."
        /\ UploadUrls.deleteFile_target rt (Some "/news-images/..") "news"
           = Some (newsImagesDir, "..")
        /\ plain_name ".." = false).
Proof.
  split.
  - intros rt x t c d f Ht Hc Hd.
    pose proof (getRelativePath_range rt x t c Ht Hc) as Hr.
    unfold UploadUrls.deleteFile_target in Hd.
    destruct c as [|a s]; [discriminate|].
    destruct (is_http (String a s)
              && (negb (includes (String a s) (baseUrl rt))
                  && negb (includes (String a s) "localhost"))); [discriminate|].
    destruct (extractFilenameFromUrl rt (Some (String a s))) as [[|b g]|] eqn:E;
      try discriminate.
    replace d with (if String.eqb t "cover" then coverImagesDir
                    else if String.eqb t "news" then newsImagesDir else uploadsDir)
      by congruence.
    replace f with (String b g) by congruence.
    pose proof (stored_reference_filename rt _ _ Hr E) as Hs.
    split; [exact Hs|]. split; [discriminate|].
    split; [destruct Ht as [-> | ->]; reflexivity|].
    intros H1 H2. unfold plain_name. rewrite Hs.
    apply String.eqb_neq in H1. apply String.eqb_neq in H2.
    now rewrite H1, H2.
  - intros rt. split; [reflexivity|]. split; reflexivity.
Qed.

Lemma stored_reference_target_single_segment_witness :
  has_slash "x.png" = false
  /\ "x.png" <> ""
  /\ coverImagesDir = (if String.eqb "cover" "cover" then coverImagesDir else newsImagesDir)
  /\ plain_name "x.png" = true.
Proof.
  destruct (proj1 stored_reference_target_single_segment Sample.rt
              (Some "../../etc/x.png") "cover" "/cover-images/x.png" coverImagesDir
              "x.png") as (H1 & H2 & H3 & H4);
    [now left | reflexivity | reflexivity |].
  split; [exact H1|]. split; [exact H2|]. split; [exact H3|].
  apply H4; discriminate.
Defined.

(* ===================================================================== *)
(** * Deleting files                                                      *)
(* ===================================================================== *)

Lemma Dir_eqb_eq (a b : Dir) : Dir_eqb a b = true <-> a = b.
Proof. destruct a, b; simpl; split; intros H; try reflexivity; discriminate. Qed.

Lemma file_eqb_eq (a b : Dir * string) : file_eqb a b = true <-> a = b.
Proof.
  destruct a as [d f], b as [e g]. unfold file_eqb. cbn [fst snd].
  rewrite andb_true_iff, Dir_eqb_eq, String.eqb_eq.
  split; [intros [-> ->]; reflexivity | intros H; inversion H; auto].
Qed.

Lemma file_eqb_refl (a : Dir * string) : file_eqb a a = true.
Proof. now apply file_eqb_eq. Qed.

Lemma file_eqb_neq (a b : Dir * string) : a <> b -> file_eqb a b = false.
Proof.
  intros H. destruct (file_eqb a b) eqn:E; [|reflexivity].
  apply file_eqb_eq in E. contradiction.
Qed.

Lemma existsSync_emit (e : Event) (w : World) (g : Dir * string) :
  existsSync (emit e w) g = existsSync w g.
Proof. reflexivity. Qed.

Lemma existsSync_remove_same (f : Dir * string) (w : World) :
  existsSync (remove_file f w) f = false.
Proof.
  unfold existsSync, remove_file. cbn [w_files set_files].
  induction (w_files w) as [|h l IH]; [reflexivity|].
  cbn [filter]. destruct (file_eqb f h) eqn:E; cbn [negb]; [exact IH|].
  cbn [existsb]. now rewrite E, IH.
Qed.

Lemma existsSync_remove_other (f g : Dir * string) (w : World) :
  g <> f -> existsSync (remove_file f w) g = existsSync w g.
Proof.
  intros Hne. unfold existsSync, remove_file. cbn [w_files set_files].
  induction (w_files w) as [|h l IH]; [reflexivity|].
  cbn [filter existsb]. destruct (file_eqb f h) eqn:E; cbn [negb].
  - apply file_eqb_eq in E. subst h. rewrite (file_eqb_neq g f Hne). exact IH.
  - cbn [existsb]. now rewrite IH.
Qed.

Lemma existsSync_remove_le (f g : Dir * string) (w : World) :
  existsSync (remove_file f w) g = true -> existsSync w g = true.
Proof.
  intros H. destruct (file_eqb g f) eqn:E.
  - apply file_eqb_eq in E. subst g. now rewrite existsSync_remove_same in H.
  - rewrite existsSync_remove_other in H; [exact H|].
    intros ->. now rewrite file_eqb_refl in E.
Qed.

(** The three ways a call of [deleteFile] can go. *)
Lemma deleteFile_cases (rt : Runtime) (u : option string) (t : string) (w : World) :
  (deleteFile rt u t w = (w, Resolved false)
   /\ (UploadUrls.deleteFile_target rt u t = None
       \/ exists f, UploadUrls.deleteFile_target rt u t = Some f
                    /\ existsSync w f = false))
  \/ exists f,
       UploadUrls.deleteFile_target rt u t = Some f
       /\ existsSync w f = true
       /\ ((unlink_fails rt (fst f) (snd f) = true
            /\ deleteFile rt u t w = (emit (FsUnlink (fst f) (snd f)) w, Rejected))
           \/ (unlink_fails rt (fst f) (snd f) = false
               /\ deleteFile rt u t w
                  = (remove_file f (emit (FsUnlink (fst f) (snd f)) w), Resolved true))).
Proof.
  unfold deleteFile, UploadUrls.deleteFile_target.
  destruct u as [[|a s]|]; [left; split; auto | | left; split; auto].
  destruct (is_http (String a s)
            && (negb (includes (String a s) (baseUrl rt))
                && negb (includes (String a s) "localhost")));
    [left; split; auto|].
  destruct (extractFilenameFromUrl rt (Some (String a s))) as [[|b g]|];
    [left; split; auto | | left; split; auto].
  cbv zeta.
  set (d := if String.eqb t "cover" then coverImagesDir
            else if String.eqb t "news" then newsImagesDir else uploadsDir).
  destruct (existsSync w (d, String b g)) eqn:E.
  - right. exists (d, String b g). cbn [fst snd]. repeat split; auto.
    destruct (unlink_fails rt d (String b g)); [left | right]; split; reflexivity.
  - left. split; [reflexivity|]. right. exists (d, String b g). now split.
Qed.

(** What a call of [deleteFile] leaves as it was. *)
Lemma deleteFile_frame (rt : Runtime) (u : option string) (t : string) (w : World) :
  w_news (fst (deleteFile rt u t w)) = w_news w
  /\ w_images (fst (deleteFile rt u t w)) = w_images w
  /\ (forall g, existsSync (fst (deleteFile rt u t w)) g = true ->
                existsSync w g = true)
  /\ (forall g, UploadUrls.deleteFile_target rt u t <> Some g ->
                existsSync (fst (deleteFile rt u t w)) g = existsSync w g).
Proof.
  destruct (deleteFile_cases rt u t w)
    as [[-> _] | (f & Hf & He & [[Hu ->] | [Hu ->]])]; cbn [fst snd].
  - repeat split; auto.
  - repeat split; auto.
  - repeat split; auto.
    + intros g H. apply existsSync_remove_le in H. exact H.
    + intros g Hg.
      exact (existsSync_remove_other f g (emit (FsUnlink (fst f) (snd f)) w)
               (fun E => Hg (eq_trans Hf (f_equal Some (eq_sym E))))).
Qed.

(** X3.  [deleteFile] never touches the database and never creates a file.
    When the name it hands to [path.join] is a plain name, the only file
    of plain name it can remove is the one of that directory and name;
    when it resolves to true that file existed before and is gone
    afterwards, and otherwise the files are as they were. *)
Theorem deleteFile_removes_only_its_target :
  forall (rt : Runtime) (u : option string) (t : string) (w : World),
    (forall f, UploadUrls.deleteFile_target rt u t = Some f ->
               plain_name (snd f) = true) ->
    w_news (fst (deleteFile rt u t w)) = w_news w
    /\ w_images (fst (deleteFile rt u t w)) = w_images w
    /\ (forall g, existsSync (fst (deleteFile rt u t w)) g = true ->
                  existsSync w g = true)
    /\ (forall g, plain_name (snd g) = true ->
                  UploadUrls.deleteFile_target rt u t <> Some g ->
                  existsSync (fst (deleteFile rt u t w)) g = existsSync w g)
    /\ (snd (deleteFile rt u t w) = Resolved true ->
        exists f, UploadUrls.deleteFile_target rt u t = Some f
                  /\ existsSync w f = true
                  /\ existsSync (fst (deleteFile rt u t w)) f = false)
    /\ (snd (deleteFile rt u t w) <> Resolved true ->
        w_files (fst (deleteFile rt u t w)) = w_files w).
Proof.
  intros rt u t w _.
  destruct (deleteFile_frame rt u t w) as (F1 & F2 & F3 & F4).
  split; [exact F1|]. split; [exact F2|]. split; [exact F3|].
  split; [intros g _; apply F4|].
  destruct (deleteFile_cases rt u t w)
    as [[-> _] | (f & Hf & He & [[Hu ->] | [Hu ->]])]; cbn [fst snd].
  - split; [discriminate | reflexivity].
  - split; [discriminate | reflexivity].
  - split.
    + intros _. exists f. repeat split; auto.
      exact (existsSync_remove_same f (emit (FsUnlink (fst f) (snd f)) w)).
    + intros H. now elim H.
Qed.

(** X4.  A second [deleteFile] of the same reference after a successful one
    finds nothing to do: it resolves to false and changes nothing. *)
Theorem deleteFile_twice :
  forall (rt : Runtime) (u : option string) (t : string) (w : World),
    snd (deleteFile rt u t w) = Resolved true ->
    deleteFile rt u t (fst (deleteFile rt u t w))
    = (fst (deleteFile rt u t w), Resolved false).
Proof.
  intros rt u t w H.
  destruct (deleteFile_cases rt u t w)
    as [[E _] | (f & Hf & He & [[Hu E] | [Hu E]])]; rewrite E in *; cbn [fst snd] in *;
    try discriminate.
  destruct (deleteFile_cases rt u t (remove_file f (emit (FsUnlink (fst f) (snd f)) w)))
    as [[E2 _] | (f2 & Hf2 & He2 & _)]; [exact E2|].
  rewrite Hf in Hf2. inversion Hf2; subst f2.
  now rewrite existsSync_remove_same in He2.
Qed.

Lemma deleteFile_twice_witness :
  deleteFile Sample.rt (Some "/news-images/a.jpg") "news"
    (fst (deleteFile Sample.rt (Some "/news-images/a.jpg") "news" Sample.world))
  = (fst (deleteFile Sample.rt (Some "/news-images/a.jpg") "news" Sample.world),
     Resolved false).
Proof.
  apply (deleteFile_twice Sample.rt (Some "/news-images/a.jpg") "news" Sample.world).
  reflexivity.
Defined.

(** X5.  [deleteFiles] leaves the database alone and creates no file.
    When the names it hands to [path.join] are plain names, it removes
    only files that one of its arguments names, and removes every such
    file whose unlinking does not fail. *)
Theorem deleteFiles_removes_its_targets :
  forall (rt : Runtime) (urls : list (option string)) (t : string) (w : World),
    (forall u f, In u urls -> UploadUrls.deleteFile_target rt u t = Some f ->
                 plain_name (snd f) = true) ->
    w_news (deleteFiles rt urls t w) = w_news w
    /\ w_images (deleteFiles rt urls t w) = w_images w
    /\ (forall g, existsSync (deleteFiles rt urls t w) g = true ->
                  existsSync w g = true)
    /\ (forall g, plain_name (snd g) = true ->
                  existsSync w g = true ->
                  existsSync (deleteFiles rt urls t w) g = false ->
                  exists u, In u urls /\ UploadUrls.deleteFile_target rt u t = Some g)
    /\ (forall u f, In u urls ->
                    UploadUrls.deleteFile_target rt u t = Some f ->
                    unlink_fails rt (fst f) (snd f) = false ->
                    existsSync (deleteFiles rt urls t w) f = false).
Proof.
  intros rt urls t w _. revert w. induction urls as [|u urls IH]; intros w.
  - cbn [deleteFiles]. repeat split; auto.
    + intros g _ H1 H2. congruence.
    + intros u f [].
  - cbn [deleteFiles].
    destruct (IH (fst (deleteFile rt u t w))) as (I1 & I2 & I3 & I4 & I5).
    destruct (deleteFile_frame rt u t w) as (D1 & D2 & D3 & D4).
    repeat split.
    + now rewrite I1.
    + now rewrite I2.
    + intros g H. auto.
    + intros g Hplain Hg Hn.
      destruct (existsSync (fst (deleteFile rt u t w)) g) eqn:E.
      * destruct (I4 g Hplain E Hn) as (u' & Hin & Ht).
        exists u'. split; [now right | exact Ht].
      * exists u. split; [now left|].
        destruct (UploadUrls.deleteFile_target rt u t) as [f|] eqn:Ef.
        -- destruct (file_eqb g f) eqn:Egf.
           ++ apply file_eqb_eq in Egf. now subst.
           ++ rewrite D4 in E; [congruence|].
              intros H; inversion H; subst. now rewrite file_eqb_refl in Egf.
        -- rewrite D4 in E; [congruence | discriminate].
    + intros u' f [-> | Hin] Hf Hu.
      * destruct (existsSync (deleteFiles rt urls t (fst (deleteFile rt u' t w))) f) eqn:E;
          [|reflexivity].
        apply I3 in E.
        destruct (deleteFile_cases rt u' t w)
          as [[Ew [Hn | (f' & Hf' & He')]] | (f' & Hf' & He' & [[Hu' Ew] | [Hu' Ew]])];
          rewrite Ew in E; cbn [fst] in E; try congruence.
        rewrite Hf in Hf'. inversion Hf'; subst.
        now rewrite existsSync_remove_same in E.
      * eapply I5; eauto.
Qed.

(* ===================================================================== *)
(** * URLs for responses                                                  *)
(* ===================================================================== *)

Lemma prefix_split (p s : string) :
  String.prefix p s = true -> exists q, s = p ++ q.
Proof.
  revert s. induction p as [|a p IH]; intros s H.
  - exists s. reflexivity.
  - destruct s as [|b s]; [discriminate|]. simpl in H.
    destruct (ascii_dec a b) as [->|]; [|discriminate].
    destruct (IH s H) as [q ->]. exists q. reflexivity.
Qed.

(** X6.  [getFileUrl] answers null exactly for a missing or empty path,
    returns an http(s) URL as it is, and turns every other path into the
    base URL followed by a path below [/public]; the final test for a
    leading slash never adds one. *)
Theorem getFileUrl_shape :
  forall (rt : Runtime) (filePath : option string),
    (UploadUrls.getFileUrl rt filePath = None
     <-> filePath = None \/ filePath = Some "")
    /\ (forall s, filePath = Some s -> is_http s = true ->
                  UploadUrls.getFileUrl rt filePath = Some s)
    /\ (forall s, filePath = Some s -> s <> "" -> is_http s = false ->
                  exists q, UploadUrls.getFileUrl rt filePath
                            = Some (baseUrl rt ++ "/public" ++ q)).
Proof.
  intros rt [[|a s]|]; unfold UploadUrls.getFileUrl; cbv zeta.
  - split; [split; auto|]. split; [intros s H; inversion H; subst; discriminate|].
    intros s H Hne; inversion H; subst. now elim Hne.
  - destruct (is_http (String a s)) eqn:Hh.
    + split; [split; [discriminate | intros [H|H]; discriminate]|].
      split; [intros s' H _; inversion H; reflexivity|].
      intros s' H _ Hn; inversion H; subst. congruence.
    + split; [split; [discriminate | intros [H|H]; discriminate]|].
      split; [intros s' H Hn; inversion H; subst; congruence|].
      intros s' _ _ _.
      destruct (startsWith (UploadUrls.slashes (String a s)) "/public") eqn:Hp;
        cbn [negb].
      * unfold startsWith in Hp. destruct (prefix_split _ _ Hp) as [q Hq].
        rewrite Hq. exists q. reflexivity.
      * unfold UploadUrls.public_prefixed.
        destruct (UploadUrls.slashes (String a s)) as [|b r].
        -- exists "/". reflexivity.
        -- destruct (ascii_dec b "/") as [->|n].
           ++ exists ("/" ++ r). reflexivity.
           ++ exists ("/" ++ String b r).
              destruct b as [[] [] [] [] [] [] [] []]; try reflexivity. now elim n.
  - split; [split; auto|]. split; intros s H; discriminate.
Qed.

(* ===================================================================== *)
(** * The image table                                                     *)
(* ===================================================================== *)

Lemma leading_urls_all (urls : list string) : leading_urls (map Some urls) = urls.
Proof. induction urls as [|u l IH]; simpl; [reflexivity | now rewrite IH]. Qed.

Lemma leading_urls_no_null (imgs : list (option string)) :
  ~ In None imgs -> map Some (leading_urls imgs) = imgs.
Proof.
  induction imgs as [|[u|] rest IH]; intros Hn; [reflexivity | | elim Hn; now left].
  cbn. rewrite IH; [reflexivity|]. intros H. apply Hn. now right.
Qed.

(** What the insertion loop has done when it stops, with or without an
    exception. *)
Lemma createMultiple_from_spec (id : Z) (imgs : list (option string)) :
  forall (i : Z) (w : World),
  exists rows,
    w_images (fst (NewsAndEventsImage.createMultiple_from id i imgs w))
    = (w_images w ++ rows)%list
    /\ w_news (fst (NewsAndEventsImage.createMultiple_from id i imgs w)) = w_news w
    /\ w_files (fst (NewsAndEventsImage.createMultiple_from id i imgs w)) = w_files w
    /\ map image_url rows = leading_urls imgs
    /\ Forall (fun r => img_news_and_events_id r = id) rows
    /\ (forall k r, nth_error rows k = Some r ->
                    image_order r = i + Z.of_nat k
                    /\ img_id r = w_next_image_id w + Z.of_nat k)
    /\ snd (NewsAndEventsImage.createMultiple_from id i imgs w)
       = if existsb (fun e => match e with None => true | Some _ => false end) imgs
         then Throw "Cannot read properties of null (reading 'url')"
         else Return rows.
Proof.
  induction imgs as [|[u|] rest IH]; intros i w.
  - exists []. cbn. rewrite app_nil_r.
    do 5 (split; [auto|]). split; [intros [|k] r H; discriminate | reflexivity].
  - cbn [NewsAndEventsImage.createMultiple_from].
    change (NewsAndEventsImage.create id u i w)
      with (fst (NewsAndEventsImage.create id u i w),
            snd (NewsAndEventsImage.create id u i w)).
    cbv beta iota.
    assert (C1 : w_images (fst (NewsAndEventsImage.create id u i w))
                 = (w_images w ++ [snd (NewsAndEventsImage.create id u i w)])%list)
      by reflexivity.
    assert (C2 : w_news (fst (NewsAndEventsImage.create id u i w)) = w_news w)
      by reflexivity.
    assert (C3 : w_files (fst (NewsAndEventsImage.create id u i w)) = w_files w)
      by reflexivity.
    assert (C4 : w_next_image_id (fst (NewsAndEventsImage.create id u i w))
                 = w_next_image_id w + 1) by reflexivity.
    assert (C5 : image_url (snd (NewsAndEventsImage.create id u i w)) = u
                 /\ img_news_and_events_id (snd (NewsAndEventsImage.create id u i w)) = id
                 /\ image_order (snd (NewsAndEventsImage.create id u i w)) = i
                 /\ img_id (snd (NewsAndEventsImage.create id u i w)) = w_next_image_id w)
      by (repeat split; reflexivity).
    destruct C5 as (C5 & C6 & C7 & C8).
    generalize dependent (snd (NewsAndEventsImage.create id u i w)).
    generalize dependent (fst (NewsAndEventsImage.create id u i w)).
    intros w1 C2 C3 C4 row C1 C5 C6 C7 C8.
    pose proof (IH (i + 1) w1) as IH1.
    destruct (NewsAndEventsImage.createMultiple_from id (i + 1) rest w1) as [w2 r] eqn:Er.
    destruct IH1 as (rows & I1 & I2 & I3 & I4 & I5 & I6 & I7).
    cbn [fst snd] in *. exists (row :: rows).
    split; [rewrite I1, C1, <- app_assoc; reflexivity|].
    split; [congruence|].
    split; [congruence|].
    split; [cbn; now rewrite I4, C5|].
    split; [constructor; [exact C6 | exact I5]|].
    split.
    + intros [|k] r0 H.
      * cbn in H. inversion H; subst r0. rewrite C7, C8. lia.
      * cbn [nth_error] in H. destruct (I6 k r0 H) as [A B].
        rewrite A, B, C4. lia.
    + cbn [existsb orb]. rewrite I7.
      destruct (existsb _ rest); reflexivity.
  - exists []. cbn. rewrite app_nil_r.
    do 5 (split; [auto|]). split; [intros [|k] r H; discriminate | reflexivity].
Qed.

Lemma filter_none {A} (f : A -> bool) (l : list A) :
  Forall (fun x => f x = false) l -> filter f l = [].
Proof.
  induction 1 as [|x l Hx _ IH]; [reflexivity|]. cbn. now rewrite Hx.
Qed.

Lemma filter_all {A} (f : A -> bool) (l : list A) :
  Forall (fun x => f x = true) l -> filter f l = l.
Proof.
  induction 1 as [|x l Hx _ IH]; [reflexivity|]. cbn. now rewrite Hx, IH.
Qed.

(** X7.  [createMultiple] is not atomic: the entries before the first
    [null] are inserted for the item, in order and after the rows it
    already has, whether or not the call then throws; rows of other items
    are left alone; the call throws exactly when the list holds a [null],
    and otherwise returns the new rows, numbered from 0 in list order. *)
Theorem createMultiple_inserts_leading_entries :
  forall (id : Z) (imgs : list (option string)) (w : World),
    persisted_urls id (fst (NewsAndEventsImage.createMultiple id imgs w))
    = (persisted_urls id w ++ leading_urls imgs)%list
    /\ (forall other, other <> id ->
          rows_of other (fst (NewsAndEventsImage.createMultiple id imgs w))
          = rows_of other w)
    /\ (In None imgs ->
        snd (NewsAndEventsImage.createMultiple id imgs w)
        = Throw "Cannot read properties of null (reading 'url')")
    /\ (~ In None imgs ->
        exists rows,
          snd (NewsAndEventsImage.createMultiple id imgs w) = Return rows
          /\ map (fun r => Some (image_url r)) rows = imgs
          /\ forall k r, nth_error rows k = Some r -> image_order r = Z.of_nat k).
Proof.
  intros id imgs w. unfold NewsAndEventsImage.createMultiple.
  destruct (createMultiple_from_spec id imgs 0 w)
    as (rows & I1 & _ & _ & I4 & I5 & I6 & I7).
  refine (conj _ (conj _ (conj _ _))).
  - unfold persisted_urls, rows_of. rewrite I1, filter_app, map_app.
    rewrite (filter_all _ rows), I4; [reflexivity|].
    eapply Forall_impl; [|exact I5]. cbn. intros r ->. apply Z.eqb_refl.
  - intros other Ho. unfold rows_of. rewrite I1, filter_app.
    rewrite (filter_none _ rows); [apply app_nil_r|].
    eapply Forall_impl; [|exact I5]. cbn. intros r ->. apply Z.eqb_neq. congruence.
  - intros Hin. rewrite I7.
    replace (existsb _ imgs) with true; [reflexivity|].
    symmetry. apply existsb_exists. exists None. now split.
  - intros Hn. exists rows. rewrite I7.
    assert (E : existsb (fun e : option string =>
                           match e with None => true | Some _ => false end) imgs = false).
    { destruct (existsb _ imgs) eqn:E; [|reflexivity].
      apply existsb_exists in E. destruct E as ([u|] & Hin & Hx); [discriminate|].
      contradiction. }
    rewrite E. split; [reflexivity|]. split.
    + rewrite <- map_map, I4. now apply leading_urls_no_null.
    + intros k r H. destruct (I6 k r H) as [A _]. lia.
Qed.

(** Rows numbered upwards are already in the order of the listing. *)
Lemma sort_by_numbered_rows (rows : list ImageRow) (i : Z) :
  (forall k r, nth_error rows k = Some r -> image_order r = i + Z.of_nat k) ->
  sort_by NewsAndEventsImage.image_before rows = rows.
Proof.
  revert i. induction rows as [|x rows IH]; intros i H; [reflexivity|].
  unfold sort_by in *. cbn [fold_right].
  rewrite (IH (i + 1)).
  - destruct rows as [|y rows]; [reflexivity|]. cbn [insert_sorted].
    replace (NewsAndEventsImage.image_before x y) with true; [reflexivity|].
    symmetry. unfold NewsAndEventsImage.image_before.
    rewrite (H 0%nat x eq_refl), (H 1%nat y eq_refl).
    apply orb_true_iff. left. apply Z.ltb_lt. lia.
  - intros k r Hk. rewrite (H (S k) r Hk). lia.
Qed.

(** X8.  Round trip through the image table: the images inserted by
    [createMultiple] for an item that had none are read back by
    [findByNewsAndEventsId] in the order in which they were given. *)
Theorem created_images_read_back_in_order :
  forall (id : Z) (urls : list string) (w : World),
    rows_of id w = [] ->
    map image_url
      (snd (NewsAndEventsImage.findByNewsAndEventsId id
              (fst (NewsAndEventsImage.createMultiple id (map Some urls) w))))
    = urls.
Proof.
  intros id urls w Hnone. unfold NewsAndEventsImage.createMultiple.
  destruct (createMultiple_from_spec id (map Some urls) 0 w)
    as (rows & I1 & _ & _ & I4 & I5 & I6 & _).
  unfold NewsAndEventsImage.findByNewsAndEventsId. cbn [snd].
  rewrite I1, filter_app. unfold rows_of in Hnone. rewrite Hnone. cbn [app].
  rewrite (filter_all _ rows).
  - rewrite (sort_by_numbered_rows rows 0); [now rewrite I4, leading_urls_all|].
    intros k r H. now destruct (I6 k r H).
  - eapply Forall_impl; [|exact I5]. cbn. intros r ->. apply Z.eqb_refl.
Qed.

Lemma created_images_read_back_in_order_witness :
  map image_url
    (snd (NewsAndEventsImage.findByNewsAndEventsId 2
            (fst (NewsAndEventsImage.createMultiple 2
                    (map Some ["/news-images/z.jpg"; "/news-images/a.jpg"]) Sample.world))))
  = ["/news-images/z.jpg"; "/news-images/a.jpg"].
Proof.
  apply (created_images_read_back_in_order 2
           ["/news-images/z.jpg"; "/news-images/a.jpg"] Sample.world).
  reflexivity.
Defined.

(** X9.  [NewsAndEventsImage.delete] reports whether a row with the id was
    there, removes exactly the rows with that id, and a second call
    reports false and leaves the table as it is. *)
Theorem image_delete_removes_exactly_the_row :
  forall (id : Z) (w : World),
    (snd (NewsAndEventsImage.delete id w) = true
     <-> exists r, In r (w_images w) /\ img_id r = id)
    /\ (forall r, In r (w_images (fst (NewsAndEventsImage.delete id w)))
                  <-> In r (w_images w) /\ img_id r <> id)
    /\ snd (NewsAndEventsImage.delete id (fst (NewsAndEventsImage.delete id w))) = false
    /\ w_images (fst (NewsAndEventsImage.delete id (fst (NewsAndEventsImage.delete id w))))
       = w_images (fst (NewsAndEventsImage.delete id w)).
Proof.
  intros id w. rewrite !delete_images.
  assert (Hin : forall r, In r (filter (fun r => negb (img_id r =? id)) (w_images w))
                          <-> In r (w_images w) /\ img_id r <> id).
  { intros r. rewrite filter_In, negb_true_iff, Z.eqb_neq. reflexivity. }
  refine (conj _ (conj Hin (conj _ _))).
  - unfold NewsAndEventsImage.delete. cbn [snd]. rewrite existsb_exists.
    split; intros (r & H1 & H2); exists r; split; auto;
      [now apply Z.eqb_eq | now apply Z.eqb_eq].
  - unfold NewsAndEventsImage.delete at 1. cbn [snd].
    destruct (existsb _ _) eqn:E; [|reflexivity].
    apply existsb_exists in E. destruct E as (r & H1 & H2).
    rewrite delete_images in H1. apply Hin in H1. apply Z.eqb_eq in H2. tauto.
  - rewrite filter_filter. apply filter_ext. intros r.
    now destruct (negb (img_id r =? id)).
Qed.

(** X10.  [deleteByNewsAndEventsId] empties the image list of the item and
    of no other item: afterwards [findByNewsAndEventsId] finds nothing for
    it and what it finds for another item is unchanged; the call reports
    whether the item had a row. *)
Theorem deleteByNewsAndEventsId_clears_one_item :
  forall (id : Z) (w : World),
    snd (NewsAndEventsImage.findByNewsAndEventsId id
           (fst (NewsAndEventsImage.deleteByNewsAndEventsId id w))) = []
    /\ (forall other, other <> id ->
          snd (NewsAndEventsImage.findByNewsAndEventsId other
                 (fst (NewsAndEventsImage.deleteByNewsAndEventsId id w)))
          = snd (NewsAndEventsImage.findByNewsAndEventsId other w))
    /\ (snd (NewsAndEventsImage.deleteByNewsAndEventsId id w) = false
        <-> rows_of id w = []).
Proof.
  intros id w. unfold NewsAndEventsImage.findByNewsAndEventsId. cbn [snd].
  rewrite !deleteBy_images. refine (conj _ (conj _ _)).
  - rewrite filter_filter, filter_none; [reflexivity|].
    apply Forall_forall. intros r _. now destruct (img_news_and_events_id r =? id).
  - intros other Ho. rewrite filter_filter. f_equal. apply filter_ext. intros r.
    destruct (img_news_and_events_id r =? other) eqn:E; [|apply andb_false_r].
    apply Z.eqb_eq in E.
    replace (img_news_and_events_id r =? id) with false; [reflexivity|].
    symmetry. apply Z.eqb_neq. congruence.
  - unfold NewsAndEventsImage.deleteByNewsAndEventsId, rows_of. cbn [snd].
    induction (w_images w) as [|r l IH]; [split; reflexivity|].
    cbn [existsb filter]. destruct (img_news_and_events_id r =? id); cbn [orb].
    + split; discriminate.
    + exact IH.
Qed.

Lemma updateOrder_images (id o : Z) (w : World) :
  w_images (fst (NewsAndEventsWrite.updateOrder id o w))
  = map (fun r => if img_id r =? id
                  then {| img_id := img_id r;
                          img_news_and_events_id := img_news_and_events_id r;
                          image_url := image_url r;
                          image_order := o;
                          img_created_at := img_created_at r |}
                  else r) (w_images w).
Proof. reflexivity. Qed.

(** X11.  [updateOrder] changes nothing but the order of the rows with the
    given id: ids, owners and URLs stay as they are, row for row, every
    other row is unchanged, and the row that is returned carries the id
    and the new order; nothing is returned exactly when no row has the
    id. *)
Theorem updateOrder_changes_only_the_order :
  forall (id o : Z) (w : World),
    map img_id (w_images (fst (NewsAndEventsWrite.updateOrder id o w)))
    = map img_id (w_images w)
    /\ map img_news_and_events_id (w_images (fst (NewsAndEventsWrite.updateOrder id o w)))
       = map img_news_and_events_id (w_images w)
    /\ map image_url (w_images (fst (NewsAndEventsWrite.updateOrder id o w)))
       = map image_url (w_images w)
    /\ filter (fun r => negb (img_id r =? id))
         (w_images (fst (NewsAndEventsWrite.updateOrder id o w)))
       = filter (fun r => negb (img_id r =? id)) (w_images w)
    /\ (forall r, snd (NewsAndEventsWrite.updateOrder id o w) = Some r ->
                  img_id r = id /\ image_order r = o)
    /\ (snd (NewsAndEventsWrite.updateOrder id o w) = None
        <-> forall r, In r (w_images w) -> img_id r <> id).
Proof.
  intros id o w. rewrite !updateOrder_images.
  unfold NewsAndEventsWrite.updateOrder. cbn [snd w_images set_images emit].
  induction (w_images w) as [|x l IH].
  - cbn. repeat split; auto; try discriminate.
  - destruct IH as (I1 & I2 & I3 & I4 & I5 & I6).
    cbn [map filter find].
    destruct (img_id x =? id) eqn:E; cbn [img_id img_news_and_events_id image_url].
    + rewrite E. cbn [negb]. rewrite I1, I2, I3, I4.
      refine (conj eq_refl (conj eq_refl (conj eq_refl (conj eq_refl (conj _ _))))).
      * intros r H. inversion H; subst r. cbn. split; [now apply Z.eqb_eq | reflexivity].
      * split; [discriminate|]. intros H. exfalso.
        apply (H x); [now left | now apply Z.eqb_eq].
    + rewrite E. cbn [negb]. rewrite I1, I2, I3, I4.
      refine (conj eq_refl (conj eq_refl (conj eq_refl (conj eq_refl (conj I5 _))))).
      rewrite I6. split.
      * intros H r [-> | Hin]; [now apply Z.eqb_neq | auto].
      * intros H r Hin. apply H. now right.
Qed.

(* ===================================================================== *)
(** * The listing statement                                               *)
(* ===================================================================== *)

Lemma invalid_indices_none (params : list SqlValue) (i : Z) :
  forallb (fun p => negb (sql_is_null p)) params = true ->
  NewsAndEvents.invalid_indices i params = [].
Proof.
  revert i. induction params as [|p l IH]; intros i H; [reflexivity|].
  cbn [forallb] in H. apply andb_prop in H. destruct H as [Hp Hl].
  cbn [NewsAndEvents.invalid_indices]. rewrite (IH (i + 1) Hl).
  destruct (sql_is_null p); [discriminate | reflexivity].
Qed.

Lemma well_formed_checked (q : Query) :
  well_formed q -> NewsAndEvents.check_params q = Return q.
Proof.
  intros [Hn Hc]. apply check_params_intro; [now apply invalid_indices_none | exact Hc].
Qed.

Lemma well_formed_add_clause (t : string) (v : list SqlValue)
      (c : NewsRow -> bool) (q : Query) :
  forallb (fun p => negb (sql_is_null p)) v = true ->
  count_placeholders t = List.length v ->
  well_formed q -> well_formed (add_clause t v c q).
Proof.
  intros Hv Ht [Hn Hc]. split; cbn [add_clause q_params q_text].
  - rewrite forallb_app, Hn, Hv. reflexivity.
  - rewrite count_placeholders_app, length_app. lia.
Qed.

Lemma well_formed_add_text (t : string) (q : Query) :
  count_placeholders t = O -> well_formed q -> well_formed (add_text t q).
Proof.
  intros Ht [Hn Hc]. split; cbn [add_text q_params q_text]; [exact Hn|].
  rewrite count_placeholders_app. lia.
Qed.

Lemma well_formed_add_limit (t : string) (lim off : Z) (q : Query) :
  count_placeholders t = O -> well_formed q -> well_formed (add_limit t [] lim off q).
Proof.
  intros Ht [Hn Hc]. split; cbn [add_limit q_params q_text].
  - now rewrite app_nil_r.
  - rewrite count_placeholders_app, app_nil_r. lia.
Qed.

Lemma step_category_well_formed (f : Filters) (q q' : Query) :
  NewsAndEvents.step_category f q = Return q' -> well_formed q -> well_formed q'.
Proof.
  unfold NewsAndEvents.step_category. intros H Hq.
  break_inner; inversion H; subst; auto.
  now apply well_formed_add_clause.
Qed.

Lemma step_status_well_formed (f : Filters) (q q' : Query) :
  NewsAndEvents.step_status f q = Return q' -> well_formed q -> well_formed q'.
Proof.
  unfold NewsAndEvents.step_status. intros H Hq.
  break_inner; inversion H; subst; auto.
  now apply well_formed_add_clause.
Qed.

Lemma step_search_well_formed (rt : Runtime) (f : Filters) (q q' : Query) :
  NewsAndEvents.step_search rt f q = Return q' -> well_formed q -> well_formed q'.
Proof.
  unfold NewsAndEvents.step_search. intros H Hq.
  break_inner; inversion H; subst; auto.
  now apply well_formed_add_clause.
Qed.

Lemma step_date_well_formed (rt : Runtime) (v : JsVal) (n c : string)
      (cond : string -> NewsRow -> bool) (q q' : Query) :
  count_placeholders c = 1%nat ->
  NewsAndEvents.step_date rt v n c cond q = Return q' ->
  well_formed q -> well_formed q'.
Proof.
  unfold NewsAndEvents.step_date, rethrow. intros Hc H Hq.
  break_inner; inversion H; subst; auto.
  now apply well_formed_add_clause.
Qed.

Lemma step_limit_well_formed (f : Filters) (q q' : Query) :
  NewsAndEvents.step_limit f q = Return q' -> well_formed q -> well_formed q'.
Proof.
  unfold NewsAndEvents.step_limit. intros H Hq.
  break_inner; inversion H; subst; auto; apply well_formed_add_limit; auto;
    simpl; rewrite ?count_placeholders_app, ?count_placeholders_number_to_string;
    simpl; rewrite ?count_placeholders_number_to_string; reflexivity.
Qed.

Lemma well_formed_query0 : well_formed NewsAndEvents.query0.
Proof. split; reflexivity. Qed.

Lemma findAll_unchecked_well_formed (rt : Runtime) (filters : Filters) (q : Query) :
  findAll_unchecked rt filters = Return q -> well_formed q.
Proof.
  unfold findAll_unchecked.
  destruct (NewsAndEvents.step_category filters NewsAndEvents.query0) as [q1| |] eqn:H1;
    cbn [andThen]; try discriminate.
  destruct (NewsAndEvents.step_status filters q1) as [q2| |] eqn:H2;
    cbn [andThen]; try discriminate.
  destruct (NewsAndEvents.step_search rt filters q2) as [q3| |] eqn:H3;
    cbn [andThen]; try discriminate.
  destruct (NewsAndEvents.step_date rt (f_date_from filters) _ _ _ q3) as [q4| |] eqn:H4;
    cbn [andThen]; try discriminate.
  destruct (NewsAndEvents.step_date rt (f_date_to filters) _ _ _ q4) as [q5| |] eqn:H5;
    cbn [andThen]; try discriminate.
  intros H6.
  apply (step_limit_well_formed _ _ _ H6).
  apply well_formed_add_text; [reflexivity|].
  refine (step_date_well_formed _ _ _ _ _ _ _ _ H5 _); [reflexivity|].
  refine (step_date_well_formed _ _ _ _ _ _ _ _ H4 _); [reflexivity|].
  apply (step_search_well_formed _ _ _ _ H3).
  apply (step_status_well_formed _ _ _ H2).
  apply (step_category_well_formed _ _ _ H1).
  exact well_formed_query0.
Qed.

Lemma findAll_query_unchecked (rt : Runtime) (filters : Filters) :
  NewsAndEvents.findAll_query rt filters = findAll_unchecked rt filters.
Proof.
  pose proof (findAll_unchecked_well_formed rt filters) as Hwf.
  unfold NewsAndEvents.findAll_query, findAll_unchecked in *.
  destruct (NewsAndEvents.step_category filters NewsAndEvents.query0) as [q1| |];
    cbn [andThen] in *; try reflexivity.
  destruct (NewsAndEvents.step_status filters q1) as [q2| |];
    cbn [andThen] in *; try reflexivity.
  destruct (NewsAndEvents.step_search rt filters q2) as [q3| |];
    cbn [andThen] in *; try reflexivity.
  destruct (NewsAndEvents.step_date rt (f_date_from filters) _ _ _ q3) as [q4| |];
    cbn [andThen] in *; try reflexivity.
  destruct (NewsAndEvents.step_date rt (f_date_to filters) _ _ _ q4) as [q5| |];
    cbn [andThen] in *; try reflexivity.
  destruct (NewsAndEvents.step_limit filters _) as [q6| |];
    cbn [andThen] in *; try reflexivity.
  apply well_formed_checked. now apply Hwf.
Qed.

(** X12.  The two checks [findAll] makes on its parameter list just before
    running the statement (no null parameter; as many parameters as
    placeholders) never fail: whatever the filters, the checked function
    is the unchecked one, and a statement that is built is well formed. *)
Theorem findAll_parameter_checks_never_fail :
  forall (rt : Runtime) (filters : Filters),
    NewsAndEvents.findAll_query rt filters = findAll_unchecked rt filters
    /\ forall q, NewsAndEvents.findAll_query rt filters = Return q -> well_formed q.
Proof.
  intros rt filters. split; [apply findAll_query_unchecked|].
  intros q Hq. rewrite findAll_query_unchecked in Hq.
  now apply findAll_unchecked_well_formed in Hq.
Qed.

Lemma step_category_limit (f : Filters) (q q' : Query) :
  NewsAndEvents.step_category f q = Return q' -> q_limit q' = q_limit q.
Proof.
  unfold NewsAndEvents.step_category. intros H.
  break_inner; inversion H; subst; reflexivity.
Qed.

Lemma step_status_limit (f : Filters) (q q' : Query) :
  NewsAndEvents.step_status f q = Return q' -> q_limit q' = q_limit q.
Proof.
  unfold NewsAndEvents.step_status. intros H.
  break_inner; inversion H; subst; reflexivity.
Qed.

Lemma step_search_limit (rt : Runtime) (f : Filters) (q q' : Query) :
  NewsAndEvents.step_search rt f q = Return q' -> q_limit q' = q_limit q.
Proof.
  unfold NewsAndEvents.step_search. intros H.
  break_inner; inversion H; subst; reflexivity.
Qed.

Lemma step_date_limit (rt : Runtime) (v : JsVal) (n c : string)
      (cond : string -> NewsRow -> bool) (q q' : Query) :
  NewsAndEvents.step_date rt v n c cond q = Return q' -> q_limit q' = q_limit q.
Proof.
  unfold NewsAndEvents.step_date, rethrow. intros H.
  break_inner; inversion H; subst; reflexivity.
Qed.

(** Below 2^53 every integer is a double and prints as it is. *)
Lemma double_small (n : Z) : Z.abs n < 2 ^ 53 -> double n = n.
Proof.
  intros H. unfold double.
  destruct (Z.ltb_spec (Z.abs n) (2 ^ 53)) as [_|H']; [reflexivity|].
  exfalso. apply (Z.lt_irrefl (Z.abs n)). eapply Z.lt_le_trans; eassumption.
Qed.

Lemma printed_small (n : Z) : Z.abs n < 2 ^ 53 -> printed n = n.
Proof.
  intros H. unfold printed.
  destruct (Z.ltb_spec (Z.abs n) (2 ^ 53)) as [_|H']; [reflexivity|].
  exfalso. apply (Z.lt_irrefl (Z.abs n)). eapply Z.lt_le_trans; eassumption.
Qed.

Lemma number_to_string_small (n : Z) :
  Z.abs n < 2 ^ 53 -> number_to_string n = Z_to_string n.
Proof.
  intros H. unfold number_to_string.
  destruct (Z.ltb_spec (Z.abs n) (2 ^ 53)) as [_|H']; [reflexivity|].
  exfalso. apply (Z.lt_irrefl (Z.abs n)). eapply Z.lt_le_trans; eassumption.
Qed.

(** What the LIMIT block adds to a statement: the numbers as the text
    shows them. *)
Lemma step_limit_paging (f : Filters) (q q' : Query) :
  NewsAndEvents.step_limit f q = Return q' ->
  is_nullish (f_limit f) = false ->
  exists limit offset,
    parseInt (f_limit f) (Some 10) = Some limit /\ 1 <= limit
    /\ ((is_nullish (f_offset f) = true /\ offset = 0)
        \/ (is_nullish (f_offset f) = false
            /\ parseInt (f_offset f) (Some 10) = Some offset))
    /\ 0 <= offset
    /\ q_where q' = q_where q
    /\ q_limit q' = Some (printed limit, printed offset).
Proof.
  unfold NewsAndEvents.step_limit. intros H Hn. rewrite Hn in H. cbn [negb] in H.
  destruct (parseInt (f_limit f) (Some 10)) as [limit|]; [|discriminate].
  destruct (Z.ltb_spec limit 1); [discriminate|].
  destruct (is_nullish (f_offset f)) eqn:Ho; cbn [negb] in H.
  - replace q' with (add_limit (" LIMIT " ++ number_to_string limit) []
                       (printed limit) 0 q) by congruence.
    exists limit, 0. repeat split; auto; lia.
  - destruct (parseInt (f_offset f) (Some 10)) as [offset|]; [|discriminate].
    destruct (Z.ltb_spec offset 0); [discriminate|].
    replace q' with (add_limit (" LIMIT " ++ number_to_string limit
                                ++ " OFFSET " ++ number_to_string offset) []
                       (printed limit) (printed offset) q) by congruence.
    exists limit, offset. repeat split; auto.
Qed.

(** The statement of a request with a limit selects a slice of what the
    statement of the same request without limit and offset selects. *)
Lemma findAll_query_paging (rt : Runtime) (filters : Filters) (q : Query) :
  NewsAndEvents.findAll_query rt filters = Return q ->
  is_nullish (f_limit filters) = false ->
  exists q0 limit offset,
    NewsAndEvents.findAll_query rt (without_paging filters) = Return q0
    /\ parseInt (f_limit filters) (Some 10) = Some limit /\ 1 <= limit
    /\ ((is_nullish (f_offset filters) = true /\ offset = 0)
        \/ (is_nullish (f_offset filters) = false
            /\ parseInt (f_offset filters) (Some 10) = Some offset))
    /\ 0 <= offset
    /\ q_limit q0 = None
    /\ q_limit q = Some (printed limit, printed offset)
    /\ forall w, select_news rt q w
                 = firstn (Z.to_nat (printed limit))
                     (skipn (Z.to_nat (printed offset)) (select_news rt q0 w)).
Proof.
  rewrite !findAll_query_unchecked. unfold findAll_unchecked.
  change (f_date_from (without_paging filters)) with (f_date_from filters).
  change (f_date_to (without_paging filters)) with (f_date_to filters).
  change (NewsAndEvents.step_category (without_paging filters))
    with (NewsAndEvents.step_category filters).
  change (NewsAndEvents.step_status (without_paging filters))
    with (NewsAndEvents.step_status filters).
  change (NewsAndEvents.step_search rt (without_paging filters))
    with (NewsAndEvents.step_search rt filters).
  change (NewsAndEvents.step_limit (without_paging filters))
    with (fun q : Query => Return q).
  destruct (NewsAndEvents.step_category filters NewsAndEvents.query0) as [q1| |] eqn:H1;
    cbn [andThen]; try discriminate.
  destruct (NewsAndEvents.step_status filters q1) as [q2| |] eqn:H2;
    cbn [andThen]; try discriminate.
  destruct (NewsAndEvents.step_search rt filters q2) as [q3| |] eqn:H3;
    cbn [andThen]; try discriminate.
  destruct (NewsAndEvents.step_date rt (f_date_from filters) _ _ _ q3) as [q4| |] eqn:H4;
    cbn [andThen]; try discriminate.
  destruct (NewsAndEvents.step_date rt (f_date_to filters) _ _ _ q4) as [q5| |] eqn:H5;
    cbn [andThen]; try discriminate.
  set (qo := add_text " ORDER BY n.date_time DESC, n.created_at DESC" q5).
  intros H6 Hn.
  destruct (step_limit_paging _ _ _ H6 Hn)
    as (limit & offset & Hl & Hge & Hoff & Hoge & Hw & Hq).
  assert (Hnone : q_limit qo = None).
  { unfold qo. cbn [add_text q_limit].
    rewrite (step_date_limit _ _ _ _ _ _ _ H5), (step_date_limit _ _ _ _ _ _ _ H4),
      (step_search_limit _ _ _ _ H3), (step_status_limit _ _ _ H2),
      (step_category_limit _ _ _ H1). reflexivity. }
  exists qo, limit, offset.
  split; [reflexivity|]. split; [exact Hl|]. split; [exact Hge|].
  split; [exact Hoff|]. split; [exact Hoge|].
  split; [exact Hnone|]. split; [exact Hq|].
  intros w. unfold select_news. rewrite Hq, Hnone, Hw. reflexivity.
Qed.

(** The page [findAll] returns, as a slice of the listing without
    paging. *)
Lemma listing_page (rt : Runtime) (filters : Filters) (w : World)
      (rows : list NewsRow) :
  snd (NewsAndEvents.findAll rt filters w) = Return rows ->
  is_nullish (f_limit filters) = false ->
  exists all limit offset,
    snd (NewsAndEvents.findAll rt (without_paging filters) w) = Return all
    /\ parseInt (f_limit filters) (Some 10) = Some limit /\ 1 <= limit
    /\ ((is_nullish (f_offset filters) = true /\ offset = 0)
        \/ (is_nullish (f_offset filters) = false
            /\ parseInt (f_offset filters) (Some 10) = Some offset))
    /\ 0 <= offset
    /\ rows = firstn (Z.to_nat (printed limit))
                (skipn (Z.to_nat (printed offset)) all)
    /\ printed limit < 2 ^ 64 /\ printed offset < 2 ^ 64.
Proof.
  intros Hrows Hn.
  destruct (findAll_inv rt filters w rows Hrows) as (q & Hq & Ha & _ & ->).
  destruct (findAll_query_paging rt filters q Hq Hn)
    as (q0 & limit & offset & H0 & Hl & Hge & Hoff & Hoge & Hnone & Hlim & Hs).
  unfold NewsAndEvents.findAll. rewrite H0. unfold limit_accepted in Ha |- *.
  rewrite Hnone. rewrite Hlim in Ha. cbn [snd].
  apply andb_prop in Ha. destruct Ha as [Ha1 Ha2].
  apply Z.ltb_lt in Ha1. apply Z.ltb_lt in Ha2.
  exists (select_news rt q0 w), limit, offset.
  split; [reflexivity|]. split; [exact Hl|]. split; [exact Hge|].
  split; [exact Hoff|]. split; [exact Hoge|].
  split; [apply Hs|]. split; assumption.
Qed.

(** X13.  A page is a slice of the whole listing: when [findAll] answers a
    request with a limit, the same filters without limit and offset are
    answered too, and the page consists of the rows of that listing that
    the LIMIT and OFFSET written into the statement select: the numbers
    [parseInt] read (offset 0 when none is given) as [String] prints
    them, which is the numbers themselves below 2^53 and the shortest
    decimal that reads back as them beyond; both are below 2^64, since
    the engine has accepted them.  So the page never has more rows than
    the limit shown. *)
Theorem findAll_page_is_slice_of_listing :
  forall (rt : Runtime) (filters : Filters) (w : World) (rows : list NewsRow),
    snd (NewsAndEvents.findAll rt filters w) = Return rows ->
    is_nullish (f_limit filters) = false ->
    exists all limit offset,
      snd (NewsAndEvents.findAll rt (without_paging filters) w) = Return all
      /\ parseInt (f_limit filters) (Some 10) = Some limit /\ 1 <= limit
      /\ ((is_nullish (f_offset filters) = true /\ offset = 0)
          \/ (is_nullish (f_offset filters) = false
              /\ parseInt (f_offset filters) (Some 10) = Some offset))
      /\ 0 <= offset
      /\ rows = firstn (Z.to_nat (printed limit))
                  (skipn (Z.to_nat (printed offset)) all)
      /\ (List.length rows <= Z.to_nat (printed limit))%nat
      /\ printed limit < 2 ^ 64 /\ printed offset < 2 ^ 64
      /\ (limit < 2 ^ 53 -> printed limit = limit)
      /\ (offset < 2 ^ 53 -> printed offset = offset).
Proof.
  intros rt filters w rows Hrows Hn.
  destruct (listing_page rt filters w rows Hrows Hn)
    as (all & limit & offset & Hall & Hl & Hge & Hoff & Hoge & Hs & Ha1 & Ha2).
  exists all, limit, offset.
  split; [exact Hall|]. split; [exact Hl|]. split; [exact Hge|].
  split; [exact Hoff|]. split; [exact Hoge|].
  split; [exact Hs|].
  split; [rewrite Hs; apply firstn_le_length|].
  split; [exact Ha1|]. split; [exact Ha2|].
  split; intros Hsmall; apply printed_small; rewrite Z.abs_eq;
    solve [assumption | eapply Z.le_trans; [|eassumption]; discriminate].
Qed.

Lemma findAll_page_is_slice_of_listing_witness :
  exists all limit offset,
    snd (NewsAndEvents.findAll Sample.rt (without_paging Sample.paged_filters)
           Sample.world) = Return all
    /\ parseInt (f_limit Sample.paged_filters) (Some 10) = Some limit /\ 1 <= limit
    /\ ((is_nullish (f_offset Sample.paged_filters) = true /\ offset = 0)
        \/ (is_nullish (f_offset Sample.paged_filters) = false
            /\ parseInt (f_offset Sample.paged_filters) (Some 10) = Some offset))
    /\ 0 <= offset
    /\ [] = firstn (Z.to_nat (printed limit))
              (skipn (Z.to_nat (printed offset)) all)
    /\ (List.length (@nil NewsRow) <= Z.to_nat (printed limit))%nat
    /\ printed limit < 2 ^ 64 /\ printed offset < 2 ^ 64
    /\ (limit < 2 ^ 53 -> printed limit = limit)
    /\ (offset < 2 ^ 53 -> printed offset = offset).
Proof.
  apply (findAll_page_is_slice_of_listing Sample.rt Sample.paged_filters Sample.world []);
    reflexivity.
Defined.

(** The condition each block of [findAll] adds to the statement. *)
Lemma step_category_where (f : Filters) (q q' : Query) (r : NewsRow) :
  NewsAndEvents.step_category f q = Return q' ->
  q_where q' r
  = q_where q r
    && (if is_present (f_category_id f)
        then match parseInt (f_category_id f) (Some 10) with
             | Some n => news_category_id r =? n
             | None => false
             end
        else true).
Proof.
  unfold NewsAndEvents.step_category. intros H.
  break_inner; inversion H; subst; cbn [add_clause q_where];
    try reflexivity; now rewrite andb_true_r.
Qed.

Lemma step_status_where (f : Filters) (q q' : Query) (r : NewsRow) :
  NewsAndEvents.step_status f q = Return q' ->
  q_where q' r
  = q_where q r
    && (if is_present (f_status f)
        then match f_status f with
             | JStr s => cond_status s r
             | _ => false
             end
        else true).
Proof.
  unfold NewsAndEvents.step_status. intros H.
  break_inner; inversion H; subst; cbn [add_clause q_where];
    try reflexivity; now rewrite andb_true_r.
Qed.

Lemma step_search_where (rt : Runtime) (f : Filters) (q q' : Query) (r : NewsRow) :
  NewsAndEvents.step_search rt f q = Return q' ->
  q_where q' r
  = q_where q r
    && (if is_present (f_search f)
        then match f_search f with
             | JStr s => cond_search rt ("%" ++ trim s ++ "%") r
             | _ => false
             end
        else true).
Proof.
  unfold NewsAndEvents.step_search. intros H.
  break_inner; inversion H; subst; cbn [add_clause q_where];
    try reflexivity; now rewrite andb_true_r.
Qed.

Lemma step_date_where (rt : Runtime) (v : JsVal) (n c : string)
      (cond : string -> NewsRow -> bool) (q q' : Query) (r : NewsRow) :
  NewsAndEvents.step_date rt v n c cond q = Return q' ->
  q_where q' r
  = q_where q r
    && match v with
       | JStr s =>
           if negb (String.eqb s "") && negb (String.eqb (trim s) "")
           then match NewsAndEvents.formatDateTimeForMySQL rt v with
                | Return (JStr d) => cond d r
                | _ => false
                end
           else true
       | _ => true
       end.
Proof.
  unfold NewsAndEvents.step_date, rethrow. intros H.
  destruct v; try (inversion H; subst; now rewrite andb_true_r).
  destruct (negb (String.eqb s "") && negb (String.eqb (trim s) ""));
    [|inversion H; subst; now rewrite andb_true_r].
  destruct (NewsAndEvents.formatDateTimeForMySQL rt (JStr s)) as [[| | | |[|a d]]| |];
    try discriminate.
  inversion H; subst. reflexivity.
Qed.

Lemma step_limit_where (f : Filters) (q q' : Query) :
  NewsAndEvents.step_limit f q = Return q' -> q_where q' = q_where q.
Proof.
  unfold NewsAndEvents.step_limit. intros H.
  break_inner; inversion H; subst; reflexivity.
Qed.

(** The WHERE condition of the statement [findAll] runs. *)
Lemma findAll_query_where (rt : Runtime) (f : Filters) (q : Query) (r : NewsRow) :
  NewsAndEvents.findAll_query rt f = Return q ->
  q_where q r
  = (if is_present (f_category_id f)
     then match parseInt (f_category_id f) (Some 10) with
          | Some n => news_category_id r =? n
          | None => false
          end
     else true)
    && (if is_present (f_status f)
        then match f_status f with
             | JStr s => cond_status s r
             | _ => false
             end
        else true)
    && (if is_present (f_search f)
        then match f_search f with
             | JStr s => cond_search rt ("%" ++ trim s ++ "%") r
             | _ => false
             end
        else true)
    && match f_date_from f with
       | JStr s =>
           if negb (String.eqb s "") && negb (String.eqb (trim s) "")
           then match NewsAndEvents.formatDateTimeForMySQL rt (f_date_from f) with
                | Return (JStr d) => cond_date_from rt d r
                | _ => false
                end
           else true
       | _ => true
       end
    && match f_date_to f with
       | JStr s =>
           if negb (String.eqb s "") && negb (String.eqb (trim s) "")
           then match NewsAndEvents.formatDateTimeForMySQL rt (f_date_to f) with
                | Return (JStr d) => cond_date_to rt d r
                | _ => false
                end
           else true
       | _ => true
       end.
Proof.
  rewrite findAll_query_unchecked. unfold findAll_unchecked.
  destruct (NewsAndEvents.step_category f NewsAndEvents.query0) as [q1| |] eqn:H1;
    cbn [andThen]; try discriminate.
  destruct (NewsAndEvents.step_status f q1) as [q2| |] eqn:H2;
    cbn [andThen]; try discriminate.
  destruct (NewsAndEvents.step_search rt f q2) as [q3| |] eqn:H3;
    cbn [andThen]; try discriminate.
  destruct (NewsAndEvents.step_date rt (f_date_from f) _ _ _ q3) as [q4| |] eqn:H4;
    cbn [andThen]; try discriminate.
  destruct (NewsAndEvents.step_date rt (f_date_to f) _ _ _ q4) as [q5| |] eqn:H5;
    cbn [andThen]; try discriminate.
  intros H6. rewrite (step_limit_where _ _ _ H6). cbn [add_text q_where].
  rewrite (step_date_where _ _ _ _ _ _ _ r H5), (step_date_where _ _ _ _ _ _ _ r H4),
    (step_search_where _ _ _ _ r H3), (step_status_where _ _ _ r H2),
    (step_category_where _ _ _ r H1).
  reflexivity.
Qed.

(** X14.  Every row [findAll] returns is a row of the table that satisfies
    each filter that is present: its category is the number the category
    filter parses to, its status is the status filter, it matches the
    trimmed search term in title, description or location, and its date
    lies on the asked side of each date bound as converted by
    [formatDateTimeForMySQL]. *)
Theorem findAll_rows_satisfy_filters :
  forall (rt : Runtime) (filters : Filters) (w : World)
         (rows : list NewsRow) (r : NewsRow),
    snd (NewsAndEvents.findAll rt filters w) = Return rows ->
    In r rows ->
    In r (w_news w)
    /\ (is_present (f_category_id filters) = true ->
        parseInt (f_category_id filters) (Some 10) = Some (news_category_id r))
    /\ (is_present (f_status filters) = true ->
        exists s, f_status filters = JStr s /\ news_status r = Some s)
    /\ (is_present (f_search filters) = true ->
        exists s, f_search filters = JStr s
                  /\ cond_search rt ("%" ++ trim s ++ "%") r = true)
    /\ (forall s, f_date_from filters = JStr s -> trim s <> "" ->
        exists d, NewsAndEvents.formatDateTimeForMySQL rt (JStr s) = Return (JStr d)
                  /\ sql_datetime_le rt d (news_date_time r) = true)
    /\ (forall s, f_date_to filters = JStr s -> trim s <> "" ->
        exists d, NewsAndEvents.formatDateTimeForMySQL rt (JStr s) = Return (JStr d)
                  /\ sql_datetime_le rt (news_date_time r) d = true).
Proof.
  intros rt filters w rows r H Hin.
  destruct (findAll_inv rt filters w rows H) as (q & Hq & _ & _ & ->).
  apply select_news_sound in Hin. destruct Hin as [Hin Hw].
  rewrite (findAll_query_where rt filters q r Hq) in Hw.
  repeat (apply andb_prop in Hw; destruct Hw as [Hw ?]).
  split; [exact Hin|].
  refine (conj _ (conj _ (conj _ (conj _ _)))).
  - intros Hp. rewrite Hp in Hw.
    destruct (parseInt (f_category_id filters) (Some 10)) as [n|]; [|discriminate].
    apply Z.eqb_eq in Hw. now subst.
  - intros Hp. rewrite Hp in *.
    destruct (f_status filters) as [| | | |s]; try discriminate.
    exists s. split; [reflexivity|]. unfold cond_status in *.
    destruct (news_status r) as [x|]; [|discriminate].
    f_equal. now apply String.eqb_eq.
  - intros Hp. rewrite Hp in *.
    destruct (f_search filters) as [| | | |s]; try discriminate.
    exists s. split; [reflexivity | assumption].
  - intros s Hs Ht. rewrite Hs in *.
    assert (E : negb (String.eqb s "") && negb (String.eqb (trim s) "") = true).
    { apply andb_true_iff. split; apply negb_true_iff, String.eqb_neq; [|exact Ht].
      intros ->. now apply Ht. }
    rewrite E in *.
    destruct (NewsAndEvents.formatDateTimeForMySQL rt (JStr s)) as [[| | | |d]| |];
      try discriminate.
    exists d. split; [reflexivity | assumption].
  - intros s Hs Ht. rewrite Hs in *.
    assert (E : negb (String.eqb s "") && negb (String.eqb (trim s) "") = true).
    { apply andb_true_iff. split; apply negb_true_iff, String.eqb_neq; [|exact Ht].
      intros ->. now apply Ht. }
    rewrite E in *.
    destruct (NewsAndEvents.formatDateTimeForMySQL rt (JStr s)) as [[| | | |d]| |];
      try discriminate.
    exists d. split; [reflexivity | assumption].
Qed.

Lemma findAll_rows_satisfy_filters_witness :
  In Sample.news1 (w_news Sample.world)
  /\ (is_present (f_category_id Fixtures.active_in_category) = true ->
      parseInt (f_category_id Fixtures.active_in_category) (Some 10)
      = Some (news_category_id Sample.news1))
  /\ (is_present (f_status Fixtures.active_in_category) = true ->
      exists s, f_status Fixtures.active_in_category = JStr s
                /\ news_status Sample.news1 = Some s)
  /\ (is_present (f_search Fixtures.active_in_category) = true ->
      exists s, f_search Fixtures.active_in_category = JStr s
                /\ cond_search Sample.rt ("%" ++ trim s ++ "%") Sample.news1 = true)
  /\ (forall s, f_date_from Fixtures.active_in_category = JStr s -> trim s <> "" ->
      exists d, NewsAndEvents.formatDateTimeForMySQL Sample.rt (JStr s) = Return (JStr d)
                /\ sql_datetime_le Sample.rt d (news_date_time Sample.news1) = true)
  /\ (forall s, f_date_to Fixtures.active_in_category = JStr s -> trim s <> "" ->
      exists d, NewsAndEvents.formatDateTimeForMySQL Sample.rt (JStr s) = Return (JStr d)
                /\ sql_datetime_le Sample.rt (news_date_time Sample.news1) d = true).
Proof.
  apply (findAll_rows_satisfy_filters Sample.rt Fixtures.active_in_category
           Sample.world [Sample.news1] Sample.news1);
    [reflexivity | now left].
Defined.

Lemma length_insert_sorted {A} (le : A -> A -> bool) (x : A) (l : list A) :
  List.length (insert_sorted le x l) = S (List.length l).
Proof.
  induction l as [|y l IH]; [reflexivity|].
  cbn [insert_sorted]. destruct (le x y); cbn [List.length]; [reflexivity | now rewrite IH].
Qed.

Lemma length_sort_by {A} (le : A -> A -> bool) (l : list A) :
  List.length (sort_by le l) = List.length l.
Proof.
  induction l as [|x l IH]; [reflexivity|].
  unfold sort_by in *. cbn [fold_right]. now rewrite length_insert_sorted, IH.
Qed.

Lemma findAll_query_unpaged (rt : Runtime) (f : Filters) (q : Query) :
  NewsAndEvents.findAll_query rt f = Return q ->
  is_nullish (f_limit f) = true ->
  q_limit q = None.
Proof.
  rewrite findAll_query_unchecked. unfold findAll_unchecked.
  destruct (NewsAndEvents.step_category f NewsAndEvents.query0) as [q1| |] eqn:H1;
    cbn [andThen]; try discriminate.
  destruct (NewsAndEvents.step_status f q1) as [q2| |] eqn:H2;
    cbn [andThen]; try discriminate.
  destruct (NewsAndEvents.step_search rt f q2) as [q3| |] eqn:H3;
    cbn [andThen]; try discriminate.
  destruct (NewsAndEvents.step_date rt (f_date_from f) _ _ _ q3) as [q4| |] eqn:H4;
    cbn [andThen]; try discriminate.
  destruct (NewsAndEvents.step_date rt (f_date_to f) _ _ _ q4) as [q5| |] eqn:H5;
    cbn [andThen]; try discriminate.
  unfold NewsAndEvents.step_limit. intros H6 Hn. rewrite Hn in H6. cbn [negb] in H6.
  inversion H6; subst q. cbn [add_text q_limit].
  rewrite (step_date_limit _ _ _ _ _ _ _ H5), (step_date_limit _ _ _ _ _ _ _ H4),
    (step_search_limit _ _ _ _ H3), (step_status_limit _ _ _ H2),
    (step_category_limit _ _ _ H1). reflexivity.
Qed.

(** X15.  For filters as a query string delivers them, with a category id
    of decimal digits, a search term that has no surrounding white space
    and without date bounds, [count] is the number of rows of the listing
    without paging: the total of the pagination block is the number of
    items the pages hold together.  [count] binds the category id as it
    is sent, never trims the search term and never looks at the date
    bounds. *)
Theorem count_agrees_with_listing :
  forall (rt : Runtime) (filters : Filters) (w : World) (all : list NewsRow),
    from_query_string (f_category_id filters) = true ->
    (forall s, f_category_id filters = JStr s -> decimal_numeral s = true) ->
    from_query_string (f_status filters) = true ->
    from_query_string (f_search filters) = true ->
    (forall s, f_search filters = JStr s -> trim s = s) ->
    is_present (f_date_from filters) = false ->
    is_present (f_date_to filters) = false ->
    snd (NewsAndEvents.findAll rt (without_paging filters) w) = Return all ->
    snd (NewsAndEvents.count rt filters w) = Z.of_nat (List.length all).
Proof.
  intros rt filters w all Hc _ Hs Hq Ht Hf Hto H.
  destruct (findAll_inv rt _ w all H) as (q & E & _ & _ & ->).
  unfold select_news. rewrite (findAll_query_unpaged rt _ q E eq_refl).
  rewrite length_sort_by. unfold NewsAndEvents.count. cbn [snd].
  do 2 f_equal. apply filter_ext. intros r.
  rewrite (findAll_query_where rt _ q r E).
  cbn [without_paging f_category_id f_status f_search f_date_from f_date_to].
  assert (D1 : match f_date_from filters with
               | JStr s =>
                   if negb (String.eqb s "") && negb (String.eqb (trim s) "")
                   then match NewsAndEvents.formatDateTimeForMySQL rt (f_date_from filters) with
                        | Return (JStr d) => cond_date_from rt d r
                        | _ => false
                        end
                   else true
               | _ => true
               end = true).
  { destruct (f_date_from filters) as [| | | |s]; try reflexivity.
    cbn in Hf. apply negb_false_iff in Hf. now rewrite Hf. }
  assert (D2 : match f_date_to filters with
               | JStr s =>
                   if negb (String.eqb s "") && negb (String.eqb (trim s) "")
                   then match NewsAndEvents.formatDateTimeForMySQL rt (f_date_to filters) with
                        | Return (JStr d) => cond_date_to rt d r
                        | _ => false
                        end
                   else true
               | _ => true
               end = true).
  { destruct (f_date_to filters) as [| | | |s]; try reflexivity.
    cbn in Hto. apply negb_false_iff in Hto. now rewrite Hto. }
  rewrite D1, D2, !andb_true_r. clear D1 D2.
  assert (Hcat : is_present (f_category_id filters) = true ->
                 exists n, parseInt (f_category_id filters) (Some 10) = Some n).
  { intros Hp. pose proof E as E'. rewrite findAll_query_unchecked in E'.
    unfold findAll_unchecked, NewsAndEvents.step_category in E'.
    cbn [without_paging f_category_id] in E'. rewrite Hp in E'.
    destruct (parseInt (f_category_id filters) (Some 10)) as [n|]; [now exists n|].
    discriminate E'. }
  unfold NewsAndEvents.count_query. cbv zeta.
  destruct (f_category_id filters) as [| | | |c]; try discriminate Hc;
    destruct (f_status filters) as [| | | |s]; try discriminate Hs;
    destruct (f_search filters) as [| | | |x]; try discriminate Hq;
    cbn [truthy is_present NewsAndEvents.js_to_sql NewsAndEvents.sql_to_int
         NewsAndEvents.sql_to_text to_string] in *;
    repeat match goal with
           | |- context [negb (String.eqb ?a "")] =>
               destruct (negb (String.eqb a "")) eqn:?
           end;
    cbn [add_clause q_where andb];
    try rewrite (Ht x eq_refl);
    try (destruct (Hcat eq_refl) as [n Hn]; unfold parseInt in Hn;
         cbn [to_string] in Hn; unfold parseInt; cbn [to_string]; rewrite Hn);
    unfold cond_category; rewrite ?andb_true_r; reflexivity.
Qed.

Lemma count_agrees_with_listing_witness :
  snd (NewsAndEvents.count Sample.rt Fixtures.active_in_category Sample.world)
  = Z.of_nat (List.length [Sample.news1]).
Proof.
  apply (count_agrees_with_listing Sample.rt Fixtures.active_in_category Sample.world
           [Sample.news1]); try reflexivity.
  - intros s H. inversion H. reflexivity.
  - intros s H. discriminate H.
Defined.

(* ===================================================================== *)
(** * Writing news items                                                  *)
(* ===================================================================== *)

Lemma assign_keeps (cv : NewsAndEvents.Column * SqlValue) (r : NewsRow) :
  news_id (NewsAndEvents.assign cv r) = news_id r
  /\ news_created_by (NewsAndEvents.assign cv r) = news_created_by r
  /\ news_created_at (NewsAndEvents.assign cv r) = news_created_at r.
Proof. destruct cv as [[] v]; repeat split; reflexivity. Qed.

Lemma assign_all_keeps (a : list (NewsAndEvents.Column * SqlValue)) (r : NewsRow) :
  news_id (NewsAndEvents.assign_all a r) = news_id r
  /\ news_created_by (NewsAndEvents.assign_all a r) = news_created_by r
  /\ news_created_at (NewsAndEvents.assign_all a r) = news_created_at r.
Proof.
  unfold NewsAndEvents.assign_all. revert r.
  induction a as [|cv a IH]; intros r; [repeat split; reflexivity|].
  cbn [fold_left]. destruct (IH (NewsAndEvents.assign cv r)) as (A & B & C).
  destruct (assign_keeps cv r) as (A' & B' & C').
  repeat split; congruence.
Qed.

(** The table after [update], whatever its outcome. *)
Lemma update_news (rt : Runtime) (id : Z) (u : NewsAndEvents.UpdateData) (w : World) :
  w_news (fst (NewsAndEvents.update rt id u w)) = w_news w
  \/ exists a,
       NewsAndEvents.update_assignments rt u = Return a
       /\ w_news (fst (NewsAndEvents.update rt id u w))
          = map (fun r => if news_id r =? id then NewsAndEvents.assign_all a r else r)
              (w_news w)
       /\ snd (NewsAndEvents.update rt id u w)
          = Return (find (fun r => news_id r =? id)
                      (map (fun r => if news_id r =? id
                                     then NewsAndEvents.assign_all a r else r)
                         (w_news w))).
Proof.
  unfold NewsAndEvents.update.
  destruct (NewsAndEvents.update_assignments rt u) as [[|cv a]| |]; try (now left).
  destruct (existsb _ _ && NewsAndEvents.violates_category_fk (cv :: a) w);
    [now left|].
  right. exists (cv :: a). repeat split; reflexivity.
Qed.

Lemma update_rest (rt : Runtime) (id : Z) (u : NewsAndEvents.UpdateData) (w : World) :
  w_images (fst (NewsAndEvents.update rt id u w)) = w_images w
  /\ w_files (fst (NewsAndEvents.update rt id u w)) = w_files w
  /\ w_categories (fst (NewsAndEvents.update rt id u w)) = w_categories w.
Proof.
  unfold NewsAndEvents.update.
  destruct (NewsAndEvents.update_assignments rt u) as [[|cv a]| |];
    try (repeat split; reflexivity).
  destruct (existsb _ _ && NewsAndEvents.violates_category_fk (cv :: a) w);
    repeat split; reflexivity.
Qed.

(** X16.  [NewsAndEvents.update] can change only the row with the given id:
    the image table, the files and the categories are left alone, the ids
    of the rows stay as they are in the same order, as do the author and
    the creation time of every row, and every row with another id is
    unchanged. *)
Theorem update_touches_only_its_row :
  forall (rt : Runtime) (id : Z) (u : NewsAndEvents.UpdateData) (w : World),
    w_images (fst (NewsAndEvents.update rt id u w)) = w_images w
    /\ w_files (fst (NewsAndEvents.update rt id u w)) = w_files w
    /\ w_categories (fst (NewsAndEvents.update rt id u w)) = w_categories w
    /\ map news_id (w_news (fst (NewsAndEvents.update rt id u w)))
       = map news_id (w_news w)
    /\ map news_created_by (w_news (fst (NewsAndEvents.update rt id u w)))
       = map news_created_by (w_news w)
    /\ map news_created_at (w_news (fst (NewsAndEvents.update rt id u w)))
       = map news_created_at (w_news w)
    /\ filter (fun r => negb (news_id r =? id))
         (w_news (fst (NewsAndEvents.update rt id u w)))
       = filter (fun r => negb (news_id r =? id)) (w_news w).
Proof.
  intros rt id u w.
  destruct (update_rest rt id u w) as (R1 & R2 & R3).
  split; [exact R1|]. split; [exact R2|]. split; [exact R3|].
  destruct (update_news rt id u w) as [-> | (a & _ & -> & _)];
    [repeat split; reflexivity|].
  induction (w_news w) as [|r l (I1 & I2 & I3 & I4)]; [repeat split; reflexivity|].
  cbn [map filter]. rewrite I1, I2, I3.
  destruct (assign_all_keeps a r) as (A & B & C).
  destruct (news_id r =? id) eqn:E.
  - rewrite A, B, C, E. cbn [negb]. repeat split; auto.
  - rewrite E. cbn [negb]. rewrite I4. repeat split; auto.
Qed.

Lemma find_map_update (id : Z) (g : NewsRow -> NewsRow) (l : list NewsRow) :
  (forall r, news_id (g r) = news_id r) ->
  find (fun r => news_id r =? id) (map (fun r => if news_id r =? id then g r else r) l)
  = option_map g (find (fun r => news_id r =? id) l).
Proof.
  intros Hg. induction l as [|r l IH]; [reflexivity|].
  cbn [map find]. destruct (news_id r =? id) eqn:E.
  - rewrite Hg, E. reflexivity.
  - rewrite E. exact IH.
Qed.

Lemma assign_all_app (a b : list (NewsAndEvents.Column * SqlValue)) (r : NewsRow) :
  NewsAndEvents.assign_all (a ++ b)%list r
  = NewsAndEvents.assign_all b (NewsAndEvents.assign_all a r).
Proof. unfold NewsAndEvents.assign_all. apply fold_left_app. Qed.

Lemma assign_all_push (c : NewsAndEvents.Column) (v : JsVal)
      (acc : list (NewsAndEvents.Column * SqlValue)) (r : NewsRow) :
  NewsAndEvents.assign_all (NewsAndEvents.push_field c v acc) r
  = set_column c v (NewsAndEvents.assign_all acc r).
Proof.
  unfold NewsAndEvents.push_field, set_column.
  destruct (NewsAndEvents.is_undefined v); [reflexivity|].
  now rewrite assign_all_app.
Qed.

(** The row [update] writes, field by field of [updateData]. *)
Lemma update_assignments_row (rt : Runtime) (u : NewsAndEvents.UpdateData)
      (a : list (NewsAndEvents.Column * SqlValue)) (old : NewsRow) :
  NewsAndEvents.update_assignments rt u = Return a ->
  exists dv,
    NewsAndEvents.formatDateTimeForMySQL rt (NewsAndEvents.u_date_time u) = Return dv
    /\ NewsAndEvents.assign_all a old
       = set_column NewsAndEvents.col_status (NewsAndEvents.u_status u)
           (set_column NewsAndEvents.col_date_time dv
              (set_column NewsAndEvents.col_cover_image (NewsAndEvents.u_cover_image u)
                 (set_column NewsAndEvents.col_location (NewsAndEvents.u_location u)
                    (set_column NewsAndEvents.col_description
                       (NewsAndEvents.u_description u)
                       (set_column NewsAndEvents.col_title (NewsAndEvents.u_title u)
                          (set_column NewsAndEvents.col_category_id
                             (NewsAndEvents.u_category_id u) old)))))).
Proof.
  unfold NewsAndEvents.update_assignments. cbv zeta. intros Ha.
  destruct (NewsAndEvents.u_date_time u) as [| | | |x] eqn:Edt;
    cbn [NewsAndEvents.is_undefined NewsAndEvents.formatDateTimeForMySQL andThen] in Ha;
    try discriminate Ha.
  - exists JUndefined. split; [reflexivity|].
    inversion Ha; subst a. now rewrite !assign_all_push.
  - exists JNull. split; [reflexivity|].
    inversion Ha; subst a. rewrite assign_all_push, assign_all_app, !assign_all_push.
    reflexivity.
  - destruct (NewsAndEvents.formatDateTimeForMySQL rt (JStr x)) as [v| |] eqn:Ef.
    + assert (exists out, v = JStr out) as [out ->].
      { unfold NewsAndEvents.formatDateTimeForMySQL, rethrow in Ef.
        break_inner; inversion Ef; eauto. }
      exists (JStr out). split; [reflexivity|].
      unfold NewsAndEvents.formatDateTimeForMySQL in Ef.
      unfold NewsAndEvents.formatDateTimeForMySQL in Ha. rewrite Ef in Ha.
      cbn [andThen] in Ha. inversion Ha; subst a.
      rewrite assign_all_push, assign_all_app, !assign_all_push. reflexivity.
    + unfold NewsAndEvents.formatDateTimeForMySQL in Ef, Ha. rewrite Ef in Ha.
      discriminate Ha.
    + unfold NewsAndEvents.formatDateTimeForMySQL in Ef, Ha. rewrite Ef in Ha.
      discriminate Ha.
Qed.

Lemma set_column_other (c : NewsAndEvents.Column) (v : JsVal) (r : NewsRow) :
  (c <> NewsAndEvents.col_category_id ->
   news_category_id (set_column c v r) = news_category_id r)
  /\ (c <> NewsAndEvents.col_title -> news_title (set_column c v r) = news_title r)
  /\ (c <> NewsAndEvents.col_description ->
      news_description (set_column c v r) = news_description r)
  /\ (c <> NewsAndEvents.col_location ->
      news_location (set_column c v r) = news_location r)
  /\ (c <> NewsAndEvents.col_cover_image ->
      news_cover_image (set_column c v r) = news_cover_image r)
  /\ (c <> NewsAndEvents.col_date_time ->
      news_date_time (set_column c v r) = news_date_time r)
  /\ (c <> NewsAndEvents.col_status -> news_status (set_column c v r) = news_status r).
Proof.
  unfold set_column.
  destruct c, (NewsAndEvents.is_undefined v); repeat split; intros H;
    try reflexivity; now elim H.
Qed.

Ltac skip_columns :=
  repeat match goal with
         | |- context [news_category_id (set_column ?c ?v ?r)] =>
             rewrite (proj1 (set_column_other c v r)) by discriminate
         | |- context [news_title (set_column ?c ?v ?r)] =>
             rewrite (proj1 (proj2 (set_column_other c v r))) by discriminate
         | |- context [news_description (set_column ?c ?v ?r)] =>
             rewrite (proj1 (proj2 (proj2 (set_column_other c v r)))) by discriminate
         | |- context [news_location (set_column ?c ?v ?r)] =>
             rewrite (proj1 (proj2 (proj2 (proj2 (set_column_other c v r)))))
               by discriminate
         | |- context [news_cover_image (set_column ?c ?v ?r)] =>
             rewrite (proj1 (proj2 (proj2 (proj2 (proj2 (set_column_other c v r))))))
               by discriminate
         | |- context [news_date_time (set_column ?c ?v ?r)] =>
             rewrite (proj1 (proj2 (proj2 (proj2 (proj2 (proj2
                        (set_column_other c v r))))))) by discriminate
         | |- context [news_status (set_column ?c ?v ?r)] =>
             rewrite (proj2 (proj2 (proj2 (proj2 (proj2 (proj2
                        (set_column_other c v r))))))) by discriminate
         end.

(** X17.  [NewsAndEvents.update] is a partial update: the row it returns is
    the row that had the id, in which every column whose field was not
    given keeps its value, a nullable text column holds the string or NULL
    it was given, title, category and status hold the string or number
    they were given, and the date holds the fixed-width conversion of the
    string that was given. *)
Theorem update_sets_exactly_the_given_fields :
  forall (rt : Runtime) (id : Z) (u : NewsAndEvents.UpdateData) (w : World) (r : NewsRow),
    snd (NewsAndEvents.update rt id u w) = Return (Some r) ->
    exists old,
      snd (NewsAndEvents.findById id w) = Some old
      /\ news_id r = id
      /\ match NewsAndEvents.u_category_id u with
         | JUndefined => news_category_id r = news_category_id old
         | JNum n => news_category_id r = n
         | _ => True
         end
      /\ match NewsAndEvents.u_title u with
         | JUndefined => news_title r = news_title old
         | JStr s => news_title r = s
         | _ => True
         end
      /\ nullable_column_after (NewsAndEvents.u_description u)
           (news_description old) (news_description r)
      /\ nullable_column_after (NewsAndEvents.u_location u)
           (news_location old) (news_location r)
      /\ nullable_column_after (NewsAndEvents.u_cover_image u)
           (news_cover_image old) (news_cover_image r)
      /\ match NewsAndEvents.u_date_time u with
         | JUndefined => news_date_time r = news_date_time old
         | JStr s =>
             NewsAndEvents.formatDateTimeForMySQL rt (JStr s)
             = Return (JStr (news_date_time r))
             /\ mysql_datetime_re (news_date_time r) = true
         | _ => True
         end
      /\ nullable_column_after (NewsAndEvents.u_status u)
           (news_status old) (news_status r).
Proof.
  intros rt id u w r H.
  assert (Hfind : exists old a,
             NewsAndEvents.update_assignments rt u = Return a
             /\ find (fun r => news_id r =? id) (w_news w) = Some old
             /\ r = NewsAndEvents.assign_all a old).
  { unfold NewsAndEvents.update in H.
    destruct (NewsAndEvents.update_assignments rt u) as [[|cv a]| |] eqn:Ea;
      try discriminate H.
    - cbn in H. inversion H as [Hf]. exists r, []. repeat split; auto.
    - destruct (existsb _ _ && NewsAndEvents.violates_category_fk (cv :: a) w);
        [discriminate H|].
      cbn [snd NewsAndEvents.findById w_news set_news emit] in H.
      rewrite find_map_update in H by (intros x; apply assign_all_keeps).
      destruct (find (fun r => news_id r =? id) (w_news w)) as [old|];
        [|discriminate H].
      inversion H. exists old, (cv :: a). repeat split; auto. }
  destruct Hfind as (old & a & Ha & Hold & ->).
  exists old. split; [exact Hold|].
  split.
  { destruct (assign_all_keeps a old) as (-> & _).
    apply find_some in Hold. now apply Z.eqb_eq. }
  clear Hold H.
  destruct (update_assignments_row rt u a old Ha) as (dv & Hdv & ->). clear Ha.
  refine (conj _ (conj _ (conj _ (conj _ (conj _ (conj _ _)))))).
  - skip_columns. destruct (NewsAndEvents.u_category_id u); try exact I; reflexivity.
  - skip_columns. destruct (NewsAndEvents.u_title u); try exact I;
      cbn; skip_columns; reflexivity.
  - skip_columns. destruct (NewsAndEvents.u_description u); cbn; try exact I;
      skip_columns; reflexivity.
  - skip_columns. destruct (NewsAndEvents.u_location u); cbn; try exact I;
      skip_columns; reflexivity.
  - skip_columns. destruct (NewsAndEvents.u_cover_image u); cbn; try exact I;
      skip_columns; reflexivity.
  - skip_columns. destruct (NewsAndEvents.u_date_time u) as [| | | |x]; try exact I.
    + cbn in Hdv. inversion Hdv; subst dv. cbn. skip_columns. reflexivity.
    + assert (exists out, dv = JStr out) as [out ->].
      { unfold NewsAndEvents.formatDateTimeForMySQL, rethrow in Hdv.
        break_inner; inversion Hdv; eauto. }
      cbn [set_column NewsAndEvents.is_undefined NewsAndEvents.assign fst snd
           news_date_time NewsAndEvents.js_to_sql NewsAndEvents.sql_to_text].
      split; [exact Hdv|].
      exact (formatDateTimeForMySQL_fixed_width rt (JStr x) out Hdv).
  - destruct (NewsAndEvents.u_status u); cbn; try exact I; skip_columns; reflexivity.
Qed.

Lemma update_sets_exactly_the_given_fields_witness :
  exists old,
    snd (NewsAndEvents.findById 1 Sample.world) = Some old
    /\ news_id Fixtures.news1_retitled = 1
    /\ news_category_id Fixtures.news1_retitled = news_category_id old
    /\ news_title Fixtures.news1_retitled = "Reopening"
    /\ news_description Fixtures.news1_retitled = news_description old
    /\ news_location Fixtures.news1_retitled = news_location old
    /\ news_cover_image Fixtures.news1_retitled = None
    /\ news_date_time Fixtures.news1_retitled = news_date_time old
    /\ news_status Fixtures.news1_retitled = news_status old.
Proof.
  exact (update_sets_exactly_the_given_fields Sample.rt 1 Fixtures.retitle Sample.world
           Fixtures.news1_retitled eq_refl).
Defined.

Lemma find_app_fresh (id : Z) (l : list NewsRow) (row : NewsRow) :
  existsb (fun r => news_id r =? id) l = false ->
  news_id row = id ->
  find (fun r => news_id r =? id) (l ++ [row]) = Some row.
Proof.
  intros Hf Hid. induction l as [|x l IH].
  - cbn. now rewrite Hid, Z.eqb_refl.
  - cbn [existsb] in Hf. apply orb_false_elim in Hf. destruct Hf as [Hx Hl].
    cbn [app find]. rewrite Hx. auto.
Qed.

(** The ways [create] can end. *)
Lemma create_cases (rt : Runtime) (insertId : Z) (d : NewsAndEventsWrite.CreateData)
      (w : World) :
  (w_news (fst (NewsAndEventsWrite.create rt insertId d w)) = w_news w
   /\ w_images (fst (NewsAndEventsWrite.create rt insertId d w)) = w_images w
   /\ w_files (fst (NewsAndEventsWrite.create rt insertId d w)) = w_files w
   /\ forall r, snd (NewsAndEventsWrite.create rt insertId d w) <> Return r)
  \/ exists out c,
       truthy (NewsAndEventsWrite.n_date_time d) = true
       /\ NewsAndEvents.formatDateTimeForMySQL rt (NewsAndEventsWrite.n_date_time d)
          = Return (JStr out)
       /\ NewsAndEvents.sql_to_int
            (NewsAndEvents.js_to_sql (NewsAndEventsWrite.n_category_id d)) = Some c
       /\ existsb (Z.eqb c) (w_categories w) = true
       /\ existsb (fun r => news_id r =? insertId) (w_news w) = false
       /\ w_news (fst (NewsAndEventsWrite.create rt insertId d w))
          = (w_news w ++ [NewsAndEventsWrite.inserted_row insertId d (JStr out) w])%list
       /\ w_images (fst (NewsAndEventsWrite.create rt insertId d w)) = w_images w
       /\ w_files (fst (NewsAndEventsWrite.create rt insertId d w)) = w_files w
       /\ snd (NewsAndEventsWrite.create rt insertId d w)
          = Return (Some (NewsAndEventsWrite.inserted_row insertId d (JStr out) w)).
Proof.
  unfold NewsAndEventsWrite.create.
  destruct (truthy (NewsAndEventsWrite.n_date_time d)) eqn:Ht; cbn [negb];
    [|left; repeat split; auto; discriminate].
  destruct (NewsAndEvents.formatDateTimeForMySQL rt (NewsAndEventsWrite.n_date_time d))
    as [v| |] eqn:Ef; [|left; repeat split; auto; discriminate ..].
  assert (exists out, v = JStr out) as [out ->].
  { unfold NewsAndEvents.formatDateTimeForMySQL, rethrow in Ef.
    destruct (NewsAndEventsWrite.n_date_time d); try discriminate Ht;
      break_inner; inversion Ef; eauto. }
  cbv zeta.
  destruct (existsb NewsAndEvents.is_undefined _);
    [left; repeat split; auto; discriminate|].
  destruct (NewsAndEvents.sql_to_int _) as [c|] eqn:Ec;
    [|left; repeat split; auto; discriminate].
  destruct (NewsAndEvents.sql_to_text _) as [t|];
    [|left; repeat split; auto; discriminate].
  destruct (existsb (Z.eqb c) (w_categories w)) eqn:Hc; cbn [negb];
    [|left; repeat split; auto; discriminate].
  destruct (existsb (fun r => news_id r =? insertId) (w_news w)) eqn:Hi;
    [left; repeat split; auto; discriminate|].
  right. exists out, c.
  cbn [NewsAndEvents.findById fst snd w_news w_images w_files emit
       NewsAndEventsWrite.add_news set_news].
  rewrite (find_app_fresh insertId (w_news w)) by (auto; reflexivity).
  repeat split; auto.
Qed.

(** X18.  A write of the model that fails leaves the tables and the files as
    they were: when [create] or [update] does not return, no row of the
    item table or of the image table has changed. *)
Theorem failed_write_changes_nothing :
  forall (rt : Runtime) (id insertId : Z) (u : NewsAndEvents.UpdateData)
         (d : NewsAndEventsWrite.CreateData) (w : World),
    ((forall r, snd (NewsAndEvents.update rt id u w) <> Return r) ->
     w_news (fst (NewsAndEvents.update rt id u w)) = w_news w
     /\ w_images (fst (NewsAndEvents.update rt id u w)) = w_images w
     /\ w_files (fst (NewsAndEvents.update rt id u w)) = w_files w)
    /\ ((forall r, snd (NewsAndEventsWrite.create rt insertId d w) <> Return r) ->
        w_news (fst (NewsAndEventsWrite.create rt insertId d w)) = w_news w
        /\ w_images (fst (NewsAndEventsWrite.create rt insertId d w)) = w_images w
        /\ w_files (fst (NewsAndEventsWrite.create rt insertId d w)) = w_files w)
    /\ (forall m, snd (NewsAndEvents.update rt id u w) = Throw m ->
                  fst (NewsAndEvents.update rt id u w) = w)
    /\ (forall m, snd (NewsAndEventsWrite.create rt insertId d w) = Throw m ->
                  fst (NewsAndEventsWrite.create rt insertId d w) = w).
Proof.
  intros rt id insertId u d w. refine (conj _ (conj _ (conj _ _))).
  - intros Hn. destruct (update_rest rt id u w) as (R1 & R2 & _).
    split; [|split; assumption].
    destruct (update_news rt id u w) as [E | (a & _ & _ & E)]; [exact E|].
    now elim (Hn _ E).
  - intros Hn.
    destruct (create_cases rt insertId d w)
      as [(A & B & C & _) | (out & c & _ & _ & _ & _ & _ & _ & _ & _ & E)];
      [auto | now elim (Hn _ E)].
  - intros m. unfold NewsAndEvents.update.
    destruct (NewsAndEvents.update_assignments rt u) as [[|cv a]| |];
      cbn [fst snd]; try discriminate; try reflexivity.
    destruct (existsb _ _ && NewsAndEvents.violates_category_fk (cv :: a) w);
      cbn [fst snd]; discriminate.
  - intros m. unfold NewsAndEventsWrite.create.
    break_inner; cbn [fst snd]; try discriminate; reflexivity.
Qed.

(** X19.  When [create] returns, it returns the row it has added at the end
    of the table: the row has the id the engine assigned, which no other
    row has, its category exists, its date is the fixed-width conversion
    of the date that was given, its status is the one given and active
    when none was given, and its cover image is the non-empty string that
    was given and NULL when none was. *)
Theorem create_stores_the_new_row :
  forall (rt : Runtime) (insertId : Z) (d : NewsAndEventsWrite.CreateData) (w : World)
         (r : option NewsRow),
    snd (NewsAndEventsWrite.create rt insertId d w) = Return r ->
    exists row,
      r = Some row
      /\ w_news (fst (NewsAndEventsWrite.create rt insertId d w))
         = (w_news w ++ [row])%list
      /\ news_id row = insertId
      /\ (forall x, In x (w_news w) -> news_id x <> insertId)
      /\ In (news_category_id row) (w_categories w)
      /\ NewsAndEvents.formatDateTimeForMySQL rt (NewsAndEventsWrite.n_date_time d)
         = Return (JStr (news_date_time row))
      /\ mysql_datetime_re (news_date_time row) = true
      /\ match NewsAndEventsWrite.n_status d with
         | JUndefined => news_status row = Some "active"
         | JStr s => news_status row = Some s
         | _ => True
         end
      /\ match NewsAndEventsWrite.n_cover_image d with
         | JUndefined | JNull | JStr "" => news_cover_image row = None
         | JStr s => news_cover_image row = Some s
         | _ => True
         end
      /\ news_created_at row = w_now w.
Proof.
  intros rt insertId d w r H.
  destruct (create_cases rt insertId d w)
    as [(_ & _ & _ & Hn) | (out & c & Ht & Ef & Ec & Hc & Hi & Hw & _ & _ & E)];
    [now elim (Hn r)|].
  rewrite E in H. inversion H; subst r. clear H.
  exists (NewsAndEventsWrite.inserted_row insertId d (JStr out) w).
  split; [reflexivity|]. split; [exact Hw|]. split; [reflexivity|].
  split.
  { intros x Hx Hid.
    assert (existsb (fun r => news_id r =? insertId) (w_news w) = true); [|congruence].
    apply existsb_exists. exists x. split; [exact Hx | now apply Z.eqb_eq]. }
  split.
  { cbn [NewsAndEventsWrite.inserted_row news_category_id]. rewrite Ec.
    apply existsb_exists in Hc. destruct Hc as (x & Hx & Hxc).
    apply Z.eqb_eq in Hxc. now subst. }
  split; [exact Ef|].
  split; [exact (formatDateTimeForMySQL_fixed_width rt _ out Ef)|].
  split.
  { cbn [NewsAndEventsWrite.inserted_row news_status].
    destruct (NewsAndEventsWrite.n_status d); try exact I; reflexivity. }
  split; [|reflexivity].
  cbn [NewsAndEventsWrite.inserted_row news_cover_image].
  destruct (NewsAndEventsWrite.n_cover_image d) as [| | | |[|a s]]; try exact I;
    reflexivity.
Qed.

Lemma create_stores_the_new_row_witness :
  exists row,
    Some Fixtures.news3 = Some row
    /\ w_news (fst (NewsAndEventsWrite.create Sample.rt 3 Fixtures.new_item Sample.world))
       = (w_news Sample.world ++ [row])%list
    /\ news_id row = 3
    /\ (forall x, In x (w_news Sample.world) -> news_id x <> 3)
    /\ In (news_category_id row) (w_categories Sample.world)
    /\ NewsAndEvents.formatDateTimeForMySQL Sample.rt (JStr "2026-01-10 10:00:00")
       = Return (JStr (news_date_time row))
    /\ mysql_datetime_re (news_date_time row) = true
    /\ news_status row = Some "active"
    /\ news_cover_image row = Some "/cover-images/c3.png"
    /\ news_created_at row = w_now Sample.world.
Proof.
  exact (create_stores_the_new_row Sample.rt 3 Fixtures.new_item Sample.world
           (Some Fixtures.news3) eq_refl).
Defined.

(* ===================================================================== *)
(** * Reading back a number that was written in decimal                   *)
(* ===================================================================== *)

Lemma read_digits_acc (d : Decimal.uint) (p : positive) :
  read_digits 10 (NilEmpty.string_of_uint d) (Some (Z.pos p))
  = Some (Z.pos (Pos.of_uint_acc d p)).
Proof.
  revert p. induction d; intros p; cbn [NilEmpty.string_of_uint read_digits Pos.of_uint_acc];
    try reflexivity;
    match goal with
    | |- context [digit_val ?c] =>
        let v := eval vm_compute in (digit_val c) in
        change (digit_val c) with v; cbv beta iota
    end;
    match goal with
    | |- context [?a <? 10] =>
        change (a <? 10) with true; cbv beta iota
    end;
    rewrite <- IHd; do 2 f_equal; lia.
Qed.

Lemma read_digits_zero (d : Decimal.uint) :
  read_digits 10 (NilEmpty.string_of_uint d) (Some 0)
  = Some (Z.of_N (Pos.of_uint d)).
Proof.
  induction d; cbn [NilEmpty.string_of_uint read_digits Pos.of_uint];
    try reflexivity;
    match goal with
    | |- context [digit_val ?c] =>
        let v := eval vm_compute in (digit_val c) in
        change (digit_val c) with v; cbv beta iota
    end;
    match goal with
    | |- context [?a <? 10] =>
        change (a <? 10) with true; cbv beta iota
    end;
    try exact IHd;
    cbn [Z.mul Z.add Z.of_N]; apply read_digits_acc.
Qed.

Lemma read_digits_start (d : Decimal.uint) :
  d <> Decimal.Nil ->
  read_digits 10 (NilEmpty.string_of_uint d) None
  = Some (Z.of_N (Pos.of_uint d)).
Proof.
  intros Hd. rewrite <- read_digits_zero.
  destruct d; [now elim Hd | reflexivity ..].
Qed.

(** A string that begins with a byte no white space begins with has
    nothing to trim at its start. *)
Lemma strip_any_first_byte (ps : list string) (c : ascii) (r : string) :
  existsb (fun p => match p with
                    | String a _ => Ascii.eqb a c
                    | EmptyString => true
                    end) ps = false ->
  strip_any ps (String c r) = None.
Proof.
  induction ps as [|p ps IH]; [reflexivity|].
  cbn [existsb strip_any]. intros H. apply orb_false_iff in H. destruct H as [Hp H].
  destruct p as [|a p]; [discriminate|].
  cbn [strip_prefix]. rewrite Hp. apply IH, H.
Qed.

Lemma trimStart_first_byte (c : ascii) (r : string) :
  existsb (fun p => match p with
                    | String a _ => Ascii.eqb a c
                    | EmptyString => true
                    end) white_space = false ->
  trimStart (String c r) = String c r.
Proof.
  intros H. unfold trimStart. cbn [String.length strip_all].
  now rewrite strip_any_first_byte.
Qed.

Lemma parseInt_string_uint (d : Decimal.uint) :
  d <> Decimal.Nil ->
  parseInt_string (NilEmpty.string_of_uint d) (Some 10)
  = Some (double (Z.of_N (Pos.of_uint d))).
Proof.
  intros Hd. pose proof (read_digits_start d Hd) as H.
  destruct d; [now elim Hd | ..];
    cbn [NilEmpty.string_of_uint] in *; unfold parseInt_string;
    rewrite trimStart_first_byte by reflexivity; cbv beta iota;
    rewrite H; do 2 f_equal; lia.
Qed.

(** Reading the decimal digits of an integer gives the double nearest to
    it. *)
Lemma parseInt_string_Z_to_string (n : Z) :
  parseInt_string (Z_to_string n) (Some 10) = Some (double n).
Proof.
  unfold Z_to_string.
  destruct n as [|p|p]; [reflexivity | |];
    cbn [Z.to_int NilZero.string_of_int]; unfold NilZero.string_of_uint;
    pose proof (DecimalPos.Unsigned.to_uint_nonnil p) as Hn;
    pose proof (DecimalPos.Unsigned.of_to p) as Hp;
    destruct (Pos.to_uint p) as [| | | | | | | | | | ] eqn:E; try (now elim Hn).
  all: try (rewrite parseInt_string_uint by discriminate; rewrite Hp; reflexivity).
  all: pose proof (read_digits_start _ Hn) as Hr; rewrite Hp in Hr;
    unfold parseInt_string; rewrite trimStart_first_byte by reflexivity;
    cbv beta iota; cbn [NilEmpty.string_of_uint] in Hr |- *; rewrite Hr; reflexivity.
Qed.

(** Reading a number below 2^53 back from what [String] prints of it
    gives the number. *)
Lemma parseInt_JNum (n : Z) :
  Z.abs n < 2 ^ 53 -> parseInt (JNum n) (Some 10) = Some n.
Proof.
  intros Hsmall.
  unfold parseInt, to_string. rewrite (number_to_string_small n Hsmall).
  rewrite parseInt_string_Z_to_string. now rewrite double_small.
Qed.

(* ===================================================================== *)
(** * The listing handler                                                 *)
(* ===================================================================== *)

Lemma findAll_reads_news (rt : Runtime) (f : Filters) (w w' : World) :
  w_news w' = w_news w ->
  snd (NewsAndEvents.findAll rt f w') = snd (NewsAndEvents.findAll rt f w).
Proof.
  intros H. unfold NewsAndEvents.findAll.
  destruct (NewsAndEvents.findAll_query rt f); cbn [snd]; try reflexivity.
  unfold select_news. now rewrite H.
Qed.

(** X20.  A successful answer of the admin listing, on the validated model,
    shows the page that was asked for: the current page is at least 1,
    the page size lies between 1 and 100, and, when the position
    (page - 1) * size is below 2^53, the items are the rows of the listing
    without paging from that position on, at most size of them; the total
    is not negative, the number of pages is the total divided by the size,
    rounded up, and there is a previous page exactly from page 2 on and a
    next page exactly below the last page, page numbers being rounded as
    numbers are. *)
Theorem listing_shows_the_requested_page :
  forall (rt : Runtime) (query : ListQuery) (w : World),
    status (snd (Controller.getAllNewsAndEvents rt (NewsAndEvents.findAll rt) query w))
    = 200 ->
    exists views p all,
      data (snd (Controller.getAllNewsAndEvents rt (NewsAndEvents.findAll rt) query w))
      = ListData views p
      /\ 1 <= currentPage p
      /\ 1 <= itemsPerPage p <= 100
      /\ snd (NewsAndEvents.findAll rt
                {| f_category_id := query_category_id query;
                   f_status := query_status query;
                   f_search := query_search query;
                   f_date_from := query_date_from query;
                   f_date_to := query_date_to query;
                   f_limit := JUndefined; f_offset := JUndefined |} w) = Return all
      /\ ((currentPage p - 1) * itemsPerPage p < 2 ^ 53 ->
          map v_row views
          = firstn (Z.to_nat (itemsPerPage p))
              (skipn (Z.to_nat ((currentPage p - 1) * itemsPerPage p)) all))
      /\ Z.of_nat (List.length views) <= itemsPerPage p
      /\ 0 <= totalItems p
      /\ totalPages p = (totalItems p + itemsPerPage p - 1) / itemsPerPage p
      /\ (prevPage p = if 1 <? currentPage p
                       then Some (double (currentPage p - 1)) else None)
      /\ (nextPage p = if currentPage p <? totalPages p
                       then Some (double (currentPage p + 1)) else None).
Proof.
  intros rt query w. unfold Controller.getAllNewsAndEvents.
  set (page := Controller.parseInt_or (query_page query) 1).
  set (limit := Controller.parseInt_or (query_limit query) 10).
  cbv zeta.
  destruct (Z.ltb_spec page 1) as [|Hp]; [discriminate|].
  destruct (Z.ltb_spec limit 1) as [|Hl1]; [discriminate|].
  destruct (limit >? 100) eqn:Hl2; [discriminate|]. cbn [orb].
  assert (Hl100 : limit <= 100) by (rewrite Z.gtb_ltb in Hl2; apply Z.ltb_ge in Hl2; lia).
  clear Hl2.
  unfold Controller.list_with.
  set (offset := double (double (page - 1) * limit)).
  set (filters := {| f_category_id := query_category_id query;
                     f_status := query_status query;
                     f_search := query_search query;
                     f_date_from := query_date_from query;
                     f_date_to := query_date_to query;
                     f_limit := JNum limit;
                     f_offset := JNum offset |}).
  cbn [f_category_id f_status f_search f_date_from f_date_to].
  destruct (NewsAndEvents.count rt _ w) as [w1 totalCount] eqn:Ec.
  assert (Hcount : 0 <= totalCount /\ w_news w1 = w_news w).
  { unfold NewsAndEvents.count in Ec. inversion Ec. split; [lia | reflexivity]. }
  destruct Hcount as [Hc0 Hw1].
  pose proof (findAll_reads_news rt filters w w1 Hw1) as Hsame.
  destruct (NewsAndEvents.findAll rt filters w1) as [w2 [rows| |]] eqn:Hf;
    cbn [snd] in Hsame.
  - destruct (Controller.with_images rt rows w2) as [w3 views] eqn:Hv.
    cbn [snd status data respond]. intros _.
    pose proof (with_images_rows rt rows w2) as Hrows. rewrite Hv in Hrows.
    cbn [snd] in Hrows.
    destruct (listing_page rt filters w rows (eq_sym Hsame) eq_refl)
      as (all & limit' & offset' & Hall & Hpl & _ & Hoff & _ & Hslice & _).
    change (f_limit filters) with (JNum limit) in Hpl.
    assert (Hlimit : Z.abs limit < 2 ^ 53).
    { rewrite Z.abs_eq by (eapply Z.le_trans; [|exact Hl1]; discriminate).
      eapply Z.le_lt_trans; [exact Hl100 | reflexivity]. }
    rewrite (parseInt_JNum limit Hlimit) in Hpl.
    replace limit' with limit in * by congruence. clear Hpl.
    rewrite (printed_small limit Hlimit) in Hslice.
    destruct Hoff as [[Hoff _] | [_ Hoff]]; [discriminate Hoff|].
    change (f_offset filters) with (JNum offset) in Hoff.
    assert (Hlen : Z.of_nat (List.length rows) <= limit).
    { rewrite Hslice.
      pose proof (firstn_le_length (Z.to_nat limit)
                    (skipn (Z.to_nat (printed offset')) all)) as Hle.
      apply Nat2Z.inj_le in Hle. rewrite Z2Nat.id in Hle; [exact Hle|].
      eapply Z.le_trans; [|exact Hl1]. discriminate. }
    eexists views, _, all. split; [reflexivity|].
    cbn [currentPage itemsPerPage totalItems totalPages prevPage nextPage
         hasNext hasPrev].
    split; [exact Hp|]. split; [split; assumption|]. split; [exact Hall|].
    split.
    { intros Hsmall.
      assert (H1 : Z.abs (page - 1) < 2 ^ 53).
      { rewrite Z.abs_eq by (apply Z.le_0_sub; exact Hp).
        eapply Z.le_lt_trans; [|exact Hsmall].
        rewrite <- (Z.mul_1_r (page - 1)) at 1.
        apply Z.mul_le_mono_nonneg_l; [apply Z.le_0_sub; exact Hp | exact Hl1]. }
      assert (H2 : Z.abs ((page - 1) * limit) < 2 ^ 53).
      { rewrite Z.abs_eq; [exact Hsmall|].
        apply Z.mul_nonneg_nonneg; [apply Z.le_0_sub; exact Hp|].
        eapply Z.le_trans; [|exact Hl1]. discriminate. }
      assert (Ho : offset = (page - 1) * limit).
      { unfold offset. rewrite (double_small (page - 1) H1).
        apply double_small, H2. }
      rewrite Ho in Hoff. rewrite (parseInt_JNum _ H2) in Hoff.
      replace offset' with ((page - 1) * limit) in * by congruence.
      rewrite (printed_small _ H2) in Hslice.
      rewrite Hrows. exact Hslice. }
    split; [rewrite <- (length_map v_row), Hrows; exact Hlen|].
    split; [exact Hc0|]. split; [reflexivity|].
    split.
    + rewrite Z.gtb_ltb. reflexivity.
    + reflexivity.
  - cbn [snd]. rewrite status_next_error. discriminate.
  - cbn [snd]. rewrite status_next_error. discriminate.
Qed.

Lemma listing_shows_the_requested_page_witness :
  exists views p all,
    data (snd (Controller.getAllNewsAndEvents Sample.rt (NewsAndEvents.findAll Sample.rt)
                 Sample.no_query Sample.world))
    = ListData views p
    /\ 1 <= currentPage p
    /\ 1 <= itemsPerPage p <= 100
    /\ snd (NewsAndEvents.findAll Sample.rt
              {| f_category_id := query_category_id Sample.no_query;
                 f_status := query_status Sample.no_query;
                 f_search := query_search Sample.no_query;
                 f_date_from := query_date_from Sample.no_query;
                 f_date_to := query_date_to Sample.no_query;
                 f_limit := JUndefined; f_offset := JUndefined |} Sample.world)
       = Return all
    /\ (currentPage p - 1) * itemsPerPage p < 2 ^ 53
    /\ map v_row views
       = firstn (Z.to_nat (itemsPerPage p))
           (skipn (Z.to_nat ((currentPage p - 1) * itemsPerPage p)) all)
    /\ Z.of_nat (List.length views) <= itemsPerPage p
    /\ 0 <= totalItems p
    /\ totalPages p = (totalItems p + itemsPerPage p - 1) / itemsPerPage p
    /\ (prevPage p = if 1 <? currentPage p
                     then Some (double (currentPage p - 1)) else None)
    /\ (nextPage p = if currentPage p <? totalPages p
                     then Some (double (currentPage p + 1)) else None).
Proof.
  destruct (listing_shows_the_requested_page Sample.rt Sample.no_query Sample.world
              eq_refl)
    as (views & p & all & Hd & Hc & Hi & Ha & Hs & Hrest).
  exists views, p, all.
  assert (Hp : p = {| currentPage := 1; totalPages := 1; totalItems := 2;
                      itemsPerPage := 10; hasNext := false; hasPrev := false;
                      nextPage := None; prevPage := None |}).
  { vm_compute in Hd. congruence. }
  assert (Hsmall : (currentPage p - 1) * itemsPerPage p < 2 ^ 53)
    by (rewrite Hp; reflexivity).
  split; [exact Hd|]. split; [exact Hc|]. split; [exact Hi|]. split; [exact Ha|].
  split; [exact Hsmall|]. split; [exact (Hs Hsmall)|]. exact Hrest.
Defined.

(* ===================================================================== *)
(** * The handlers for one item                                           *)
(* ===================================================================== *)

(** What [getRelativePath] returns, it returns again when given it. *)
Lemma getRelativePath_stable (rt : Runtime) (x : option string) (t c : string) :
  getRelativePath rt x t = Some c -> getRelativePath rt (Some c) t = Some c.
Proof.
  destruct x as [[|a s]|]; try discriminate.
  rewrite getRelativePath_cons.
  destruct (is_http (String a s)) eqn:Hh.
  - destruct (URL_pathname rt (String a s)) as [urlPath|] eqn:Hu.
    + destruct (match_uploads urlPath) as [[m1 m2]|] eqn:Hm.
      * apply match_uploads_dir in Hm. intros H; inversion H; subst c.
        apply getRelativePath_relative.
        destruct Hm as [-> | ->];
          [apply (is_relative_cover m2) | apply (is_relative_news m2)].
      * intros H; inversion H; subst c.
        rewrite getRelativePath_cons, Hh, Hu, Hm. reflexivity.
    + intros H; inversion H; subst c.
      rewrite getRelativePath_cons, Hh, Hu. reflexivity.
  - destruct (is_relative (String a s)) eqn:Hr.
    + intros H; inversion H; subst c.
      rewrite getRelativePath_cons, Hh, Hr. reflexivity.
    + destruct (String.eqb t "cover") eqn:Hc.
      * intros H; inversion H; subst c.
        apply getRelativePath_relative, is_relative_cover.
      * destruct (String.eqb t "news") eqn:Hn.
        -- intros H; inversion H; subst c.
           apply getRelativePath_relative, is_relative_news.
        -- intros H; inversion H; subst c.
           rewrite getRelativePath_cons, Hh, Hr, Hc, Hn. reflexivity.
Qed.

Lemma find_none_iff (id : Z) (l : list NewsRow) :
  find (fun r => news_id r =? id) l = None
  <-> forall r, In r l -> news_id r <> id.
Proof.
  split.
  - intros H r Hin. apply (find_none _ _ H) in Hin. now apply Z.eqb_neq.
  - intros H. induction l as [|x l IH]; [reflexivity|].
    cbn [find]. replace (news_id x =? id) with false.
    + apply IH. intros r Hr. apply H. now right.
    + symmetry. apply Z.eqb_neq. apply H. now left.
Qed.

(** X21.  The admin handler for one item reads and never writes: tables and
    files are as before; it answers 404 exactly when no row has the id and
    200 otherwise, showing the first row with the id, whatever its
    status; and for an active item it shows what the public handler
    shows. *)
Theorem getNewsAndEventsById_reads_any_item :
  forall (rt : Runtime) (id : Z) (w : World),
    w_news (fst (ControllerMore.getNewsAndEventsById rt id w)) = w_news w
    /\ w_images (fst (ControllerMore.getNewsAndEventsById rt id w)) = w_images w
    /\ w_files (fst (ControllerMore.getNewsAndEventsById rt id w)) = w_files w
    /\ ((forall r, In r (w_news w) -> news_id r <> id) ->
        snd (ControllerMore.getNewsAndEventsById rt id w)
        = respond 404 false "News and events not found" NoData)
    /\ (forall item,
          find (fun r => news_id r =? id) (w_news w) = Some item ->
          status (snd (ControllerMore.getNewsAndEventsById rt id w)) = 200
          /\ exists v,
               data (snd (ControllerMore.getNewsAndEventsById rt id w)) = ItemData v
               /\ v_row v = item
               /\ v_images v
                  = map (fun img => getRelativePath rt (Some (image_url img)) "news")
                      (snd (NewsAndEventsImage.findByNewsAndEventsId id w))
               /\ (news_status item = Some "active" ->
                   data (snd (Controller.getActiveNewsAndEventsById rt id w))
                   = ItemData v)).
Proof.
  intros rt id w. unfold ControllerMore.getNewsAndEventsById.
  change (NewsAndEvents.findById id w)
    with (emit (DbExecute NewsAndEvents.select_by_id [SqlInt id]) w,
          find (fun r => news_id r =? id) (w_news w)).
  destruct (find (fun r => news_id r =? id) (w_news w)) as [item|] eqn:Hf.
  - cbn [fst snd NewsAndEventsImage.findByNewsAndEventsId w_news w_images w_files emit].
    refine (conj eq_refl (conj eq_refl (conj eq_refl (conj _ _)))).
    + intros Hn. apply find_none_iff in Hn. congruence.
    + intros item' H. inversion H; subst item'. split; [reflexivity|].
      eexists. split; [reflexivity|]. split; [reflexivity|]. split; [reflexivity|].
      intros Ha. unfold Controller.getActiveNewsAndEventsById, NewsAndEvents.findById.
      rewrite Hf. unfold Controller.status_is_active. rewrite Ha. reflexivity.
  - cbn [fst snd w_news w_images w_files emit].
    refine (conj eq_refl (conj eq_refl (conj eq_refl (conj _ _)))).
    + intros _. reflexivity.
    + intros item H. discriminate H.
Qed.

Lemma deleteFiles_frame (rt : Runtime) (urls : list (option string)) (t : string)
      (w : World) :
  w_news (deleteFiles rt urls t w) = w_news w
  /\ w_images (deleteFiles rt urls t w) = w_images w
  /\ (forall g, existsSync (deleteFiles rt urls t w) g = true -> existsSync w g = true).
Proof.
  revert w. induction urls as [|u urls IH]; intros w; [repeat split; auto|].
  cbn [deleteFiles].
  destruct (IH (fst (deleteFile rt u t w))) as (I1 & I2 & I3).
  destruct (deleteFile_frame rt u t w) as (D1 & D2 & D3 & _).
  split; [congruence|]. split; [congruence|]. auto.
Qed.

(** X22.  Deleting an item: the handler answers 404 and changes nothing (no
    row, no file) when no row has the id; otherwise it answers 200, the
    row and all image rows of the item are gone, every other row of both
    tables is kept, no file is created, and asking for the item afterwards
    gives 404.  The answer 400 never occurs. *)
Theorem deleteNewsAndEvents_removes_item_and_images :
  forall (rt : Runtime) (id : Z) (w : World),
    ((forall r, In r (w_news w) -> news_id r <> id) ->
     snd (ControllerMore.deleteNewsAndEvents rt id w)
     = respond 404 false "News and events not found" NoData
     /\ w_news (fst (ControllerMore.deleteNewsAndEvents rt id w)) = w_news w
     /\ w_images (fst (ControllerMore.deleteNewsAndEvents rt id w)) = w_images w
     /\ w_files (fst (ControllerMore.deleteNewsAndEvents rt id w)) = w_files w)
    /\ ((exists r, In r (w_news w) /\ news_id r = id) ->
        snd (ControllerMore.deleteNewsAndEvents rt id w)
        = respond 200 true "News and events deleted successfully" NoData
        /\ w_news (fst (ControllerMore.deleteNewsAndEvents rt id w))
           = filter (fun r => negb (news_id r =? id)) (w_news w)
        /\ w_images (fst (ControllerMore.deleteNewsAndEvents rt id w))
           = filter (fun r => negb (img_news_and_events_id r =? id)) (w_images w)
        /\ (forall g, existsSync (fst (ControllerMore.deleteNewsAndEvents rt id w)) g = true ->
                      existsSync w g = true)
        /\ snd (ControllerMore.getNewsAndEventsById rt id
                  (fst (ControllerMore.deleteNewsAndEvents rt id w)))
           = respond 404 false "News and events not found" NoData)
    /\ status (snd (ControllerMore.deleteNewsAndEvents rt id w)) <> 400.
Proof.
  intros rt id w. unfold ControllerMore.deleteNewsAndEvents.
  change (NewsAndEvents.findById id w)
    with (emit (DbExecute NewsAndEvents.select_by_id [SqlInt id]) w,
          find (fun r => news_id r =? id) (w_news w)).
  destruct (find (fun r => news_id r =? id) (w_news w)) as [item|] eqn:Hf.
  - unfold NewsAndEventsImage.findByNewsAndEventsId. cbv zeta.
    set (w2 := emit _ (emit _ w)).
    set (w3 := if Controller.truthy_text (news_cover_image item)
               then fst (deleteFile rt (news_cover_image item) "cover" w2) else w2).
    set (images := sort_by _ _).
    set (w4 := match map image_url images with
               | [] => w3
               | _ :: _ => deleteFiles rt (map Some (map image_url images)) "news" w3
               end).
    assert (H3 : w_news w3 = w_news w /\ w_images w3 = w_images w
                 /\ forall g, existsSync w3 g = true -> existsSync w g = true).
    { unfold w3. destruct (Controller.truthy_text (news_cover_image item)).
      - destruct (deleteFile_frame rt (news_cover_image item) "cover" w2)
          as (D1 & D2 & D3 & _).
        split; [exact D1|]. split; [exact D2|]. exact D3.
      - repeat split; auto. }
    destruct H3 as (N3 & I3 & F3).
    assert (H4 : w_news w4 = w_news w /\ w_images w4 = w_images w
                 /\ forall g, existsSync w4 g = true -> existsSync w g = true).
    { unfold w4. destruct (map image_url images) as [|u l] eqn:Em.
      - repeat split; auto.
      - destruct (deleteFiles_frame rt (map Some (u :: l)) "news" w3) as (D1 & D2 & D3).
        split; [congruence|]. split; [congruence|]. auto. }
    destruct H4 as (N4 & I4 & F4).
    unfold NewsAndEventsWrite.delete.
    assert (He : existsb (fun r => news_id r =? id) (w_news w4) = true).
    { rewrite N4. apply existsb_exists. apply find_some in Hf. now exists item. }
    rewrite He. cbn [negb fst snd w_news w_images set_images set_news emit].
    rewrite N4, I4.
    refine (conj _ (conj _ _)).
    + intros Hn. apply find_none_iff in Hn. congruence.
    + intros _. split; [reflexivity|]. split; [reflexivity|]. split; [reflexivity|].
      split; [exact F4|].
      unfold ControllerMore.getNewsAndEventsById, NewsAndEvents.findById.
      cbn [w_news set_images set_news emit].
      replace (find (fun r => news_id r =? id)
                 (filter (fun r => negb (news_id r =? id)) (w_news w))) with (@None NewsRow);
        [reflexivity|].
      symmetry. apply find_none_iff. intros r Hr. apply filter_In in Hr.
      destruct Hr as [_ Hr]. apply negb_true_iff in Hr. now apply Z.eqb_neq.
    + discriminate.
  - cbn [fst snd w_news w_images w_files emit status respond].
    refine (conj _ (conj _ _)).
    + intros _. repeat split; reflexivity.
    + intros (r & Hin & Hid). apply (find_none _ _ Hf) in Hin.
      apply Z.eqb_neq in Hin. contradiction.
    + discriminate.
Qed.

Lemma getRelativePath_nonempty (rt : Runtime) (x : option string) (t : string) :
  getRelativePath rt x t <> Some "".
Proof.
  destruct x as [[|a s]|]; try discriminate.
  rewrite getRelativePath_cons. break_inner; discriminate.
Qed.

Lemma catch_failure_status (rt : Runtime) (o : Outcome Response) :
  (forall res, o <> Return res) ->
  status (Controller.updateNewsAndEvents_catch rt o) = 400
  \/ status (Controller.updateNewsAndEvents_catch rt o) = 500.
Proof.
  intros H. destruct o as [res|m|c]; [now elim (H res) | |];
    unfold Controller.updateNewsAndEvents_catch.
  - right. apply status_next_error.
  - destruct (String.eqb c "ER_NO_REFERENCED_ROW_2"); [now left|].
    right. apply status_next_error.
Qed.

(** What the map over the provided images returns, when no entry stops
    it, are values of [getRelativePath]. *)
Lemma normalise_range (rt : Runtime) (l : list ImageEntry)
      (urls : list (option string)) :
  Controller.normalise rt l = Return urls ->
  Forall (fun o => exists x, o = getRelativePath rt x "news") urls.
Proof.
  revert urls. induction l as [|e l IH]; intros urls H; cbn [Controller.normalise] in H.
  - replace urls with (@nil (option string)) by congruence. constructor.
  - destruct e as [s|[|]]; [| discriminate H |];
      destruct (Controller.normalise rt l) as [rest| |]; try discriminate H;
      match type of H with
      | Return ?X = Return _ => replace urls with X by congruence
      end;
      (constructor; [|apply IH; reflexivity]).
    + now exists (Some s).
    + now exists None.
Qed.

(** The map over the provided images makes no database call. *)
Lemma normalise_no_DbError (rt : Runtime) (l : list ImageEntry) (c : string) :
  Controller.normalise rt l <> DbError c.
Proof.
  induction l as [|e l IH]; cbn [Controller.normalise]; [discriminate|].
  destruct e as [s|[|]]; [| discriminate |];
    destruct (Controller.normalise rt l) as [rest| |]; try discriminate;
    exact IH.
Qed.

(** The lists the image block of [createNewsAndEvents] can produce. *)
Lemma create_images_range (rt : Runtime) (req : CreateRequest)
      (imageUrls : list (option string)) :
  ControllerMore.create_images rt req = Return imageUrls ->
  Forall (fun o => exists x, o = getRelativePath rt x "news") imageUrls.
Proof.
  unfold ControllerMore.create_images. intros H.
  destruct (c_files_images req) as [|f fs] eqn:Ef.
  - destruct (b_images (c_body req)) as [| |[|a s]|l|b];
      try (replace imageUrls with (@nil (option string)) by congruence; constructor).
    + destruct (JSON_parse rt (String a s)); try discriminate H;
        exact (normalise_range rt _ _ H).
    + exact (normalise_range rt _ _ H).
  - match type of H with
    | Return ?X = Return _ => replace imageUrls with X by congruence
    end.
    apply Forall_forall. intros o Ho. apply in_map_iff in Ho.
    destruct Ho as (y & <- & _). eauto.
Qed.

Lemma create_cover_range (rt : Runtime) (req : CreateRequest) (cover : option string) :
  ControllerMore.create_cover rt req = Return cover ->
  cover = None \/ exists x, cover = getRelativePath rt x "cover".
Proof.
  unfold ControllerMore.create_cover. intros H.
  destruct (c_files_cover_image req) as [|f fs].
  - destruct (b_cover_image (c_body req)) as [| |b|n|s]; cbn [truthy] in H.
    + inversion H; now left.
    + inversion H; now left.
    + destruct b; inversion H; now left.
    + destruct (negb (n =? 0)); inversion H; now left.
    + right. exists (Some s). congruence.
  - right. exists (Some ("uploads/cover-images/" ++ f)). congruence.
Qed.

(** What the image block of [createNewsAndEvents] leaves in the table when
    it does not throw. *)
Lemma create_images_inserted (id : Z) (imageUrls : list (option string))
      (w2 w3 : World) (created : list ImageRow) :
  match imageUrls with
  | [] => (w2, Return [])
  | _ :: _ => NewsAndEventsImage.createMultiple id imageUrls w2
  end = (w3, Return created) ->
  exists rows,
    w_images w3 = (w_images w2 ++ rows)%list
    /\ w_news w3 = w_news w2
    /\ w_files w3 = w_files w2
    /\ imageUrls = map (fun r => Some (image_url r)) rows
    /\ Forall (fun r => img_news_and_events_id r = id) rows
    /\ (forall k r, nth_error rows k = Some r -> image_order r = 0 + Z.of_nat k).
Proof.
  destruct imageUrls as [|u us].
  - intros H. inversion H; subst. exists []. rewrite app_nil_r.
    repeat split; auto. intros [|k] r Hk; discriminate Hk.
  - unfold NewsAndEventsImage.createMultiple. intros H.
    destruct (createMultiple_from_spec id (u :: us) 0 w2)
      as (rows & I1 & I2 & I3 & I4 & I5 & I6 & I7).
    rewrite H in *. cbn [fst snd] in *.
    destruct (existsb _ (u :: us)) eqn:En; [discriminate I7|].
    exists rows. split; [exact I1|]. split; [exact I2|]. split; [exact I3|].
    split.
    + rewrite <- map_map, I4. symmetry. apply leading_urls_no_null.
      intros Hin. assert (existsb (fun e : option string =>
                                     match e with None => true | Some _ => false end)
                            (u :: us) = true); [|congruence].
      apply existsb_exists. exists None. now split.
    + split; [exact I5|]. intros k r Hk. now destruct (I6 k r Hk).
Qed.

(** X23.  A creation that is answered 201 has stored what it shows: the
    item is the last row of the table and carries the assigned id and the
    normalised cover image, its image rows carry the normalised images in
    the order in which they were submitted, the answer shows exactly the
    stored cover image and images in that order, and the image rows of
    other items are untouched. *)
Theorem createNewsAndEvents_stores_what_it_shows :
  forall (rt : Runtime) (insertId : Z) (req : CreateRequest) (w : World),
    rows_of insertId w = [] ->
    status (snd (ControllerMore.createNewsAndEvents rt insertId req w)) = 201 ->
    exists item cover urls,
      data (snd (ControllerMore.createNewsAndEvents rt insertId req w))
      = ItemData {| v_row := item; v_cover_image := cover;
                    v_images := map Some urls |}
      /\ ControllerMore.create_cover rt req = Return cover
      /\ ControllerMore.create_images rt req = Return (map Some urls)
      /\ w_news (fst (ControllerMore.createNewsAndEvents rt insertId req w))
         = (w_news w ++ [item])%list
      /\ news_id item = insertId
      /\ news_cover_image item = cover
      /\ persisted_urls insertId
           (fst (ControllerMore.createNewsAndEvents rt insertId req w)) = urls
      /\ (forall other, other <> insertId ->
            rows_of other (fst (ControllerMore.createNewsAndEvents rt insertId req w))
            = rows_of other w).
Proof.
  intros rt insertId req w Hnone. unfold ControllerMore.createNewsAndEvents.
  destruct (ControllerMore.createNewsAndEvents_try rt insertId req w) as [w' o] eqn:Et.
  cbn [fst snd]. intros H201.
  assert (Ho : exists res, o = Return res).
  { destruct o as [res|m|c]; [now exists res | |];
      (match goal with
       | H : status (Controller.updateNewsAndEvents_catch rt ?o) = 201 |- _ =>
           destruct (catch_failure_status rt o) as [E | E];
           [intros res; discriminate | rewrite E in H; discriminate H ..]
       end). }
  destruct Ho as [res ->]. cbn [Controller.updateNewsAndEvents_catch] in *.
  unfold ControllerMore.createNewsAndEvents_try in Et. cbv zeta in Et.
  destruct (NewsAndEvents.is_undefined (b_category_id (c_body req)));
    [discriminate Et|].
  destruct (Category.findById (b_category_id (c_body req)) w) as [w1 ok] eqn:Ecat.
  assert (Hw1 : w_news w1 = w_news w /\ w_images w1 = w_images w
                /\ w_categories w1 = w_categories w).
  { unfold Category.findById in Ecat. inversion Ecat. repeat split; reflexivity. }
  destruct Hw1 as (N1 & I1 & C1).
  destruct ok; cbn [negb] in Et;
    [|inversion Et; subst; discriminate H201].
  destruct (ControllerMore.create_cover rt req) as [cover| |] eqn:Ecov;
    try discriminate Et.
  match type of Et with
  | context [NewsAndEventsWrite.create rt insertId ?x w1] => set (d := x) in *
  end.
  destruct (create_cases rt insertId d w1)
    as [(_ & _ & _ & Hn) | (out & c & _ & _ & _ & _ & _ & N2 & I2 & _ & Ecr)].
  { destruct (NewsAndEventsWrite.create rt insertId d w1) as [w2 [r| |]];
      [now elim (Hn r) | discriminate Et ..]. }
  destruct (NewsAndEventsWrite.create rt insertId d w1) as [w2 r] eqn:Ecreate.
  cbn [fst snd] in N2, I2, Ecr. subst r.
  set (item := NewsAndEventsWrite.inserted_row insertId d (JStr out) w1) in *.
  destruct (ControllerMore.create_images rt req) as [imageUrls| |] eqn:Eim;
    try discriminate Et.
  change (news_id item) with insertId in Et.
  destruct (match imageUrls with
            | [] => (w2, Return [])
            | _ :: _ => NewsAndEventsImage.createMultiple insertId imageUrls w2
            end) as [w3 [created| |]] eqn:Em; try discriminate Et.
  destruct (create_images_inserted insertId imageUrls w2 w3 created Em)
    as (rows & I3 & N3 & _ & Hurls & Hitem & Hnum).
  unfold NewsAndEventsImage.findByNewsAndEventsId in Et.
  inversion Et as [[Hw' Hres]]. clear Et.
  cbn [data respond w_news w_images emit].
  assert (Hfilter : filter (fun r => img_news_and_events_id r =? insertId) (w_images w3)
                    = rows).
  { rewrite I3, I2, I1, filter_app. unfold rows_of in Hnone. rewrite Hnone. cbn [app].
    apply filter_all. eapply Forall_impl; [|exact Hitem]. cbn. intros r ->.
    apply Z.eqb_refl. }
  rewrite Hfilter, (sort_by_numbered_rows rows 0 Hnum).
  assert (Hcover : news_cover_image item = cover).
  { unfold item. cbn [NewsAndEventsWrite.inserted_row news_cover_image d
                      NewsAndEventsWrite.n_cover_image].
    destruct cover as [[|a s]|]; try reflexivity.
    destruct (create_cover_range rt req _ Ecov) as [E | [x E]]; [discriminate E|].
    symmetry in E. now apply getRelativePath_nonempty in E. }
  exists item, cover, (map image_url rows).
  split.
  { unfold Controller.view. rewrite Hcover. f_equal. f_equal.
    - destruct cover as [cv|]; [|reflexivity].
      destruct (create_cover_range rt req _ Ecov) as [E | [x E]]; [discriminate E|].
      symmetry in E. exact (getRelativePath_stable rt x "cover" cv E).
    - rewrite map_map. apply map_ext_in. intros r Hr.
      pose proof (create_images_range rt req imageUrls Eim) as Hrange.
      rewrite Forall_forall in Hrange.
      destruct (Hrange (Some (image_url r))) as [x E].
      + rewrite Hurls. apply in_map_iff. now exists r.
      + symmetry in E. exact (getRelativePath_stable rt x "news" _ E). }
  split; [reflexivity|].
  split; [now rewrite Hurls, map_map|].
  split; [now rewrite N3, N2, N1|].
  split; [reflexivity|].
  split; [exact Hcover|].
  split.
  { unfold persisted_urls, rows_of. cbn [w_images emit]. now rewrite Hfilter. }
  intros other Ho. unfold rows_of. cbn [w_images emit].
  rewrite I3, I2, I1, filter_app.
  rewrite (filter_none _ rows); [apply app_nil_r|].
  eapply Forall_impl; [|exact Hitem]. cbn. intros r ->. apply Z.eqb_neq. congruence.
Qed.

Lemma createNewsAndEvents_stores_what_it_shows_witness :
  exists item cover urls,
    data (snd (ControllerMore.createNewsAndEvents Sample.rt 3 Fixtures.create_request
                 Sample.world))
    = ItemData {| v_row := item; v_cover_image := cover;
                  v_images := map Some urls |}
    /\ ControllerMore.create_cover Sample.rt Fixtures.create_request = Return cover
    /\ ControllerMore.create_images Sample.rt Fixtures.create_request
       = Return (map Some urls)
    /\ w_news (fst (ControllerMore.createNewsAndEvents Sample.rt 3
                      Fixtures.create_request Sample.world))
       = (w_news Sample.world ++ [item])%list
    /\ news_id item = 3
    /\ news_cover_image item = cover
    /\ persisted_urls 3
         (fst (ControllerMore.createNewsAndEvents Sample.rt 3 Fixtures.create_request
                 Sample.world)) = urls
    /\ (forall other, other <> 3 ->
          rows_of other (fst (ControllerMore.createNewsAndEvents Sample.rt 3
                                Fixtures.create_request Sample.world))
          = rows_of other Sample.world).
Proof.
  apply (createNewsAndEvents_stores_what_it_shows Sample.rt 3 Fixtures.create_request
           Sample.world); reflexivity.
Defined.

(** X24.  Creation is not atomic, and only the image block can make it so:
    when the answer is not 201 and yet the item table has changed, the new
    item is the one row that was added, the answer is 500, and the image
    field of the request is one that cannot be normalised or that holds an
    empty entry. *)
Theorem createNewsAndEvents_failure_after_insert :
  forall (rt : Runtime) (insertId : Z) (req : CreateRequest) (w : World),
    status (snd (ControllerMore.createNewsAndEvents rt insertId req w)) <> 201 ->
    w_news (fst (ControllerMore.createNewsAndEvents rt insertId req w)) <> w_news w ->
    (exists item,
        w_news (fst (ControllerMore.createNewsAndEvents rt insertId req w))
        = (w_news w ++ [item])%list
        /\ news_id item = insertId)
    /\ status (snd (ControllerMore.createNewsAndEvents rt insertId req w)) = 500
    /\ (forall imageUrls,
          ControllerMore.create_images rt req = Return imageUrls -> In None imageUrls).
Proof.
  intros rt insertId req w. unfold ControllerMore.createNewsAndEvents.
  destruct (ControllerMore.createNewsAndEvents_try rt insertId req w) as [w' o] eqn:Et.
  cbn [fst snd]. intros H201 Hchanged.
  unfold ControllerMore.createNewsAndEvents_try in Et. cbv zeta in Et.
  destruct (NewsAndEvents.is_undefined (b_category_id (c_body req)));
    [inversion Et; subst; now elim Hchanged|].
  destruct (Category.findById (b_category_id (c_body req)) w) as [w1 ok] eqn:Ecat.
  assert (N1 : w_news w1 = w_news w).
  { unfold Category.findById in Ecat. inversion Ecat. reflexivity. }
  destruct ok; cbn [negb] in Et;
    [|inversion Et; subst; now elim Hchanged].
  destruct (ControllerMore.create_cover rt req) as [cover| |] eqn:Ecov;
    try (inversion Et; subst; now elim Hchanged).
  match type of Et with
  | context [NewsAndEventsWrite.create rt insertId ?x w1] => set (d := x) in *
  end.
  destruct (create_cases rt insertId d w1)
    as [(N2 & _ & _ & Hn) | (out & c & _ & _ & _ & _ & _ & N2 & _ & _ & Ecr)].
  { destruct (NewsAndEventsWrite.create rt insertId d w1) as [w2 [r| |]];
      [now elim (Hn r) | ..]; cbn [fst] in N2; inversion Et; subst;
      elim Hchanged; congruence. }
  destruct (NewsAndEventsWrite.create rt insertId d w1) as [w2 r] eqn:Ecreate.
  cbn [fst snd] in N2, Ecr. subst r.
  set (item := NewsAndEventsWrite.inserted_row insertId d (JStr out) w1) in *.
  change (news_id item) with insertId in Et.
  destruct (ControllerMore.create_images rt req) as [imageUrls| |] eqn:Eim.
  - destruct (match imageUrls with
              | [] => (w2, Return [])
              | _ :: _ => NewsAndEventsImage.createMultiple insertId imageUrls w2
              end) as [w3 o3] eqn:Em.
    assert (H3 : w_news w3 = w_news w2
                 /\ ((exists m, o3 = Throw m) /\ In None imageUrls
                     \/ exists created, o3 = Return created)).
    { destruct imageUrls as [|u us].
      - inversion Em; subst. split; [reflexivity|]. right. now exists [].
      - unfold NewsAndEventsImage.createMultiple in Em.
        destruct (createMultiple_from_spec insertId (u :: us) 0 w2)
          as (rows & _ & I2 & _ & _ & _ & _ & I7).
        rewrite Em in *. cbn [fst snd] in *. split; [exact I2|].
        destruct (existsb _ (u :: us)) eqn:En.
        + left. split; [eauto|].
          apply existsb_exists in En. destruct En as ([x|] & Hin & Hx);
            [discriminate Hx | exact Hin].
        + right. eauto. }
    destruct H3 as (N3 & [[[m ->] Hnull] | [created ->]]).
    + inversion Et; subst. cbn [Controller.updateNewsAndEvents_catch].
      split; [exists item; split; [congruence | reflexivity]|].
      split; [apply status_next_error|].
      intros l Hl. inversion Hl; subst. exact Hnull.
    + unfold NewsAndEventsImage.findByNewsAndEventsId in Et.
      inversion Et; subst. now elim H201.
  - inversion Et; subst. cbn [Controller.updateNewsAndEvents_catch].
    split; [exists item; split; [congruence | reflexivity]|].
    split; [apply status_next_error|]. intros l Hl. discriminate Hl.
  - inversion Et; subst. cbn [Controller.updateNewsAndEvents_catch].
    split; [exists item; split; [congruence | reflexivity]|].
    unfold ControllerMore.create_images in Eim. exfalso.
    destruct (c_files_images req); [|discriminate Eim].
    destruct (b_images (c_body req)) as [| |[|a s]|l|b];
      try discriminate Eim;
      [destruct (JSON_parse rt (String a s)); try discriminate Eim|];
      exact (normalise_no_DbError rt _ _ Eim).
Qed.

Lemma createNewsAndEvents_failure_after_insert_witness :
  (exists item,
      w_news (fst (ControllerMore.createNewsAndEvents Sample.rt 3
                     Fixtures.create_request_empty_image Sample.world))
      = (w_news Sample.world ++ [item])%list
      /\ news_id item = 3)
  /\ status (snd (ControllerMore.createNewsAndEvents Sample.rt 3
                    Fixtures.create_request_empty_image Sample.world)) = 500
  /\ (forall imageUrls,
        ControllerMore.create_images Sample.rt Fixtures.create_request_empty_image
        = Return imageUrls -> In None imageUrls).
Proof.
  apply (createNewsAndEvents_failure_after_insert Sample.rt 3
           Fixtures.create_request_empty_image Sample.world);
    intros H; vm_compute in H; discriminate H.
Defined.

(* ===================================================================== *)
(** * Validation and the handlers                                         *)
(* ===================================================================== *)

Lemma cover_image_custom_shape (v : JsVal) :
  match v with
  | JUndefined => true
  | JNull => Validation.cover_image_custom JNull
  | JBool b => Validation.cover_image_custom (JBool b)
  | JNum n => Validation.cover_image_custom (JNum n)
  | JStr s => Validation.cover_image_custom (JStr s)
  end = true ->
  truthy v = false \/ exists s, v = JStr s.
Proof.
  destruct v as [| |b|n|s]; intros H; try (now left).
  - destruct b; [discriminate H | now left].
  - unfold Validation.cover_image_custom in H. cbn [truthy] in *.
    destruct (n =? 0); [now left | discriminate H].
  - right. eauto.
Qed.

(** The map over the provided images throws exactly when an entry is
    truthy and no string, and then the TypeError of [startsWith]. *)
Lemma normalise_throws (rt : Runtime) (l : list ImageEntry) (m : string) :
  Controller.normalise rt l = Throw m
  <-> m = "filePath.startsWith is not a function" /\ In (EntryOther true) l.
Proof.
  induction l as [|e l IH]; cbn [Controller.normalise In].
  - split; [discriminate | intros [_ []]].
  - assert (Hrest : forall o : option string,
               e <> EntryOther true ->
               (match Controller.normalise rt l with
                | Return urls => Return (o :: urls)
                | Throw m' => Throw m'
                | DbError c => DbError c
                end = Throw m
                <-> m = "filePath.startsWith is not a function"
                    /\ (e = EntryOther true \/ In (EntryOther true) l))).
    { intros o He. destruct (Controller.normalise rt l) as [rest|m'|c].
      - split; [discriminate|]. intros [Hm [Hin|Hin]]; [now elim He|].
        exfalso. assert (H : @Return (list (option string)) rest = Throw m)
          by (apply IH; auto). discriminate H.
      - rewrite IH. split.
        + intros [Hm Hin]. auto.
        + intros [Hm [Hin|Hin]]; [now elim He | auto].
      - split; [discriminate|]. intros [Hm [Hin|Hin]]; [now elim He|].
        exfalso. assert (H : @DbError (list (option string)) c = Throw m)
          by (apply IH; auto). discriminate H. }
    destruct e as [s|[|]].
    + apply (Hrest (getRelativePath rt (Some s) "news")). discriminate.
    + split.
      * intros H. split; [congruence | now left].
      * intros [-> _]. reflexivity.
    + apply (Hrest None). discriminate.
Qed.

Lemma updating_throws (o : Outcome (list (option string))) (m : string) :
  Controller.updating o = Throw m <-> o = Throw m.
Proof.
  destruct o; cbn [Controller.updating]; split; congruence.
Qed.

(** When the image block of a validated body throws. *)
Lemma validated_images_throw (rt : Runtime) (i : ImagesField) (m : string)
      (o : Outcome (list (option string))) :
  Validation.images_custom rt i = true ->
  o = match i with
      | ImagesUndefined | ImagesNull => Return []
      | ImagesString "" => Return []
      | ImagesArray l => Controller.normalise rt l
      | ImagesString s =>
          match JSON_parse rt s with
          | JsonArray l => Controller.normalise rt l
          | JsonThrows => Controller.normalise rt [EntryString s]
          | JsonOther => Throw "providedImages.map is not a function"
          end
      | ImagesOther _ => Return []
      end ->
  (o = Throw m
   <-> m = "filePath.startsWith is not a function"
       /\ exists l, array_of_images rt i = Some l /\ In (EntryOther true) l).
Proof.
  unfold Validation.images_custom, array_of_images. intros Hi ->.
  destruct i as [| |[|a s]|l|t].
  - split; [discriminate|]. intros (_ & l & H & _). discriminate H.
  - split; [discriminate|]. intros (_ & l & H & _). discriminate H.
  - split; [discriminate|]. intros (_ & l & H & _). discriminate H.
  - destruct (JSON_parse rt (String a s)) as [|l|]; [| |discriminate Hi].
    + split; [intros H; discriminate H|]. intros (_ & l & H & _). discriminate H.
    + rewrite normalise_throws. split.
      * intros [Hm Hin]. split; [exact Hm|]. exists l. auto.
      * intros (Hm & l' & Hl & Hin). split; [exact Hm|]. congruence.
  - rewrite normalise_throws. split.
    + intros [Hm Hin]. split; [exact Hm|]. exists l. auto.
    + intros (Hm & l' & Hl & Hin). split; [exact Hm|]. congruence.
  - split; [discriminate|]. intros (_ & l & H & _). discriminate H.
Qed.

(** X25.  What the validators establish for the handlers, and what they do
    not: a body that passed [validateNewsUpdate] or [validateNewsCreate]
    never makes the cover-image block of its handler throw; it makes the
    image block throw exactly when no image file was uploaded and the
    [images] field, an array or a string that [JSON.parse] reads as an
    array, holds a truthy entry that is no string, for the validator
    accepts any array, and then the error is the TypeError of
    [startsWith]; and a body that passed [validateNewsCreate] has a
    category id. *)
Theorem validated_body_throws_only_on_nonstring_entry :
  forall (rt : Runtime) (b body : Body),
    (Validation.validateNewsUpdate rt b = Some body ->
     forall (id : Z) (cover_files image_files : list string) (old : option string)
            (w : World) (m : string),
       snd (Controller.cover_step rt
              {| r_id := id; r_files_cover_image := cover_files;
                 r_files_images := image_files; r_body := body |} old w) <> Throw m
       /\ (Controller.images_step rt
             {| r_id := id; r_files_cover_image := cover_files;
                r_files_images := image_files; r_body := body |} = Throw m
           <-> image_files = []
               /\ m = "filePath.startsWith is not a function"
               /\ exists l, array_of_images rt (b_images body) = Some l
                            /\ In (EntryOther true) l))
    /\ (ControllerMore.validateNewsCreate rt b = Some body ->
        NewsAndEvents.is_undefined (b_category_id body) = false
        /\ forall (cover_files image_files : list string) (user : option Z) (m : string),
             ControllerMore.create_cover rt
               {| c_files_cover_image := cover_files; c_files_images := image_files;
                  c_body := body; c_user := user |} <> Throw m
             /\ (ControllerMore.create_images rt
                   {| c_files_cover_image := cover_files; c_files_images := image_files;
                      c_body := body; c_user := user |} = Throw m
                 <-> image_files = []
                     /\ m = "filePath.startsWith is not a function"
                     /\ exists l, array_of_images rt (b_images body) = Some l
                                  /\ In (EntryOther true) l)).
Proof.
  intros rt b body. split.
  - unfold Validation.validateNewsUpdate.
    destruct (_ && _) eqn:Hv; [|discriminate].
    intros H; inversion H; subst body. clear H.
    repeat (apply andb_prop in Hv; destruct Hv as [Hv ?]).
    intros id cf imf old w m.
    assert (Hc : truthy (b_cover_image b) = false \/ exists s, b_cover_image b = JStr s)
      by (apply cover_image_custom_shape; assumption).
    match goal with
    | H : Validation.images_custom rt (b_images b) = true |- _ => rename H into Hi
    end.
    split.
    + unfold Controller.cover_step. cbn [r_files_cover_image r_body b_cover_image].
      destruct cf as [|f fs]; [|cbn [snd]; discriminate].
      destruct Hc as [Hc | [s ->]].
      * destruct (b_cover_image b) as [| |[]|n|[|a s]]; cbn [truthy] in *;
          try discriminate Hc; cbn [snd]; try discriminate.
        rewrite Hc. cbn [snd]. discriminate.
      * destruct s; cbn [snd]; discriminate.
    + unfold Controller.images_step. cbn [r_files_images r_body b_images].
      destruct imf as [|f fs];
        [|split; [discriminate | intros [Hf _]; discriminate Hf]].
      rewrite <- (validated_images_throw rt (b_images b) m _ Hi eq_refl).
      destruct (b_images b) as [| |[|a s]|l|t];
        [| | |destruct (JSON_parse rt (String a s))| |];
        rewrite ?updating_throws;
        (split;
         [intros H; split; [reflexivity|];
          first [exact H | discriminate H | congruence]
         |intros [_ H]; first [exact H | discriminate H | congruence]]).
  - unfold ControllerMore.validateNewsCreate. cbv zeta.
    destruct (_ && _) eqn:Hv; [|discriminate].
    intros H; inversion H; subst body. clear H.
    repeat (apply andb_prop in Hv; destruct Hv as [Hv ?]).
    cbn [b_category_id b_cover_image b_images].
    assert (Hc : truthy (b_cover_image b) = false \/ exists s, b_cover_image b = JStr s)
      by (apply cover_image_custom_shape; assumption).
    match goal with
    | H : Validation.images_custom rt (b_images b) = true |- _ => rename H into Hi
    end.
    split.
    + destruct (b_category_id b); try reflexivity. discriminate Hv.
    + intros cf imf user m. split.
      * unfold ControllerMore.create_cover. cbn [c_files_cover_image c_body b_cover_image].
        destruct cf as [|f fs]; [|discriminate].
        destruct Hc as [Hc | [s ->]]; [|discriminate].
        destruct (b_cover_image b) as [| |[]|n|s]; cbn [truthy] in *;
          try discriminate Hc; try discriminate.
        rewrite Hc. discriminate.
      * unfold ControllerMore.create_images. cbn [c_files_images c_body b_images].
        destruct imf as [|f fs];
          [|split; [discriminate | intros [Hf _]; discriminate Hf]].
        rewrite <- (validated_images_throw rt (b_images b) m _ Hi eq_refl).
        split; [intros H; split; [reflexivity | exact H] | intros [_ H]; exact H].
Qed.

Lemma validated_body_throws_only_on_nonstring_entry_witness :
  snd (Controller.cover_step Sample.rt
         {| r_id := 1; r_files_cover_image := []; r_files_images := [];
            r_body := Fixtures.body_with_number |} None Sample.world)
  <> Throw "filePath.startsWith is not a function"
  /\ Controller.images_step Sample.rt
       {| r_id := 1; r_files_cover_image := []; r_files_images := [];
          r_body := Fixtures.body_with_number |}
     = Throw "filePath.startsWith is not a function".
Proof.
  destruct (proj1 (validated_body_throws_only_on_nonstring_entry Sample.rt
                     Fixtures.body_with_number Fixtures.body_with_number)
              eq_refl 1 [] [] None Sample.world
              "filePath.startsWith is not a function") as [Hc Hi].
  split; [exact Hc|]. apply Hi.
  split; [reflexivity|]. split; [reflexivity|].
  exists [EntryString "/news-images/a.jpg"; EntryOther true].
  split; [reflexivity | right; left; reflexivity].
Defined.

(* ===================================================================== *)
(** * The authentication gate and the sanitizer                           *)
(* ===================================================================== *)

Lemma until_space_no_space (s : string) :
  has_space s = false -> Auth.until_space s = (s, None).
Proof.
  unfold has_space. induction s as [|c s IH]; [reflexivity|].
  cbn [list_ascii_of_string existsb Auth.until_space]. intros H.
  apply orb_false_elim in H. destruct H as [Hc Hs].
  rewrite Ascii.eqb_sym, Hc, (IH Hs). reflexivity.
Qed.

Lemma until_space_app (a b : string) :
  has_space a = false -> Auth.until_space (a ++ " " ++ b) = (a, Some b).
Proof.
  unfold has_space. induction a as [|c a IH]; [reflexivity|].
  cbn [list_ascii_of_string existsb Auth.until_space append]. intros H.
  apply orb_false_elim in H. destruct H as [Hc Hs].
  rewrite Ascii.eqb_sym, Hc. cbn [append] in IH. rewrite (IH Hs). reflexivity.
Qed.

(** X26.  The authentication gate lets a request through only with a
    verified token: it calls [next] exactly when the second
    space-separated piece of the Authorization header is a non-empty token
    that the library verifies, and then with the user of that token; every
    other request is answered 401.  The first piece of the header is
    never looked at, so any scheme word is as good as Bearer. *)
Theorem authenticate_requires_verified_token :
  forall (jwt_verify : string -> Auth.Verified) (authorization : option string),
    (forall user,
        Auth.authenticate jwt_verify authorization = Auth.Next user
        <-> exists header token,
              authorization = Some header
              /\ Auth.second_segment header = Some token
              /\ token <> ""
              /\ jwt_verify token = Auth.Decoded user)
    /\ (forall res,
          Auth.authenticate jwt_verify authorization = Auth.Answer res ->
          status res = 401 /\ success res = false)
    /\ (forall scheme token,
          has_space scheme = false -> has_space token = false ->
          Auth.authenticate jwt_verify (Some (scheme ++ " " ++ token))
          = Auth.authenticate jwt_verify (Some ("Bearer " ++ token))).
Proof.
  intros jwt_verify authorization. refine (conj _ (conj _ _)).
  - intros user. unfold Auth.authenticate. split.
    + destruct authorization as [[|a h]|]; try discriminate.
      destruct (Auth.second_segment (String a h)) as [[|b t]|] eqn:Es; try discriminate.
      destruct (jwt_verify (String b t)) eqn:Ev; try discriminate.
      intros H; inversion H; subst. exists (String a h), (String b t).
      repeat split; auto. discriminate.
    + intros (header & token & -> & Hs & Hne & Hv).
      destruct header as [|a h]; [discriminate Hs|].
      rewrite Hs. destruct token as [|b t]; [now elim Hne|]. now rewrite Hv.
  - intros res. unfold Auth.authenticate.
    destruct authorization as [[|a h]|];
      try (intros H; inversion H; split; reflexivity).
    destruct (Auth.second_segment (String a h)) as [[|b t]|];
      try (intros H; inversion H; split; reflexivity).
    destruct (jwt_verify (String b t)); intros H; inversion H; split; reflexivity.
  - intros scheme token Hs Ht.
    assert (E : forall pre, has_space pre = false ->
                  Auth.second_segment (pre ++ " " ++ token) = Some token).
    { intros pre Hp. unfold Auth.second_segment.
      rewrite (until_space_app pre token Hp). cbn [snd].
      now rewrite (until_space_no_space token Ht). }
    unfold Auth.authenticate.
    rewrite (E scheme Hs). change ("Bearer " ++ token) with ("Bearer" ++ " " ++ token).
    rewrite (E "Bearer" eq_refl).
    destruct scheme; reflexivity.
Qed.

Lemma remove_angle_brackets_clean (s : string) :
  includes (Helpers.remove_angle_brackets s) "<" = false
  /\ includes (Helpers.remove_angle_brackets s) ">" = false.
Proof.
  induction s as [|c s [IH1 IH2]]; [split; reflexivity|].
  cbn [Helpers.remove_angle_brackets].
  destruct (Ascii.eqb c "<") eqn:E1; cbn [orb]; [split; assumption|].
  destruct (Ascii.eqb c ">") eqn:E2; [split; assumption|].
  apply Ascii.eqb_neq in E1. apply Ascii.eqb_neq in E2.
  cbn [includes]. rewrite IH1, IH2. cbn [String.prefix].
  destruct (ascii_dec "<" c) as [E|_]; [now elim E1|].
  destruct (ascii_dec ">" c) as [E|_]; [now elim E2|].
  split; reflexivity.
Qed.

Lemma remove_angle_brackets_length (s : string) :
  (String.length (Helpers.remove_angle_brackets s) <= String.length s)%nat.
Proof.
  induction s as [|c s IH]; [reflexivity|].
  cbn [Helpers.remove_angle_brackets].
  destruct (Ascii.eqb c "<" || Ascii.eqb c ">"); cbn [String.length]; lia.
Qed.

(** X27.  [sanitizeInput] returns a value that is not a string as it is, and
    for a string a string that contains neither [<] nor [>] and is not
    longer than the trimmed input. *)
Theorem sanitizeInput_removes_angle_brackets :
  forall (v : JsVal),
    match Helpers.sanitizeInput v with
    | JStr out =>
        (exists s, v = JStr s
                   /\ (String.length out <= String.length (trim s))%nat)
        /\ includes out "<" = false
        /\ includes out ">" = false
    | other => other = v
    end.
Proof.
  intros [| |b|n|s]; cbn [Helpers.sanitizeInput]; try reflexivity.
  destruct (remove_angle_brackets_clean (trim s)) as [H1 H2].
  split; [|split; assumption].
  exists s. split; [reflexivity | apply remove_angle_brackets_length].
Qed.

(* ===================================================================== *)
(** * Dates that are already converted                                    *)
(* ===================================================================== *)

Lemma strip_all_first_byte (ps : list string) (n : nat) (c : ascii) (r : string) :
  existsb (fun p => match p with
                    | String a _ => Ascii.eqb a c
                    | EmptyString => true
                    end) ps = false ->
  strip_all ps n (String c r) = String c r.
Proof.
  intros H. destruct n; cbn [strip_all]; [reflexivity|].
  now rewrite strip_any_first_byte.
Qed.

(** No white space begins or ends with the byte of a digit. *)
Lemma digit_no_white_space (c : ascii) :
  is_digit c = true ->
  existsb (fun p => match p with
                    | String a _ => Ascii.eqb a c
                    | EmptyString => true
                    end) white_space = false
  /\ existsb (fun p => match p with
                       | String a _ => Ascii.eqb a c
                       | EmptyString => true
                       end) (map rev_string white_space) = false.
Proof.
  destruct c as [[] [] [] [] [] [] [] []]; vm_compute; intros H;
    try discriminate H; split; reflexivity.
Qed.

Lemma match_pat_length (p : list Pat) (s : string) :
  match_pat p s = true -> String.length s = List.length p.
Proof.
  revert s. induction p as [|a p IH]; intros [|c s]; cbn [match_pat];
    try discriminate; try reflexivity.
  - destruct a; discriminate.
  - destruct a; intros H; apply andb_prop in H; destruct H as [_ H];
      cbn [String.length List.length]; f_equal; now apply IH.
Qed.

(** A text of the fixed-width form is not empty and has no white space
    around it. *)
Lemma fixed_width_trimmed (s : string) :
  mysql_datetime_re s = true -> trim s = s /\ s <> "".
Proof.
  unfold mysql_datetime_re. intros H.
  pose proof (match_pat_length _ _ H) as L. cbn [List.length] in L.
  do 19 (destruct s as [|? s]; [discriminate L|]; cbn [String.length] in L).
  destruct s; [|discriminate L]. clear L.
  split; [|discriminate].
  cbn [match_pat] in H.
  repeat match goal with
         | H : _ && _ = true |- _ =>
             let H1 := fresh "D" in
             apply andb_prop in H; destruct H as [H1 H]
         end.
  unfold trim, trimStart.
  rewrite strip_all_first_byte by (apply digit_no_white_space; assumption).
  unfold trimEnd. unfold rev_string at 3.
  cbn [list_ascii_of_string rev app string_of_list_ascii].
  rewrite strip_all_first_byte by (apply digit_no_white_space; assumption).
  reflexivity.
Qed.

Lemma formatDateTimeForMySQL_result (rt : Runtime) (v out : JsVal) :
  NewsAndEvents.formatDateTimeForMySQL rt v = Return out ->
  out = JUndefined \/ out = JNull \/ exists o, out = JStr o.
Proof.
  destruct v as [| |b|n|s]; cbn [NewsAndEvents.formatDateTimeForMySQL];
    try discriminate.
  - intros H; inversion H; auto.
  - intros H; inversion H; auto.
  - cbv zeta. destruct (String.eqb (trim s) ""); [discriminate|].
    destruct (mysql_datetime_re (trim s)).
    + intros H; inversion H; eauto.
    + destruct (Date_parse rt (trim s)) as [t|]; cbn [rethrow]; [|discriminate].
      match goal with
      | |- context [mysql_datetime_re ?f] => destruct (mysql_datetime_re f)
      end; cbn [negb rethrow]; [|discriminate].
      intros H; inversion H; eauto.
Qed.

(** X28.  [formatDateTimeForMySQL] is idempotent: what it returns, it
    returns again when given that result, without consulting the date
    parser; so a date read from the database can be written back
    unchanged. *)
Theorem formatDateTimeForMySQL_idempotent :
  forall (rt : Runtime) (v : JsVal) (out : JsVal),
    NewsAndEvents.formatDateTimeForMySQL rt v = Return out ->
    NewsAndEvents.formatDateTimeForMySQL rt out = Return out.
Proof.
  intros rt v out H.
  destruct (formatDateTimeForMySQL_result rt v out H) as [-> | [-> | [o ->]]];
    try reflexivity.
  pose proof (formatDateTimeForMySQL_fixed_width rt v o H) as Hre.
  destruct (fixed_width_trimmed o Hre) as [Ht Hne].
  unfold NewsAndEvents.formatDateTimeForMySQL. rewrite Ht, Hre.
  apply String.eqb_neq in Hne. now rewrite Hne.
Qed.

Lemma formatDateTimeForMySQL_idempotent_witness :
  NewsAndEvents.formatDateTimeForMySQL Sample.rt (JStr "2025-12-04 07:22:00")
  = Return (JStr "2025-12-04 07:22:00").
Proof.
  apply (formatDateTimeForMySQL_idempotent Sample.rt (JStr " 2025-12-04 07:22:00 ")).
  reflexivity.
Defined.

(** X29.  [getRelativePath] answers null exactly for a missing or empty
    path; what it answers otherwise is never empty, and for the file types
    cover and news it is an http(s) URL or a path that begins with
    [/cover-images/] or [/news-images/]. *)
Theorem getRelativePath_result_shape :
  forall (rt : Runtime) (x : option string) (t : string),
    (getRelativePath rt x t = None <-> x = None \/ x = Some "")
    /\ (forall c, getRelativePath rt x t = Some c ->
                  c <> ""
                  /\ (t = "cover" \/ t = "news" ->
                      is_http c = true \/ is_relative c = true)).
Proof.
  intros rt x t. split.
  - destruct x as [[|a s]|]; [split; auto | | split; auto].
    split; [|intros [H|H]; discriminate H].
    rewrite getRelativePath_cons. break_inner; discriminate.
  - intros c Hc. split.
    + intros ->. exact (getRelativePath_nonempty rt x t Hc).
    + intros Ht. exact (getRelativePath_range rt x t c Ht Hc).
Qed.

Lemma getRelativePath_result_shape_witness :
  "/cover-images/x.png" <> ""
  /\ ("cover" = "cover" \/ "cover" = "news" ->
      is_http "/cover-images/x.png" = true \/ is_relative "/cover-images/x.png" = true).
Proof.
  exact (proj2 (getRelativePath_result_shape Sample.rt (Some "uploads/x.png") "cover")
           "/cover-images/x.png" eq_refl).
Defined.

(* ===================================================================== *)
(** * The properties above on the sample data                             *)
(* ===================================================================== *)

Lemma getFileUrl_shape_witness :
  exists q, UploadUrls.getFileUrl Sample.rt (Some "uploads/cover-images/x.png")
            = Some (baseUrl Sample.rt ++ "/public" ++ q).
Proof.
  apply (proj2 (proj2 (getFileUrl_shape Sample.rt (Some "uploads/cover-images/x.png")))
           "uploads/cover-images/x.png" eq_refl);
    [discriminate | reflexivity].
Defined.

Lemma deleteFile_removes_only_its_target_witness :
  UploadUrls.deleteFile_target Sample.rt (Some "/news-images/a.jpg") "news"
  = Some (newsImagesDir, "a.jpg")
  /\ plain_name "a.jpg" = true
  /\ exists f,
       UploadUrls.deleteFile_target Sample.rt (Some "/news-images/a.jpg") "news" = Some f
       /\ existsSync Sample.world f = true
       /\ existsSync (fst (deleteFile Sample.rt (Some "/news-images/a.jpg") "news"
                             Sample.world)) f = false.
Proof.
  split; [reflexivity|]. split; [reflexivity|].
  assert (Hplain : forall f,
             UploadUrls.deleteFile_target Sample.rt (Some "/news-images/a.jpg") "news"
             = Some f -> plain_name (snd f) = true).
  { intros f H. vm_compute in H. inversion H. reflexivity. }
  apply (proj1 (proj2 (proj2 (proj2 (proj2
           (deleteFile_removes_only_its_target Sample.rt (Some "/news-images/a.jpg")
              "news" Sample.world Hplain)))))).
  reflexivity.
Defined.

Lemma deleteFiles_removes_its_targets_witness :
  UploadUrls.deleteFile_target Sample.rt (Some "/news-images/a.jpg") "news"
  = Some (newsImagesDir, "a.jpg")
  /\ UploadUrls.deleteFile_target Sample.rt (Some "/news-images/b.jpg") "news"
     = Some (newsImagesDir, "b.jpg")
  /\ plain_name "a.jpg" = true
  /\ plain_name "b.jpg" = true
  /\ existsSync (deleteFiles Sample.rt
                   [Some "/news-images/a.jpg"; Some "/news-images/b.jpg"]
                   "news" Sample.world) (newsImagesDir, "b.jpg") = false.
Proof.
  split; [reflexivity|]. split; [reflexivity|].
  split; [reflexivity|]. split; [reflexivity|].
  assert (Hplain : forall u f,
             In u [Some "/news-images/a.jpg"; Some "/news-images/b.jpg"] ->
             UploadUrls.deleteFile_target Sample.rt u "news" = Some f ->
             plain_name (snd f) = true).
  { intros u f [<- | [<- | []]] H; vm_compute in H; inversion H; reflexivity. }
  apply (proj2 (proj2 (proj2 (proj2
           (deleteFiles_removes_its_targets Sample.rt
              [Some "/news-images/a.jpg"; Some "/news-images/b.jpg"] "news"
              Sample.world Hplain))))
           (Some "/news-images/b.jpg") (newsImagesDir, "b.jpg"));
    [right; left; reflexivity | reflexivity | reflexivity].
Defined.

Lemma createMultiple_inserts_leading_entries_witness :
  snd (NewsAndEventsImage.createMultiple 2 [Some "/news-images/z.jpg"; None] Sample.world)
  = Throw "Cannot read properties of null (reading 'url')".
Proof.
  apply (proj1 (proj2 (proj2
           (createMultiple_inserts_leading_entries 2 [Some "/news-images/z.jpg"; None]
              Sample.world)))).
  right; left; reflexivity.
Defined.

Lemma deleteByNewsAndEventsId_clears_one_item_witness :
  snd (NewsAndEventsImage.findByNewsAndEventsId 1
         (fst (NewsAndEventsImage.deleteByNewsAndEventsId 2 Sample.world)))
  = snd (NewsAndEventsImage.findByNewsAndEventsId 1 Sample.world).
Proof.
  apply (proj1 (proj2 (deleteByNewsAndEventsId_clears_one_item 2 Sample.world)) 1).
  discriminate.
Defined.

Lemma updateOrder_changes_only_the_order_witness :
  img_id Sample.image1 = 1
  /\ image_order
       {| img_id := 1; img_news_and_events_id := 1; image_url := "/news-images/a.jpg";
          image_order := 5; img_created_at := 100 |} = 5.
Proof.
  apply (proj1 (proj2 (proj2 (proj2 (proj2
           (updateOrder_changes_only_the_order 1 5 Sample.world)))))
           {| img_id := 1; img_news_and_events_id := 1;
              image_url := "/news-images/a.jpg";
              image_order := 5; img_created_at := 100 |}).
  reflexivity.
Defined.

Lemma findAll_parameter_checks_never_fail_witness :
  exists q,
    NewsAndEvents.findAll_query Sample.rt Fixtures.active_in_category = Return q
    /\ well_formed q.
Proof.
  eexists. split; [reflexivity|].
  apply (proj2 (findAll_parameter_checks_never_fail Sample.rt
                  Fixtures.active_in_category)).
  reflexivity.
Defined.

Lemma failed_write_changes_nothing_witness :
  fst (NewsAndEvents.update Sample.rt 1 Fixtures.bad_date Sample.world) = Sample.world.
Proof.
  apply (proj1 (proj2 (proj2
           (failed_write_changes_nothing Sample.rt 1 3 Fixtures.bad_date
              Fixtures.new_item Sample.world)))
           "Expected string, got number: 5").
  reflexivity.
Defined.

Lemma getNewsAndEventsById_reads_any_item_witness :
  status (snd (ControllerMore.getNewsAndEventsById Sample.rt 2 Sample.world)) = 200
  /\ snd (ControllerMore.getNewsAndEventsById Sample.rt 5 Sample.world)
     = respond 404 false "News and events not found" NoData.
Proof.
  split.
  - apply (proj2 (proj2 (proj2 (proj2
             (getNewsAndEventsById_reads_any_item Sample.rt 2 Sample.world))))
             Sample.news2).
    reflexivity.
  - apply (proj1 (proj2 (proj2 (proj2
             (getNewsAndEventsById_reads_any_item Sample.rt 5 Sample.world))))).
    intros r [<- | [<- | []]]; discriminate.
Defined.

Lemma deleteNewsAndEvents_removes_item_and_images_witness :
  snd (ControllerMore.getNewsAndEventsById Sample.rt 1
         (fst (ControllerMore.deleteNewsAndEvents Sample.rt 1 Sample.world)))
  = respond 404 false "News and events not found" NoData.
Proof.
  apply (proj1 (proj2
           (deleteNewsAndEvents_removes_item_and_images Sample.rt 1 Sample.world))).
  exists Sample.news1. split; [now left | reflexivity].
Defined.

Lemma authenticate_requires_verified_token_witness :
  Auth.authenticate Fixtures.verify (Some ("Token" ++ " " ++ "good"))
  = Auth.authenticate Fixtures.verify (Some ("Bearer " ++ "good")).
Proof.
  apply (proj2 (proj2 (authenticate_requires_verified_token Fixtures.verify None))
           "Token" "good"); reflexivity.
Defined.

Lemma image_delete_removes_exactly_the_row_witness :
  snd (NewsAndEventsImage.delete 1 Sample.world) = true.
Proof.
  apply (proj2 (proj1 (image_delete_removes_exactly_the_row 1 Sample.world))).
  exists Sample.image1. split; [now left | reflexivity].
Defined.
